(** * MonadDemo: the session controller of [public/app.js]

    A shallow embedding of the [MonadDemo] class: the fields of [this], the
    document it writes to, the pending timers and the sequence of externally
    visible effects are threaded through a small state-and-exception monad.
    The wallet, the backing service, the deployed contract, the ethers
    helpers and the language runtime are collaborators of the controller and
    are taken as an environment of responses. *)

From Stdlib Require Import ZArith QArith Ascii String.
From stdpp Require Import gmap strings list.

Local Open Scope string_scope.

(** ** Values exchanged with the collaborators *)

(** A thrown JavaScript value that has properties: an [Error] object or any
    other value but [null] and [undefined].  The controller reads only
    [error.message], recorded here as the text that read yields.  A
    rejection with [null] or [undefined], on which that read is itself a
    [TypeError] raised inside the [catch] block, is outside the model: the
    collaborators of [Env] reject with values of this type only. *)
Record Error := mkError { message : string }.

(** The result of [ToNumber] on a string. *)
Inductive JsNumber :=
| NaN
| Num (q : Q)
| PosInfinity
| NegInfinity.

(** [x < y] of the language: [None] is the undefined answer given when one
    side is NaN. *)
Definition js_lt (x y : JsNumber) : option bool :=
  match x, y with
  | NaN, _ | _, NaN => None
  | Num p, Num q => Some (negb (Qle_bool q p))
  | PosInfinity, _ => Some false
  | NegInfinity, NegInfinity => Some false
  | NegInfinity, _ => Some true
  | Num _, PosInfinity => Some true
  | Num _, NegInfinity => Some false
  end.

(** [x <= y] is [!(y < x)], and false when the comparison is undefined. *)
Definition js_le (x y : JsNumber) : bool :=
  match js_lt y x with
  | Some b => negb b
  | None => false
  end.

(** [x > y] is [y < x], and false when the comparison is undefined. *)
Definition js_gt (x y : JsNumber) : bool :=
  match js_lt y x with
  | Some b => b
  | None => false
  end.

(** The interface descriptor served by [/api/contract-abi]. *)
Definition Abi := list string.

(** The object a response body parses to; a missing property reads as
    [undefined], here [None]. *)
Record Json := mkJson {
  address : option string;
  explorerUrl : option string;
  name : option string;
  symbol : option string;
  totalSupply : option string;
  maxSupply : option string;
  abi : option Abi
}.

(** A settled [fetch]: the [ok] flag and what [response.json()] settles to. *)
Record Response := mkResponse {
  ok : bool;
  json : Error + Json
}.

(** The parameter object of [wallet_addEthereumChain]. *)
Record ChainParams := mkChainParams {
  chainId : string;
  chainName : string;
  currencyName : string;
  currencySymbol : string;
  currencyDecimals : Z;
  rpcUrls : list string;
  blockExplorerUrls : list string
}.

(** [window.ethereum] together with what the provider and signer wrapped
    around it answer. *)
Record Wallet := mkWallet {
  eth_accounts : Error + list string;
  eth_requestAccounts : Error + list string;
  wallet_addEthereumChain : ChainParams -> Error + unit;
  getAddress : Error + string;
  getNetwork : Error + Z;
  getBalance : string -> Error + Z
}.

(** The submission handle returned by a state-changing contract call. *)
Record Tx := mkTx {
  hash : string;
  wait : Error + unit
}.

(** What the deployed contract answers through a bound [ethers.Contract]. *)
Record Deployed := mkDeployed {
  balanceOf : string -> Error + Z;
  whitelist : string -> Error + bool;
  whitelistMint : Z -> Error + Tx;
  transfer : string -> Z -> Error + Tx
}.

(** Everything the controller does not implement itself. *)
Record Env := mkEnv {
  ethereum : option Wallet;
  fetch : string -> Error + Response;
  deployed : Deployed;
  ethers_Contract : string -> Abi -> option Error;
  parseEther : string -> Error + Z;
  formatEther : Z -> string;
  bigNumberFrom : string -> Error + Z;
  isAddress : string -> bool;
  ToNumber : string -> JsNumber;
  now : nat;
  toLocaleString : nat -> string;
  typeErrorMessage : string -> string
}.

(** ** The controller object *)

Inductive Provider := Web3Provider (w : Wallet).
Inductive Signer := JsonRpcSigner (w : Wallet).

Record Contract := mkContract {
  caddress : string;
  cabi : Abi;
  csigner : option Signer
}.

Record TxRecord := mkTxRecord {
  type : string;
  txhash : string;
  details : string;
  timestamp : nat
}.

(** The fields of [this]. *)
Record MonadDemo := mkMonadDemo {
  provider : option Provider;
  signer : option Signer;
  contract : option Contract;
  contractAddress : option string;
  contractABI : option Abi;
  userAddress : option string;
  txHistory : list TxRecord
}.

(** The object built by the constructor before [init] runs. *)
Definition constructor : MonadDemo :=
  {| provider := None; signer := None; contract := None;
     contractAddress := None; contractABI := None; userAddress := None;
     txHistory := [] |}.

(** ** The document *)

Record Element := mkElement {
  innerHTML : string;
  textContent : string;
  classList : list string;
  disabled : bool;
  value : string;
  href : option string;
  styleColor : string
}.

Definition blankElement : Element :=
  {| innerHTML := EmptyString; textContent := EmptyString; classList := [];
     disabled := false; value := EmptyString; href := None;
     styleColor := EmptyString |}.

Inductive DomWrite :=
| SetInnerHTML (s : string)
| SetTextContent (s : string)
| SetClassName (s : string)
| ClassListAdd (tok : string)
| ClassListRemove (tok : string)
| SetDisabled (b : bool)
| SetValue (s : string)
| SetHref (u : option string)
| SetStyleColor (s : string).

Definition is_space (c : ascii) : bool :=
  match nat_of_ascii c with
  | 9 | 10 | 12 | 13 | 32 => true
  | _ => false
  end.

(** The class tokens of a [className] string: its space-separated words. *)
Fixpoint tokens_aux (acc : string) (s : string) : list string :=
  match s with
  | EmptyString => if String.eqb acc EmptyString then [] else [acc]
  | String c rest =>
      if is_space c
      then (if String.eqb acc EmptyString then [] else [acc]) ++ tokens_aux EmptyString rest
      else tokens_aux (acc ++ String c EmptyString) rest
  end.

Definition tokens (s : string) : list string := tokens_aux EmptyString s.

Definition has_token (tok : string) (l : list string) : bool :=
  existsb (String.eqb tok) l.

Definition applyWrite (w : DomWrite) (e : Element) : Element :=
  match w with
  | SetInnerHTML s =>
      mkElement s (textContent e) (classList e) (disabled e) (value e) (href e) (styleColor e)
  | SetTextContent s =>
      mkElement (innerHTML e) s (classList e) (disabled e) (value e) (href e) (styleColor e)
  | SetClassName s =>
      mkElement (innerHTML e) (textContent e) (tokens s) (disabled e) (value e) (href e) (styleColor e)
  | ClassListAdd tok =>
      mkElement (innerHTML e) (textContent e)
        (if has_token tok (classList e) then classList e else classList e ++ [tok])
        (disabled e) (value e) (href e) (styleColor e)
  | ClassListRemove tok =>
      mkElement (innerHTML e) (textContent e)
        (filter (fun t => t ≠ tok) (classList e))
        (disabled e) (value e) (href e) (styleColor e)
  | SetDisabled b =>
      mkElement (innerHTML e) (textContent e) (classList e) b (value e) (href e) (styleColor e)
  | SetValue s =>
      mkElement (innerHTML e) (textContent e) (classList e) (disabled e) s (href e) (styleColor e)
  | SetHref u =>
      mkElement (innerHTML e) (textContent e) (classList e) (disabled e) (value e) u (styleColor e)
  | SetStyleColor s =>
      mkElement (innerHTML e) (textContent e) (classList e) (disabled e) (value e) (href e) s
  end.

(** Modelled from the spec: the page markup is not part of the sources; the
    presentation surface is "a fixed set of named display slots", so every
    id the controller names denotes an element, blank until written. *)
Definition getElementById (id : string) (d : gmap string Element) : Element :=
  default blankElement (d !! id).

Definition hidden (e : Element) : bool := has_token "hidden" (classList e).

(** The document after the property write [wr] on the element [id]. *)
Definition writeTo (id : string) (wr : DomWrite) (d : gmap string Element) :
    gmap string Element :=
  <[id := applyWrite wr (getElementById id d)]> d.

(** ** Effects *)

Inductive Event :=
| EvFetch (url : string)
| EvEthereumRequest (method : string) (params : list ChainParams)
| EvSignerGetAddress
| EvProviderGetNetwork
| EvProviderGetBalance (addr : string)
| EvContractBalanceOf (addr : string)
| EvContractWhitelist (addr : string)
| EvContractWhitelistMint (amount : Z)
| EvContractTransfer (to : string) (amount : Z)
| EvTxWait (h : string)
| EvConsoleError (label : string) (e : Error)
| EvAlert (msg : string)
| EvSetTimeout (id : string) (delay : nat)
| EvListen (id : string)
| EvDom (id : string) (w : DomWrite).

(** Calls that leave the page: the backing service, the wallet, the chain. *)
Definition is_network_call (e : Event) : bool :=
  match e with
  | EvFetch _ | EvEthereumRequest _ _ | EvSignerGetAddress
  | EvProviderGetNetwork | EvProviderGetBalance _ | EvContractBalanceOf _
  | EvContractWhitelist _ | EvContractWhitelistMint _
  | EvContractTransfer _ _ | EvTxWait _ => true
  | _ => false
  end.

(** A callback registered with [setTimeout]: the closure of [showStatus]
    keeps the element it will hide. *)
Record Timer := mkTimer {
  target : string;
  delay : nat
}.

Inductive Handler := HConnect | HMint | HTransfer | HAddNetwork.

Record World := mkWorld {
  this : MonadDemo;
  dom : gmap string Element;
  timers : list Timer;
  listeners : list (string * Handler);
  trace : list Event
}.

Definition with_this (f : MonadDemo -> MonadDemo) (w : World) : World :=
  mkWorld (f (this w)) (dom w) (timers w) (listeners w) (trace w).

Inductive Outcome (A : Type) :=
| Ret (a : A)
| Throw (e : Error).
Arguments Ret {A} a.
Arguments Throw {A} e.

Definition M (A : Type) : Type := World -> Outcome A * World.

Definition ret {A} (a : A) : M A := fun w => (Ret a, w).

Definition throw {A} (e : Error) : M A := fun w => (Throw e, w).

Definition bind {A B} (m : M A) (k : A -> M B) : M B :=
  fun w =>
    match m w with
    | (Ret a, w') => k a w'
    | (Throw e, w') => (Throw e, w')
    end.

(** [try { body } catch (error) { handler }] *)
Definition try_catch {A} (body : M A) (handler : Error -> M A) : M A :=
  fun w =>
    match body w with
    | (Ret a, w') => (Ret a, w')
    | (Throw e, w') => handler e w'
    end.

Declare Scope js_scope.
Delimit Scope js_scope with js.
Notation "x <- c1 ;; c2" := (bind c1 (fun x => c2))
  (at level 100, c1 at next level, right associativity) : js_scope.
Notation "c1 ;;; c2" := (bind c1 (fun _ => c2))
  (at level 100, right associativity) : js_scope.
Local Open Scope js_scope.

Definition emit (e : Event) : M unit :=
  fun w => (Ret tt, mkWorld (this w) (dom w) (timers w) (listeners w) (trace w ++ [e])).

Definition get_this : M MonadDemo := fun w => (Ret (this w), w).

Definition modify_this (f : MonadDemo -> MonadDemo) : M unit :=
  fun w => (Ret tt, with_this f w).

(** [await] of a promise the environment settles: the call is issued, then
    the continuation resumes with the value or the rejection is thrown. *)
Definition await {A} (call : Event) (r : Error + A) : M A :=
  emit call ;;;
  match r with
  | inl e => throw e
  | inr a => ret a
  end.

(** A property write on [document.getElementById(id)]. *)
Definition dom_write (id : string) (wr : DomWrite) : M unit :=
  fun w =>
    (Ret tt,
     mkWorld (this w) (writeTo id wr (dom w))
       (timers w) (listeners w) (trace w ++ [EvDom id wr])).

Definition dom_value (id : string) : M string :=
  fun w => (Ret (value (getElementById id (dom w))), w).

Definition setTimeout (id : string) (ms : nat) : M unit :=
  fun w =>
    (Ret tt,
     mkWorld (this w) (dom w) (timers w ++ [mkTimer id ms]) (listeners w)
       (trace w ++ [EvSetTimeout id ms])).

Definition addEventListener (id : string) (h : Handler) : M unit :=
  fun w =>
    (Ret tt,
     mkWorld (this w) (dom w) (timers w) (listeners w ++ [(id, h)])
       (trace w ++ [EvListen id])).

Definition console_error (label : string) (e : Error) : M unit :=
  emit (EvConsoleError label e).

Definition alert (msg : string) : M unit := emit (EvAlert msg).

(** Truthiness of a string-valued property that may be undefined. *)
Definition truthy (o : option string) : bool :=
  match o with
  | Some s => negb (String.eqb s EmptyString)
  | None => false
  end.

Definition lift {A} (r : Error + A) : M A :=
  match r with
  | inl e => throw e
  | inr a => ret a
  end.

(** The double quote character, for the markup the controller writes. *)
Definition dq : string := String (ascii_of_nat 34) EmptyString.

(** [array.slice(start, end)] for indices within [0, length]. *)
Definition slice {A} (start end_ : nat) (l : list A) : list A :=
  take (end_ - start) (drop start l).

(** [array.join(sep)] on an array of strings. *)
Definition join (sep : string) (l : list string) : string := String.concat sep l.

(** ** The methods of [MonadDemo] *)

Section Controller.

Variable env : Env.

(** The [TypeError] of reading property [prop] of [undefined] or [null]. *)
Definition typeError (prop : string) : Error := mkError (typeErrorMessage env prop).

Definition showStatus (elementId message type : string) : M unit :=
  dom_write elementId (SetInnerHTML message) ;;;
  dom_write elementId (SetClassName ("status " ++ type)) ;;;
  dom_write elementId (ClassListRemove "hidden") ;;;
  if String.eqb type "success"
  then setTimeout elementId 5000
  else ret tt.

(** [substring] and [length] count the characters of a [string], which are
    bytes; the source counts UTF-16 code units.  The two agree on ASCII text,
    which the account addresses this is applied to are, and statements about
    [formatAddress] are restricted to such text. *)
Definition formatAddress (address : string) : string :=
  String.substring 0 6 address ++ "..." ++
  String.substring (String.length address - 4) (String.length address) address.

Definition renderTx (tx : TxRecord) : string :=
  "
            <div style=" ++ dq ++ "padding: 10px; border-bottom: 1px solid #eee; margin-bottom: 10px;" ++ dq ++ ">
                <div style=" ++ dq ++ "display: flex; justify-content: space-between; align-items: center;" ++ dq ++ ">
                    <strong>" ++ type tx ++ "</strong>
                    <span style=" ++ dq ++ "font-size: 12px; color: #666;" ++ dq ++ ">" ++ toLocaleString env (timestamp tx) ++ "</span>
                </div>
                <div style=" ++ dq ++ "font-size: 14px; margin: 5px 0;" ++ dq ++ ">" ++ details tx ++ "</div>
                <div>
                    <a href=" ++ dq ++ "https://explorer-testnet.monad.xyz/tx/" ++ txhash tx ++ dq ++ " target=" ++ dq ++ "_blank" ++ dq ++ " class=" ++ dq ++ "link" ++ dq ++ ">
                        View Transaction
                    </a>
                </div>
            </div>
        ".

(** The records [updateTransactionHistory] renders: [txHistory.slice(0, 10)]. *)
Definition historyWindow (h : list TxRecord) : list TxRecord := slice 0 10 h.

(** The markup built from the window: each record rendered, joined with
    nothing in between. *)
Definition historyHTML (h : list TxRecord) : string :=
  join EmptyString (map renderTx (historyWindow h)).

Definition updateTransactionHistory : M unit :=
  a <- get_this ;;
  if Nat.eqb (length (txHistory a)) 0
  then dom_write "txHistory" (SetInnerHTML "<p>No transactions yet...</p>")
  else dom_write "txHistory" (SetInnerHTML (historyHTML (txHistory a))).

Definition unshift (r : TxRecord) (a : MonadDemo) : MonadDemo :=
  mkMonadDemo (provider a) (signer a) (contract a) (contractAddress a)
    (contractABI a) (userAddress a) (r :: txHistory a).

Definition addTransaction (type hash details : string) : M unit :=
  modify_this (unshift (mkTxRecord type hash details (now env))) ;;;
  updateTransactionHistory.

Definition set_contractAddress (v : option string) (a : MonadDemo) : MonadDemo :=
  mkMonadDemo (provider a) (signer a) (contract a) v
    (contractABI a) (userAddress a) (txHistory a).

Definition set_contractABI (v : option Abi) (a : MonadDemo) : MonadDemo :=
  mkMonadDemo (provider a) (signer a) (contract a) (contractAddress a)
    v (userAddress a) (txHistory a).

Definition set_provider (v : option Provider) (a : MonadDemo) : MonadDemo :=
  mkMonadDemo v (signer a) (contract a) (contractAddress a)
    (contractABI a) (userAddress a) (txHistory a).

Definition set_signer (v : option Signer) (a : MonadDemo) : MonadDemo :=
  mkMonadDemo (provider a) v (contract a) (contractAddress a)
    (contractABI a) (userAddress a) (txHistory a).

Definition set_userAddress (v : option string) (a : MonadDemo) : MonadDemo :=
  mkMonadDemo (provider a) (signer a) (contract a) (contractAddress a)
    (contractABI a) v (txHistory a).

Definition set_contract (v : option Contract) (a : MonadDemo) : MonadDemo :=
  mkMonadDemo (provider a) (signer a) v (contractAddress a)
    (contractABI a) (userAddress a) (txHistory a).

(** [Promise.all] of the two fetches: both requests are issued, and a
    rejection of either rejects the whole (when both reject, the one listed
    first is taken here; the handler only logs it). *)
Definition fetchBoth (url1 url2 : string) : M (Response * Response) :=
  emit (EvFetch url1) ;;;
  emit (EvFetch url2) ;;;
  match fetch env url1, fetch env url2 with
  | inr r1, inr r2 => ret (r1, r2)
  | inl e, _ => throw e
  | inr _, inl e => throw e
  end.

Definition loadContractInfo : M unit :=
  try_catch
    (rs <- fetchBoth "/api/contract-info" "/api/contract-abi" ;;
     let contractResponse := fst rs in
     let abiResponse := snd rs in
     (if ok contractResponse
      then contractData <- lift (json contractResponse) ;;
           modify_this (set_contractAddress (address contractData)) ;;;
           dom_write "contractLink" (SetHref (explorerUrl contractData))
      else ret tt) ;;;
     (if ok abiResponse
      then abiData <- lift (json abiResponse) ;;
           modify_this (set_contractABI (abi abiData))
      else ret tt))
    (fun error => console_error "Failed to load contract info:" error).

Definition setupEventListeners : M unit :=
  addEventListener "connectBtn" HConnect ;;;
  addEventListener "mintBtn" HMint ;;;
  addEventListener "transferBtn" HTransfer ;;;
  addEventListener "addNetworkBtn" HAddNetwork.

Definition updateTokenInfo : M unit :=
  a <- get_this ;;
  match contract a with
  | None => ret tt
  | Some _ =>
      if negb (truthy (userAddress a)) then ret tt
      else
        let user := default EmptyString (userAddress a) in
        try_catch
          (balance <- await (EvContractBalanceOf user) (balanceOf (deployed env) user) ;;
           dom_write "userBalance" (SetTextContent (formatEther env balance ++ " CHAL")) ;;;
           isWhitelisted <- await (EvContractWhitelist user) (whitelist (deployed env) user) ;;
           dom_write "whitelistStatus"
             (SetTextContent (if isWhitelisted : bool then "✅ Whitelisted" else "❌ Not Whitelisted")) ;;;
           dom_write "whitelistStatus"
             (SetStyleColor (if isWhitelisted : bool then "green" else "red")))
          (fun error => console_error "Failed to update token info:" error)
  end.

Definition updateUI : M unit :=
  a <- get_this ;;
  if negb (truthy (userAddress a)) then ret tt
  else
    let user := default EmptyString (userAddress a) in
    dom_write "accountAddress" (SetTextContent (formatAddress user)) ;;;
    balance <- match provider a with
               | None => throw (typeError "getBalance")
               | Some (Web3Provider wl) =>
                   await (EvProviderGetBalance user) (getBalance wl user)
               end ;;
    dom_write "accountBalance" (SetTextContent (formatEther env balance)) ;;;
    dom_write "accountInfo" (ClassListRemove "hidden") ;;;
    dom_write "connectBtn" (SetTextContent "Connected") ;;;
    dom_write "connectBtn" (SetDisabled true) ;;;
    dom_write "mintBtn" (SetDisabled false) ;;;
    dom_write "transferBtn" (SetDisabled false) ;;;
    updateTokenInfo.

Definition bindContract : M unit :=
  a <- get_this ;;
  match contractAddress a, contractABI a with
  | Some addr, Some descriptor =>
      if truthy (Some addr)
      then match ethers_Contract env addr descriptor with
           | Some e => throw e
           | None => modify_this (set_contract (Some (mkContract addr descriptor (signer a))))
           end
      else ret tt
  | _, _ => ret tt
  end.

Definition connectWallet (requestConnection : bool) : M unit :=
  try_catch
    (match ethereum env with
     | None => throw (mkError "Please install MetaMask")
     | Some wl =>
         (if requestConnection
          then _ <- await (EvEthereumRequest "eth_requestAccounts" [])
                      (eth_requestAccounts wl) ;;
               ret tt
          else ret tt) ;;;
         modify_this (set_provider (Some (Web3Provider wl))) ;;;
         modify_this (set_signer (Some (JsonRpcSigner wl))) ;;;
         user <- await EvSignerGetAddress (getAddress wl) ;;
         modify_this (set_userAddress (Some user)) ;;;
         network <- await EvProviderGetNetwork (getNetwork wl) ;;
         if negb (Z.eqb network 41454)
         then showStatus "connectionStatus" "Please switch to Monad Testnet" "error"
         else
           bindContract ;;;
           updateUI ;;;
           showStatus "connectionStatus" "Wallet connected successfully!" "success"
     end)
    (fun error =>
       console_error "Connection error:" error ;;;
       showStatus "connectionStatus" ("Connection failed: " ++ message error) "error").

Definition checkWalletConnection : M unit :=
  match ethereum env with
  | Some wl =>
      try_catch
        (accounts <- await (EvEthereumRequest "eth_accounts" []) (eth_accounts wl) ;;
         if Nat.ltb 0 (length accounts)
         then connectWallet false
         else ret tt)
        (fun error => console_error "Error checking wallet connection:" error)
  | None =>
      showStatus "connectionStatus" "Please install MetaMask or another Web3 wallet" "error"
  end.

(** [x || 'N/A'] on a string property. *)
Definition or_NA (o : option string) : string :=
  if truthy o then default EmptyString o else "N/A".

(** [x ? ethers.utils.formatEther(x) : 'N/A'] on a decimal-string property. *)
Definition formatOrNA (o : option string) : M string :=
  if truthy o
  then v <- lift (bigNumberFrom env (default EmptyString o)) ;;
       ret (formatEther env v)
  else ret "N/A".

Definition updateContractInfo : M unit :=
  try_catch
    (response <- await (EvFetch "/api/contract-info") (fetch env "/api/contract-info") ;;
     if ok response
     then data <- lift (json response) ;;
          dom_write "tokenName" (SetTextContent (or_NA (name data))) ;;;
          dom_write "tokenSymbol" (SetTextContent (or_NA (symbol data))) ;;;
          total <- formatOrNA (totalSupply data) ;;
          dom_write "totalSupply" (SetTextContent total) ;;;
          cap <- formatOrNA (maxSupply data) ;;
          dom_write "maxSupply" (SetTextContent cap)
     else ret tt)
    (fun error => console_error "Failed to update contract info:" error).

(** An [async] method called without [await] runs up to its first [await]
    and hands back a promise; the rest runs when the awaited promise has
    settled.  [checkWalletConnection] cut at its first [await]: the request
    for the authorized accounts goes out, or, with no wallet, the install
    message is shown and nothing is left to do. *)
Definition checkWalletConnection_start : M unit :=
  match ethereum env with
  | Some _ => emit (EvEthereumRequest "eth_accounts" [])
  | None =>
      showStatus "connectionStatus" "Please install MetaMask or another Web3 wallet" "error"
  end.

Definition checkWalletConnection_resume : M unit :=
  match ethereum env with
  | Some wl =>
      try_catch
        (accounts <- lift (eth_accounts wl) ;;
         if Nat.ltb 0 (length accounts)
         then connectWallet false
         else ret tt)
        (fun error => console_error "Error checking wallet connection:" error)
  | None => ret tt
  end.

(** [updateContractInfo] cut at its first [await]: the request goes out. *)
Definition updateContractInfo_start : M unit :=
  emit (EvFetch "/api/contract-info").

Definition updateContractInfo_resume : M unit :=
  try_catch
    (response <- lift (fetch env "/api/contract-info") ;;
     if ok response
     then data <- lift (json response) ;;
          dom_write "tokenName" (SetTextContent (or_NA (name data))) ;;;
          dom_write "tokenSymbol" (SetTextContent (or_NA (symbol data))) ;;;
          total <- formatOrNA (totalSupply data) ;;
          dom_write "totalSupply" (SetTextContent total) ;;;
          cap <- formatOrNA (maxSupply data) ;;
          dom_write "maxSupply" (SetTextContent cap)
     else ret tt)
    (fun error => console_error "Failed to update contract info:" error).

(** [init] awaits [loadContractInfo], registers the listeners, starts the
    wallet check without awaiting it (line 18) and enters
    [updateContractInfo] at once, so the summary request goes out right
    after the wallet check's first request, before anything Connect does.
    From there the event loop resumes the two tasks as their promises
    settle; the order taken here resumes the wallet check first and the
    summary refresh after it.  What is stated of [init] below does not
    depend on that choice. *)
Definition init : M unit :=
  loadContractInfo ;;;
  setupEventListeners ;;;
  checkWalletConnection_start ;;;
  updateContractInfo_start ;;;
  checkWalletConnection_resume ;;;
  updateContractInfo_resume.

Definition loading : string := " <div class=" ++ dq ++ "loading" ++ dq ++ "></div>".

Definition mintTokens : M unit :=
  a <- get_this ;;
  match contract a with
  | None => ret tt
  | Some _ =>
      amount <- dom_value "mintAmount" ;;
      if String.eqb amount EmptyString || js_le (ToNumber env amount) (Num (inject_Z 0))
      then showStatus "mintStatus" "Please enter a valid amount" "error"
      else if js_gt (ToNumber env amount) (Num (inject_Z 1000))
      then showStatus "mintStatus" "Maximum mint amount is 1000 tokens" "error"
      else
        try_catch
          (showStatus "mintStatus" ("Minting tokens..." ++ loading) "info" ;;;
           mintAmount <- lift (parseEther env amount) ;;
           tx <- await (EvContractWhitelistMint mintAmount)
                   (whitelistMint (deployed env) mintAmount) ;;
           showStatus "mintStatus" ("Transaction sent: " ++ hash tx) "info" ;;;
           addTransaction "Mint" (hash tx) (amount ++ " CHAL") ;;;
           await (EvTxWait (hash tx)) (wait tx) ;;;
           showStatus "mintStatus" ("Successfully minted " ++ amount ++ " CHAL tokens!") "success" ;;;
           updateTokenInfo)
          (fun error =>
             console_error "Mint error:" error ;;;
             showStatus "mintStatus" ("Mint failed: " ++ message error) "error")
  end.

Definition transferTokens : M unit :=
  a <- get_this ;;
  match contract a with
  | None => ret tt
  | Some _ =>
      to <- dom_value "transferTo" ;;
      amount <- dom_value "transferAmount" ;;
      if String.eqb to EmptyString || negb (isAddress env to)
      then showStatus "transferStatus" "Please enter a valid address" "error"
      else if String.eqb amount EmptyString || js_le (ToNumber env amount) (Num (inject_Z 0))
      then showStatus "transferStatus" "Please enter a valid amount" "error"
      else
        try_catch
          (showStatus "transferStatus" ("Transferring tokens..." ++ loading) "info" ;;;
           transferAmount <- lift (parseEther env amount) ;;
           tx <- await (EvContractTransfer to transferAmount)
                   (transfer (deployed env) to transferAmount) ;;
           showStatus "transferStatus" ("Transaction sent: " ++ hash tx) "info" ;;;
           addTransaction "Transfer" (hash tx)
             (amount ++ " CHAL to " ++ formatAddress to) ;;;
           await (EvTxWait (hash tx)) (wait tx) ;;;
           showStatus "transferStatus" ("Successfully transferred " ++ amount ++ " CHAL!") "success" ;;;
           updateTokenInfo ;;;
           dom_write "transferTo" (SetValue EmptyString) ;;;
           dom_write "transferAmount" (SetValue EmptyString))
          (fun error =>
             console_error "Transfer error:" error ;;;
             showStatus "transferStatus" ("Transfer failed: " ++ message error) "error")
  end.

(** The chain parameters [addNetwork] registers. *)
Definition monadTestnet : ChainParams :=
  {| chainId := "0xA1F6";
     chainName := "Monad Testnet";
     currencyName := "Monad";
     currencySymbol := "MON";
     currencyDecimals := 18;
     rpcUrls := ["https://testnet1.monad.xyz"];
     blockExplorerUrls := ["https://explorer-testnet.monad.xyz"] |}.

Definition addNetwork : M unit :=
  try_catch
    (match ethereum env with
     | None => throw (typeError "request")
     | Some wl =>
         await (EvEthereumRequest "wallet_addEthereumChain" [monadTestnet])
           (wallet_addEthereumChain wl monadTestnet)
     end ;;;
     alert "Monad Testnet added to your wallet!")
    (fun error =>
       console_error "Failed to add network:" error ;;;
       alert ("Failed to add network: " ++ message error)).

(** What a registered click handler runs. *)
Definition handle (h : Handler) : M unit :=
  match h with
  | HConnect => connectWallet true
  | HMint => mintTokens
  | HTransfer => transferTokens
  | HAddNetwork => addNetwork
  end.

End Controller.

(** The callback of the [n]-th pending timer runs: the timer leaves the
    queue and the element it closed over gets the [hidden] class. *)
Definition fireTimer (n : nat) : M unit :=
  fun w =>
    match timers w !! n with
    | None => (Ret tt, w)
    | Some t =>
        dom_write (target t) (ClassListAdd "hidden")
          (mkWorld (this w) (dom w) (delete n (timers w)) (listeners w) (trace w))
    end.

(** The world the page starts in: a fresh controller over an untouched
    document. *)
Definition pageLoad : World :=
  {| this := constructor; dom := ∅; timers := []; listeners := []; trace := [] |}.

(** ** Observing a run *)

(** The world a computation leaves behind. *)
Definition run {A} (m : M A) (w : World) : World := snd (m w).

(** The effects recorded between two worlds of one run. *)
Definition newEvents (w w' : World) : list Event :=
  drop (length (trace w)) (trace w').

Definition networkCalls (w w' : World) : list Event :=
  List.filter is_network_call (newEvents w w').

(** The three writes of [showStatus]. *)
Definition statusEvents (id message type : string) : list Event :=
  [EvDom id (SetInnerHTML message);
   EvDom id (SetClassName ("status " ++ type));
   EvDom id (ClassListRemove "hidden")].

(** A relation between the world before and the world after a run. *)
Definition preserves {A} (R : World -> World -> Prop) (m : M A) : Prop :=
  forall w, R w (run m w).

(** Pending timers are never removed: the queue only grows at its end. *)
Definition keepsTimers (w w' : World) : Prop := timers w `prefix_of` timers w'.

(** The transaction log is left as it was. *)
Definition keepsHistory (w w' : World) : Prop :=
  txHistory (this w') = txHistory (this w).

(** The bound contract handle is left as it was. *)
Definition keepsContract (w w' : World) : Prop :=
  contract (this w') = contract (this w).

(** The computation never throws. *)
Definition returns {A} (m : M A) : Prop :=
  forall w, exists a, fst (m w) = Ret a.

(** A body that could not be read, as a flag. *)
Definition unreadable (r : Response) : bool :=
  match json r with
  | inl _ => true
  | inr _ => false
  end.

(** ** Reading the registered chain id *)

Definition hexDigit (c : ascii) : option Z :=
  let n := Z.of_nat (nat_of_ascii c) in
  if (48 <=? n)%Z && (n <=? 57)%Z then Some (n - 48)%Z
  else if (65 <=? n)%Z && (n <=? 70)%Z then Some (n - 55)%Z
  else if (97 <=? n)%Z && (n <=? 102)%Z then Some (n - 87)%Z
  else None.

Fixpoint hexDigits (acc : Z) (s : string) : option Z :=
  match s with
  | EmptyString => Some acc
  | String c rest =>
      match hexDigit c with
      | Some d => hexDigits (16 * acc + d)%Z rest
      | None => None
      end
  end.

(** The number a [0x]-prefixed chain id string denotes. *)
Definition hexValue (s : string) : option Z :=
  match s with
  | String "0" (String "x" (String c rest)) => hexDigits 0 (String c rest)
  | _ => None
  end.

(** ** Replaying a sequence of submissions into the log *)

Definition recordOf (env : Env) (call : string * string * string) : TxRecord :=
  mkTxRecord (fst (fst call)) (snd (fst call)) (snd call) (now env).

(** [addTransaction] invoked once per element, in order. *)
Fixpoint addTransactions (env : Env) (calls : list (string * string * string)) : M unit :=
  match calls with
  | [] => ret tt
  | call :: rest =>
      addTransaction env (fst (fst call)) (snd (fst call)) (snd call) ;;;
      addTransactions env rest
  end.

(** ** Reading the history markup back

    What a reader of the slot finds in its markup, computed from the markup
    alone: the quoted attribute values, among them the link targets, and the
    text that is left when the tags are taken out. *)

Definition quote : ascii := ascii_of_nat 34.

(** The strings found between an opening delimiter and the next closing
    one, in the order they occur; an opening with no closing gives nothing. *)
Fixpoint enclosed (o c : ascii) (inside : bool) (acc s : string) : list string :=
  match s with
  | EmptyString => []
  | String x rest =>
      if inside
      then if Ascii.eqb x c
           then acc :: enclosed o c false EmptyString rest
           else enclosed o c true (acc ++ String x EmptyString) rest
      else if Ascii.eqb x o
           then enclosed o c true EmptyString rest
           else enclosed o c false EmptyString rest
  end.

(** The text outside the delimited parts, delimiters dropped. *)
Fixpoint unenclosed (o c : ascii) (inside : bool) (s : string) : string :=
  match s with
  | EmptyString => EmptyString
  | String x rest =>
      if inside
      then if Ascii.eqb x c
           then unenclosed o c false rest
           else unenclosed o c true rest
      else if Ascii.eqb x o
           then unenclosed o c true rest
           else String x (unenclosed o c false rest)
  end.

(** The double-quoted strings of a markup text. *)
Definition attributeValues (html : string) : list string :=
  enclosed quote quote false EmptyString html.

(** The attribute values that are addresses of [https] pages; in the
    history markup each entry has one, the target of its link. *)
Definition linkTargets (html : string) : list string :=
  List.filter (String.prefix "https://") (attributeValues html).

(** The characters outside the tags. *)
Definition visibleText (html : string) : string :=
  unenclosed "<" ">" false html.

(** [lacks c s]: the character [c] does not occur in [s]. *)
Fixpoint lacks (c : ascii) (s : string) : bool :=
  match s with
  | EmptyString => true
  | String x rest => negb (Ascii.eqb x c) && lacks c rest
  end.

(** A field that markup reads as the text it is: it holds no double quote,
    no angle bracket and no ampersand.  [updateTransactionHistory] escapes
    nothing. *)
Definition markupFree (s : string) : bool :=
  lacks quote s && lacks "<" s && lacks ">" s && lacks "&" s.

Definition plainRecord (env : Env) (r : TxRecord) : bool :=
  markupFree (type r) && markupFree (toLocaleString env (timestamp r)) &&
  markupFree (details r) && markupFree (txhash r).

(** A line break followed by [n] spaces of indentation. *)
Fixpoint spaces (n : nat) : string :=
  match n with
  | 0 => EmptyString
  | S n => String " " (spaces n)
  end.

Definition lineBreak (n : nat) : string := String (ascii_of_nat 10) (spaces n).

(** The text of one entry as the template lays it out: the type, the time,
    the details and the link label, each at the indentation of its tag. *)
Definition entryText (env : Env) (r : TxRecord) : string :=
  lineBreak 12 ++ lineBreak 16 ++ lineBreak 20 ++ type r ++
  lineBreak 20 ++ toLocaleString env (timestamp r) ++
  lineBreak 16 ++ lineBreak 16 ++ details r ++
  lineBreak 16 ++ lineBreak 20 ++ lineBreak 24 ++ "View Transaction" ++
  lineBreak 20 ++ lineBreak 16 ++ lineBreak 12 ++ lineBreak 8.

(** The address the link of an entry opens. *)
Definition explorerLink (r : TxRecord) : string :=
  "https://explorer-testnet.monad.xyz/tx/" ++ txhash r.

(** The attribute values of one entry, in the order of the template. *)
Definition entryAttributes (r : TxRecord) : list string :=
  ["padding: 10px; border-bottom: 1px solid #eee; margin-bottom: 10px;";
   "display: flex; justify-content: space-between; align-items: center;";
   "font-size: 12px; color: #666;"; "font-size: 14px; margin: 5px 0;";
   explorerLink r; "_blank"; "link"].

(** ** Observations on Mint and Transfer runs *)

(** The submission handles that the contract returned during a run: one for
    each state-changing call in the events that the contract accepted. *)
Definition submissions (env : Env) (evs : list Event) : list Tx :=
  flat_map
    (fun e =>
       match e with
       | EvContractWhitelistMint v =>
           match whitelistMint (deployed env) v with
           | inr tx => [tx]
           | inl _ => []
           end
       | EvContractTransfer to v =>
           match transfer (deployed env) to v with
           | inr tx => [tx]
           | inl _ => []
           end
       | _ => []
       end)
    evs.

Definition isTxWait (e : Event) : bool :=
  match e with
  | EvTxWait _ => true
  | _ => false
  end.

(** State-changing contract calls. *)
Definition isSubmission (e : Event) : bool :=
  match e with
  | EvContractWhitelistMint _ | EvContractTransfer _ _ => true
  | _ => false
  end.

(** The log grew by the records [recs], one per returned submission, each
    rendered into the history slot right before its confirmation is awaited
    and with no confirmation awaited earlier in the run. *)
Definition loggedOnSubmission (env : Env) (kind : string) (w w' : World) : Prop :=
  let evs := newEvents w w' in
  exists recs,
    txHistory (this w') = (recs ++ txHistory (this w))%list /\
    map txhash recs = map hash (submissions env evs) /\
    length recs <= 1 /\
    Forall (fun r => type r = kind /\ timestamp r = now env) recs /\
    forall r, recs = [r] ->
      exists pre post,
        evs = (pre ++ EvDom "txHistory" (SetInnerHTML (historyHTML env (r :: txHistory (this w))))
                   :: EvTxWait (txhash r) :: post)%list /\
        List.forallb (fun e => negb (isTxWait e)) pre = true.

(** The record [mintTokens] hands to [addTransaction]. *)
Definition mintRecord (env : Env) (amount : string) (tx : Tx) : TxRecord :=
  mkTxRecord "Mint" (hash tx) (amount ++ " CHAL") (now env).

(** The record [transferTokens] hands to [addTransaction]. *)
Definition transferRecord (env : Env) (to amount : string) (tx : Tx) : TxRecord :=
  mkTxRecord "Transfer" (hash tx) (amount ++ " CHAL to " ++ formatAddress to) (now env).

(** A run that went through the submission attempt of an operation writing
    to [slot]: the pending status is shown and the amount converted; a
    conversion failure is caught and reported; otherwise the one
    state-changing call [call v] goes to the contract, whose rejection is
    reported, and whose handle is logged as [record tx] and rendered before
    the confirmation is awaited. *)
Definition submissionAttempt (env : Env) (slot pending label failed success : string)
    (call : Z -> Event) (submit : Z -> Error + Tx) (record : Tx -> TxRecord)
    (amount : string) (w w' : World) : Prop :=
  let report e :=
    EvConsoleError label e :: statusEvents slot (failed ++ message e) "error" in
  match parseEther env amount with
  | inl e =>
      this w' = this w /\
      newEvents w w' = (statusEvents slot pending "info" ++ report e)%list
  | inr v =>
      match submit v with
      | inl e =>
          this w' = this w /\
          newEvents w w' = (statusEvents slot pending "info" ++ call v :: report e)%list
      | inr tx =>
          this w' = unshift (record tx) (this w) /\
          exists post,
            newEvents w w' =
              (statusEvents slot pending "info" ++
               call v ::
               statusEvents slot ("Transaction sent: " ++ hash tx) "info" ++
               EvDom "txHistory"
                 (SetInnerHTML (historyHTML env (record tx :: txHistory (this w)))) ::
               EvTxWait (hash tx) :: post)%list /\
            forallb (fun e => negb (isSubmission e) && negb (isTxWait e)) post = true /\
            match wait tx with
            | inl e => post = report e
            | inr _ =>
                exists refresh,
                  post = (statusEvents slot success "success" ++
                          EvSetTimeout slot 5000 :: refresh)%list
            end
      end
  end.

(** Mint went through its submission attempt. *)
Definition mintAttempt (env : Env) (amount : string) (w w' : World) : Prop :=
  submissionAttempt env "mintStatus" ("Minting tokens..." ++ loading)
    "Mint error:" "Mint failed: "
    ("Successfully minted " ++ amount ++ " CHAL tokens!")
    EvContractWhitelistMint (whitelistMint (deployed env))
    (mintRecord env amount) amount w w'.

(** Transfer went through its submission attempt. *)
Definition transferAttempt (env : Env) (to amount : string) (w w' : World) : Prop :=
  submissionAttempt env "transferStatus" ("Transferring tokens..." ++ loading)
    "Transfer error:" "Transfer failed: "
    ("Successfully transferred " ++ amount ++ " CHAL!")
    (EvContractTransfer to) (transfer (deployed env) to)
    (transferRecord env to amount) amount w w'.

(** The run consisted of showing [message] as an error in [slot]. *)
Definition validationError (slot message : string) (w w' : World) : Prop :=
  w' = run (showStatus slot message "error") w.

(** Readings of a [ToNumber] result. *)
Definition positive (n : JsNumber) : Prop :=
  match n with
  | Num q => (0 < q)%Q
  | PosInfinity => True
  | _ => False
  end.

Definition exceeds (k : Z) (n : JsNumber) : Prop :=
  match n with
  | Num q => (inject_Z k < q)%Q
  | PosInfinity => True
  | _ => False
  end.

(** ** Sample collaborators

    A concrete environment to run the controller in.  The tables give the
    answers of the runtime and of the ethers helpers on the strings used in
    the examples, and nothing is claimed about other strings. *)

Definition sampleUser : string := "0x00000000000000000000000000000000000000a1".

Definition sampleToken : string := "0x00000000000000000000000000000000000000c7".

Definition sampleWallet (net : Z) : Wallet :=
  {| eth_accounts := inr [sampleUser];
     eth_requestAccounts := inr [sampleUser];
     wallet_addEthereumChain := fun _ => inr tt;
     getAddress := inr sampleUser;
     getNetwork := inr net;
     getBalance := fun _ => inr 0%Z |}.

Definition sampleTx : Tx := {| hash := "0xfeed"; wait := inr tt |}.

Definition sampleDeployed (submit : Error + Tx) : Deployed :=
  {| balanceOf := fun _ => inr 0%Z;
     whitelist := fun _ => inr true;
     whitelistMint := fun _ => submit;
     transfer := fun _ _ => submit |}.

Definition sampleInfo : Json :=
  {| address := Some sampleToken;
     explorerUrl := Some "https://explorer-testnet.monad.xyz/address/0x00000000000000000000000000000000000000c7";
     name := Some "Chalee"; symbol := Some "CHAL";
     totalSupply := Some "0"; maxSupply := Some "0";
     abi := None |}.

Definition sampleAbi : Json :=
  {| address := None; explorerUrl := None; name := None; symbol := None;
     totalSupply := None; maxSupply := None;
     abi := Some ["function whitelistMint(uint256)"; "function transfer(address,uint256)"] |}.

(** The backing service answering both routes. *)
Definition sampleFetch (url : string) : Error + Response :=
  if String.eqb url "/api/contract-info" then inr (mkResponse true (inr sampleInfo))
  else if String.eqb url "/api/contract-abi" then inr (mkResponse true (inr sampleAbi))
  else inl (mkError "Failed to fetch").

(** The backing service with the descriptor route unreachable. *)
Definition fetchWithoutAbi (url : string) : Error + Response :=
  if String.eqb url "/api/contract-info" then inr (mkResponse true (inr sampleInfo))
  else inl (mkError "Failed to fetch").

(** [ToNumber] on the sample amounts: the empty string and "0" are 0, "5",
    "1001" and "1e2" are 5, 1001 and 100, and "abc" is NaN.  The result is
    a double: 1000.00000000000000001 is nearer to 1000 than to any other
    double and is read as 1000. *)
Definition sampleToNumber (s : string) : JsNumber :=
  if String.eqb s EmptyString then Num (inject_Z 0)
  else if String.eqb s "0" then Num (inject_Z 0)
  else if String.eqb s "5" then Num (inject_Z 5)
  else if String.eqb s "1001" then Num (inject_Z 1001)
  else if String.eqb s "1e2" then Num (inject_Z 100)
  else if String.eqb s "1000.00000000000000001" then Num (inject_Z 1000)
  else NaN.

(** [parseEther] on the sample amounts: plain decimals convert exactly, with
    18 fractional digits, and "1e2" and "abc" are rejected as not decimal. *)
Definition sampleParseEther (s : string) : Error + Z :=
  if String.eqb s "5" then inr 5000000000000000000%Z
  else if String.eqb s "1001" then inr 1001000000000000000000%Z
  else if String.eqb s "1000.00000000000000001" then inr 1000000000000000000010%Z
  else inl (mkError "invalid decimal value").

Definition sampleEnv (wallet : option Wallet) (service : string -> Error + Response)
    (submit : Error + Tx) : Env :=
  {| ethereum := wallet;
     fetch := service;
     deployed := sampleDeployed submit;
     ethers_Contract := fun _ _ => None;
     parseEther := sampleParseEther;
     formatEther := fun _ => "0.0";
     bigNumberFrom := fun _ => inr 0%Z;
     isAddress := fun s => String.eqb s sampleUser || String.eqb s sampleToken;
     ToNumber := sampleToNumber;
     now := 0;
     toLocaleString := fun _ => "1/1/1970, 12:00:00 AM";
     typeErrorMessage := fun prop =>
       "Cannot read properties of undefined (reading '" ++ prop ++ "')" |}.

(** Eleven submissions in the order they were made, the last one newest. *)
Definition sampleCalls : list (string * string * string) :=
  [("Mint", "0x01", "1 CHAL"); ("Mint", "0x02", "2 CHAL");
   ("Transfer", "0x03", "1 CHAL to 0x0000...00c7"); ("Mint", "0x04", "4 CHAL");
   ("Mint", "0x05", "5 CHAL"); ("Transfer", "0x06", "2 CHAL to 0x0000...00c7");
   ("Mint", "0x07", "7 CHAL"); ("Mint", "0x08", "8 CHAL");
   ("Mint", "0x09", "9 CHAL"); ("Transfer", "0x0a", "3 CHAL to 0x0000...00c7");
   ("Mint", "0x0b", "11 CHAL")].

(** The user types [text] into the input [id]. *)
Definition userTypes (id text : string) (w : World) : World :=
  mkWorld (this w) (writeTo id (SetValue text) (dom w))
    (timers w) (listeners w) (trace w).

(** On the test network with both routes served: after [init] the session
    is connected and the contract is bound. *)
Definition onTestnet : Env :=
  sampleEnv (Some (sampleWallet 41454)) sampleFetch (inr sampleTx).

(** On the test network with the descriptor route unreachable: the wallet
    connects, the buttons are enabled, and no contract is bound. *)
Definition onTestnetNoAbi : Env :=
  sampleEnv (Some (sampleWallet 41454)) fetchWithoutAbi (inr sampleTx).

(** The wallet is on network 1. *)
Definition onMainnet : Env :=
  sampleEnv (Some (sampleWallet 1)) sampleFetch (inr sampleTx).

(** No wallet is installed. *)
Definition noWallet : Env := sampleEnv None sampleFetch (inr sampleTx).

(** ** Sample sessions *)

(** The page after [init] on the test network: connected, contract bound. *)
Definition connected : World := run (init onTestnet) pageLoad.

Definition sampleContract : Contract :=
  {| caddress := sampleToken;
     cabi := ["function whitelistMint(uint256)"; "function transfer(address,uint256)"];
     csigner := Some (JsonRpcSigner (sampleWallet 41454)) |}.

(** The page after [init] with the descriptor route unreachable: the wallet
    is connected and the action buttons are enabled, with no contract. *)
Definition connectedUnbound : World := run (init onTestnetNoAbi) pageLoad.


(** ** Further relations between the worlds of a run *)

(** A reading of the world is the same after the run. *)
Definition keeps {T} (f : World -> T) (w w' : World) : Prop := f w' = f w.

(** The session fields other than the transaction log. *)
Definition sessionFields (w : World) :
    option Provider * option Signer * option Contract *
    option string * option Abi * option string :=
  (provider (this w), signer (this w), contract (this w),
   contractAddress (this w), contractABI (this w), userAddress (this w)).

(** What [loadContractInfo] loaded. *)
Definition loadedFields (w : World) : option string * option Abi :=
  (contractAddress (this w), contractABI (this w)).

(** The log only grows at its head: the old log is a suffix of the new. *)
Definition historyGrows (w w' : World) : Prop :=
  txHistory (this w) `suffix_of` txHistory (this w').

(** The [value] of every element is left as it was. *)
Definition keepsInputs (w w' : World) : Prop :=
  forall id, value (getElementById id (dom w')) = value (getElementById id (dom w)).

(** Every element whose id is not in [ids] is left as it was. *)
Definition keepsOutside (ids : list string) (w w' : World) : Prop :=
  forall id, id ∉ ids -> getElementById id (dom w') = getElementById id (dom w).

(** The run only added events satisfying [p]. *)
Definition addsOnly (p : Event -> bool) (w w' : World) : Prop :=
  exists d, trace w' = (trace w ++ d)%list /\ forallb p d = true.

(** The interactive authorization request. *)
Definition isPrompt (e : Event) : bool :=
  match e with
  | EvEthereumRequest method _ => String.eqb method "eth_requestAccounts"
  | _ => false
  end.

Definition isFetch (e : Event) : bool :=
  match e with
  | EvFetch _ => true
  | _ => false
  end.

(** A write that sets the [value] of an input. *)
Definition isSetValue (wr : DomWrite) : bool :=
  match wr with
  | SetValue _ => true
  | _ => false
  end.

(** The slots each operation may write to. *)
Definition tokenSlots : list string := ["userBalance"; "whitelistStatus"].

Definition connectSlots : list string :=
  ["connectionStatus"; "accountAddress"; "accountBalance"; "accountInfo";
   "connectBtn"; "mintBtn"; "transferBtn"; "userBalance"; "whitelistStatus"].

Definition mintSlots : list string :=
  ["mintStatus"; "txHistory"; "userBalance"; "whitelistStatus"].

Definition transferSlots : list string :=
  ["transferStatus"; "txHistory"; "userBalance"; "whitelistStatus";
   "transferTo"; "transferAmount"].

Definition summarySlots : list string :=
  ["tokenName"; "tokenSymbol"; "totalSupply"; "maxSupply"].

(** The contract [bindContract] builds from what was loaded, if anything. *)
Definition boundFrom (a : MonadDemo) (wl : Wallet) : option Contract :=
  match contractAddress a, contractABI a with
  | Some addr, Some descriptor =>
      if truthy (Some addr)
      then Some (mkContract addr descriptor (Some (JsonRpcSigner wl)))
      else contract a
  | _, _ => contract a
  end.

Definition notPrompt (e : Event) : bool := negb (isPrompt e).

(** What a summary slot is given for a base-unit property: the formatted
    amount, the placeholder when the property is missing or empty, or the
    failure of reading it as a number. *)
Definition summaryAmount (env : Env) (o : option string) : Error + string :=
  if truthy o
  then match bigNumberFrom env (default EmptyString o) with
       | inl e => inl e
       | inr v => inr (formatEther env v)
       end
  else inr "N/A".

Definition notFetch (e : Event) : bool := negb (isFetch e).

Definition anyEvent (e : Event) : bool := true.

(** The calls of a token refresh in a connected session: the balance, then
    the whitelist membership unless the balance lookup failed. *)
Definition refreshCalls (env : Env) (user : string) : list Event :=
  EvContractBalanceOf user ::
  match balanceOf (deployed env) user with
  | inl _ => []
  | inr _ => [EvContractWhitelist user]
  end.

(** Text made of ASCII characters only: each is one byte here and one
    UTF-16 code unit in the source, so that positions and lengths agree. *)
Fixpoint isAscii (s : string) : bool :=
  match s with
  | EmptyString => true
  | String c rest => Nat.ltb (nat_of_ascii c) 128 && isAscii rest
  end.

(** The helpers let only plain text through: the amounts the base-unit
    conversion accepts and the destinations [isAddress] accepts hold no
    markup character, and neither do the hashes of the handles the contract
    returns nor the runtime's date text. *)
Definition plainHelpers (env : Env) : Prop :=
  (forall a v, parseEther env a = inr v -> markupFree a = true) /\
  (forall to, isAddress env to = true -> markupFree to = true) /\
  (forall v tx, whitelistMint (deployed env) v = inr tx -> markupFree (hash tx) = true) /\
  (forall to v tx, transfer (deployed env) to v = inr tx -> markupFree (hash tx) = true) /\
  (forall t, markupFree (toLocaleString env t) = true).

(** Every record of the log is plain. *)
Definition plainLog (env : Env) (w : World) : Prop :=
  forallb (plainRecord env) (txHistory (this w)) = true.

(** ** Further sample collaborators *)

(** A wallet whose user declines the authorization request. *)
Definition decliningWallet : Wallet :=
  {| eth_accounts := inr [];
     eth_requestAccounts := inl (mkError "User rejected the request.");
     wallet_addEthereumChain := fun _ => inr tt;
     getAddress := inr sampleUser;
     getNetwork := inr 41454%Z;
     getBalance := fun _ => inr 0%Z |}.

Definition userDeclines : Env :=
  sampleEnv (Some decliningWallet) sampleFetch (inr sampleTx).

(** A wallet on the test network whose node does not answer the balance
    query. *)
Definition walletWithoutBalance : Wallet :=
  {| eth_accounts := inr [sampleUser];
     eth_requestAccounts := inr [sampleUser];
     wallet_addEthereumChain := fun _ => inr tt;
     getAddress := inr sampleUser;
     getNetwork := inr 41454%Z;
     getBalance := fun _ => inl (mkError "missing response") |}.

Definition balanceUnavailable : Env :=
  sampleEnv (Some walletWithoutBalance) sampleFetch (inr sampleTx).

(** The page once the contract address and descriptor are loaded, before
    any wallet call. *)
Definition loaded : World := run (loadContractInfo onTestnet) pageLoad.
(** ** Frame rules

    A relation between the world before and the world after that is
    reflexive and transitive is kept by the monad's plumbing; which
    primitive effects keep it depends on the relation. *)

Section Frame.

Context (R : World -> World -> Prop).
Hypothesis R_refl : forall w, R w w.
Hypothesis R_trans : forall w1 w2 w3, R w1 w2 -> R w2 w3 -> R w1 w3.

Lemma preserves_ret {A} (a : A) : preserves R (ret a).
Proof. intros w. apply R_refl. Qed.

Lemma preserves_throw {A} (e : Error) : preserves R (@throw A e).
Proof. intros w. apply R_refl. Qed.

Lemma preserves_bind {A B} (m : M A) (k : A -> M B) :
  preserves R m -> (forall a, preserves R (k a)) -> preserves R (bind m k).
Proof.
  intros Hm Hk w. unfold run, bind.
  specialize (Hm w). unfold run in Hm.
  destruct (m w) as [[a|e] w1]; simpl in *.
  - eapply R_trans; [exact Hm | apply Hk].
  - exact Hm.
Qed.

Lemma preserves_try_catch {A} (body : M A) (handler : Error -> M A) :
  preserves R body -> (forall e, preserves R (handler e)) ->
  preserves R (try_catch body handler).
Proof.
  intros Hb Hh w. unfold run, try_catch.
  specialize (Hb w). unfold run in Hb.
  destruct (body w) as [[a|e] w1]; simpl in *.
  - exact Hb.
  - eapply R_trans; [exact Hb | apply Hh].
Qed.

Lemma preserves_lift {A} (r : Error + A) : preserves R (lift r).
Proof. destruct r; intros w; apply R_refl. Qed.

Lemma preserves_get_this : preserves R get_this.
Proof. intros w. apply R_refl. Qed.

Lemma preserves_dom_value id : preserves R (dom_value id).
Proof. intros w. apply R_refl. Qed.

Lemma preserves_await {A} (call : Event) (r : Error + A) :
  preserves R (emit call) -> preserves R (await call r).
Proof.
  intros He. unfold await. apply preserves_bind; [exact He | intros _].
  apply preserves_lift.
Qed.

End Frame.

(** Walks a method body along the monad's structure; the primitive effects
    are left to the tactic [prim], which knows the relation at hand. *)
Ltac frame_walk refl trans prim :=
  repeat first
    [ apply (preserves_bind _ trans); [| intros ?]
    | apply (preserves_try_catch _ trans); [| intros ?]
    | apply (preserves_ret _ refl)
    | apply (preserves_throw _ refl)
    | apply (preserves_lift _ refl)
    | apply (preserves_get_this _ refl)
    | apply (preserves_dom_value _ refl)
    | apply (preserves_await _ refl trans)
    | prim
    | match goal with
      | |- preserves _ (match ?x with _ => _ end) => destruct x
      | |- preserves _ (let _ := _ in _) => cbv zeta
      end ].

(** ** Timers *)

Lemma keepsTimers_refl w : keepsTimers w w.
Proof. unfold keepsTimers. reflexivity. Qed.

Lemma keepsTimers_trans w1 w2 w3 :
  keepsTimers w1 w2 -> keepsTimers w2 w3 -> keepsTimers w1 w3.
Proof. unfold keepsTimers. intros H1 H2. etrans; eassumption. Qed.

Lemma keepsTimers_emit e : preserves keepsTimers (emit e).
Proof. intros w. unfold keepsTimers, run; simpl. reflexivity. Qed.

Lemma keepsTimers_dom_write id wr : preserves keepsTimers (dom_write id wr).
Proof. intros w. unfold keepsTimers, run; simpl. reflexivity. Qed.

Lemma keepsTimers_modify_this f : preserves keepsTimers (modify_this f).
Proof. intros w. unfold keepsTimers, run; simpl. reflexivity. Qed.

Lemma keepsTimers_addEventListener id h :
  preserves keepsTimers (addEventListener id h).
Proof. intros w. unfold keepsTimers, run; simpl. reflexivity. Qed.

Lemma keepsTimers_setTimeout id ms : preserves keepsTimers (setTimeout id ms).
Proof. intros w. unfold keepsTimers, run, setTimeout; simpl. by apply prefix_app_r. Qed.

Ltac timers_prim :=
  first [ apply keepsTimers_emit | apply keepsTimers_dom_write
        | apply keepsTimers_modify_this | apply keepsTimers_addEventListener
        | apply keepsTimers_setTimeout ].

Ltac timers_walk :=
  frame_walk keepsTimers_refl keepsTimers_trans timers_prim.

Lemma keepsTimers_showStatus id msg ty :
  preserves keepsTimers (showStatus id msg ty).
Proof. unfold showStatus. timers_walk. Qed.

Lemma keepsTimers_connectWallet env b : preserves keepsTimers (connectWallet env b).
Proof. unfold connectWallet. timers_walk. Qed.

Lemma keepsTimers_mintTokens env : preserves keepsTimers (mintTokens env).
Proof. unfold mintTokens. timers_walk. Qed.

Lemma keepsTimers_transferTokens env : preserves keepsTimers (transferTokens env).
Proof. unfold transferTokens. timers_walk. Qed.

Lemma keepsTimers_addNetwork env : preserves keepsTimers (addNetwork env).
Proof. unfold addNetwork. timers_walk. Qed.

Lemma keepsTimers_init env : preserves keepsTimers (init env).
Proof.
  unfold init, loadContractInfo, checkWalletConnection_start,
    checkWalletConnection_resume, updateContractInfo_start, updateContractInfo_resume,
    formatOrNA.
  timers_walk.
Qed.

Lemma has_token_true tok l : has_token tok l = true <-> tok ∈ l.
Proof.
  unfold has_token. rewrite existsb_exists. split.
  - intros (x & Hx & Heq). apply String.eqb_eq in Heq. subst.
    by apply list_elem_of_In.
  - intros H. exists tok. split; [by apply list_elem_of_In | apply String.eqb_refl].
Qed.

Lemma has_token_removed tok l :
  has_token tok (filter (fun t => t ≠ tok) l) = false.
Proof.
  destruct (has_token tok _) eqn:E; [| reflexivity].
  apply has_token_true in E. apply list_elem_of_filter in E. by destruct E.
Qed.

Lemma hidden_after_add e : hidden (applyWrite (ClassListAdd "hidden") e) = true.
Proof.
  unfold hidden; simpl. destruct (has_token "hidden" (classList e)) eqn:E; [exact E |].
  apply has_token_true. apply elem_of_app. right. by apply list_elem_of_singleton.
Qed.

Lemma getElementById_writeTo id wr (d : gmap string Element) :
  getElementById id (writeTo id wr d) = applyWrite wr (getElementById id d).
Proof. unfold getElementById at 1, writeTo. by rewrite lookup_insert_eq. Qed.

Lemma getElementById_writeTo_ne id id' wr (d : gmap string Element) :
  id ≠ id' -> getElementById id' (writeTo id wr d) = getElementById id' d.
Proof. intros H. unfold getElementById, writeTo. by rewrite lookup_insert_ne. Qed.

Arguments writeTo : simpl never.
Arguments getElementById : simpl never.

(** What [showStatus] leaves in the slot it writes. *)
Lemma showStatus_slot id msg ty w :
  let e := getElementById id (dom (run (showStatus id msg ty) w)) in
  innerHTML e = msg /\
  classList e = filter (fun t => t ≠ "hidden") (tokens ("status " ++ ty)) /\
  hidden e = false.
Proof.
  unfold showStatus, run, bind, dom_write, setTimeout, ret; simpl.
  destruct (String.eqb ty "success"); simpl;
    rewrite !getElementById_writeTo; simpl;
    (split; [reflexivity | split; [reflexivity | apply has_token_removed]]).
Qed.

Lemma showStatus_timers id msg ty w :
  timers (run (showStatus id msg ty) w) =
  (timers w ++ (if String.eqb ty "success" then [mkTimer id 5000] else []))%list.
Proof.
  unfold showStatus, run, bind, dom_write, setTimeout, ret; simpl.
  destruct (String.eqb ty "success"); simpl; [reflexivity | by rewrite app_nil_r].
Qed.

(** C9: the auto-dismiss timer of a success status is never canceled.
    Showing a success status queues a 5000 ms timer for its slot; no
    controller operation ever removes a queued timer; and when the timer
    fires after another status of any kind has been written to the same
    slot, the slot is visible just before, and afterwards it is hidden while
    still holding the later message. *)
Theorem C9_success_timer_outlives_later_status :
  (forall id msg w,
     timers (run (showStatus id msg "success") w) = (timers w ++ [mkTimer id 5000])%list) /\
  (forall id msg ty, preserves keepsTimers (showStatus id msg ty)) /\
  (forall env h, preserves keepsTimers (handle env h)) /\
  (forall env, preserves keepsTimers (init env)) /\
  (forall id m1 m2 ty w,
     let w1 := run (showStatus id m1 "success") w in
     let w2 := run (showStatus id m2 ty) w1 in
     let n := length (timers w) in
     let w3 := run (fireTimer n) w2 in
     timers w2 !! n = Some (mkTimer id 5000) /\
     innerHTML (getElementById id (dom w2)) = m2 /\
     hidden (getElementById id (dom w2)) = false /\
     innerHTML (getElementById id (dom w3)) = m2 /\
     hidden (getElementById id (dom w3)) = true).
Proof.
  split; [| split; [| split; [| split]]].
  - intros. by rewrite showStatus_timers.
  - apply keepsTimers_showStatus.
  - intros env [].
    + apply keepsTimers_connectWallet.
    + apply keepsTimers_mintTokens.
    + apply keepsTimers_transferTokens.
    + apply keepsTimers_addNetwork.
  - apply keepsTimers_init.
  - intros id m1 m2 ty w w1 w2 n w3.
    assert (Hn : timers w2 !! n = Some (mkTimer id 5000)).
    { subst w2 w1 n. rewrite !showStatus_timers. simpl.
      rewrite <- app_assoc. rewrite lookup_app_r by lia.
      by replace (length (timers w) - length (timers w)) with 0 by lia. }
    destruct (showStatus_slot id m2 ty w1) as (Hi & _ & Hh).
    fold w2 in Hi, Hh.
    split; [exact Hn |]. split; [exact Hi |]. split; [exact Hh |].
    subst w3. unfold run, fireTimer. rewrite Hn. simpl.
    rewrite getElementById_writeTo. split; [exact Hi | apply hidden_after_add].
Qed.

(** ** Operations invoked with no contract bound *)

Lemma mintTokens_unbound env w :
  contract (this w) = None -> mintTokens env w = (Ret tt, w).
Proof. intros H. unfold mintTokens, bind, get_this. by rewrite H. Qed.

Lemma transferTokens_unbound env w :
  contract (this w) = None -> transferTokens env w = (Ret tt, w).
Proof. intros H. unfold transferTokens, bind, get_this. by rewrite H. Qed.

(** C8: with no contract capability bound, Mint and Transfer return at once
    and leave the whole world as it was: no call, no slot written, no record
    appended. *)
Theorem C8_unbound_contract_no_effect env w :
  contract (this w) = None ->
  mintTokens env w = (Ret tt, w) /\ transferTokens env w = (Ret tt, w).
Proof.
  intros H. split; [by apply mintTokens_unbound | by apply transferTokens_unbound].
Qed.

(** C8 on the freshly loaded page, where no contract is bound yet. *)
Lemma C8_unbound_contract_no_effect_witness :
  contract (this pageLoad) = None /\
  mintTokens noWallet pageLoad = (Ret tt, pageLoad) /\
  transferTokens noWallet pageLoad = (Ret tt, pageLoad).
Proof.
  split; [reflexivity |].
  apply (C8_unbound_contract_no_effect noWallet pageLoad). reflexivity.
Defined.

(** ** Connecting on the wrong network *)

Lemma newEvents_app w w' d : trace w' = (trace w ++ d)%list -> newEvents w w' = d.
Proof. intros H. unfold newEvents. rewrite H. apply drop_app_length. Qed.

Lemma newEvents_same w w' : trace w' = trace w -> newEvents w w' = [].
Proof. intros H. unfold newEvents. rewrite H. apply drop_all. Qed.

(** Brings the events of a run into the form of an explicit list. *)
Ltac events :=
  unfold networkCalls, newEvents; simpl;
  rewrite <- ?app_assoc; simpl;
  rewrite ?drop_app_length, ?drop_all; simpl.

(** C1, as stated, fails: with the wallet on network 1 a Connect from the
    freshly loaded page leaves the provider handle, the signer identity and
    the cached user address populated, so the session differs from the
    disconnected one it started from. *)
Lemma C1_counterexample :
  let w' := run (connectWallet onMainnet true) pageLoad in
  getNetwork (sampleWallet 1) = inr 1%Z /\ 1%Z <> 41454%Z /\
  provider (this w') = Some (Web3Provider (sampleWallet 1)) /\
  signer (this w') = Some (JsonRpcSigner (sampleWallet 1)) /\
  userAddress (this w') = Some sampleUser /\
  contract (this w') = None /\
  this w' <> this pageLoad.
Proof.
  cbv zeta. repeat split; try reflexivity; try lia.
  intros H. apply (f_equal userAddress) in H. vm_compute in H. discriminate.
Qed.

(** C1, amended: in every run of Connect whose wallet is on a network other
    than 41454, no contract is bound: the contract handle, the loaded
    contract address and interface descriptor and the transaction log are
    left as they were.  When the run gets as far as the network check
    (authorization, if requested, granted and the signer address obtained),
    the provider handle, the signer identity and the cached user address
    have been set before the check, and the only further effect is the
    wrong-network error in the connection status slot. *)
Theorem C1_wrong_network_binds_no_contract env b w wl id :
  ethereum env = Some wl -> getNetwork wl = inr id -> id <> 41454%Z ->
  let w' := run (connectWallet env b) w in
  keepsContract w w' /\
  contractAddress (this w') = contractAddress (this w) /\
  contractABI (this w') = contractABI (this w) /\
  keepsHistory w w' /\
  forall user,
    (b = true -> exists accounts, eth_requestAccounts wl = inr accounts) ->
    getAddress wl = inr user ->
    this w' = set_userAddress (Some user)
               (set_signer (Some (JsonRpcSigner wl))
                  (set_provider (Some (Web3Provider wl)) (this w))) /\
    newEvents w w' =
      ((if b then [EvEthereumRequest "eth_requestAccounts" []] else []) ++
       [EvSignerGetAddress; EvProviderGetNetwork] ++
       statusEvents "connectionStatus" "Please switch to Monad Testnet" "error")%list.
Proof.
  intros Hw Hn Hid. unfold keepsContract, keepsHistory.
  assert (E : Z.eqb id 41454 = false) by (by apply Z.eqb_neq).
  unfold connectWallet, run, try_catch, bind. rewrite Hw.
  destruct b, (eth_requestAccounts wl) as [e1|accts], (getAddress wl) as [e2|u];
    simpl; rewrite ?Hn; simpl; rewrite ?E; simpl.
  all: repeat (split; [reflexivity |]).
  all: intros user Hreq Hu.
  all: try discriminate Hu.
  all: try (destruct (Hreq eq_refl) as [? ?]; discriminate).
  all: injection Hu as <-; split; [reflexivity | events; reflexivity].
Qed.

(** C1, amended, on the freshly loaded page with the wallet on network 1. *)
Lemma C1_wrong_network_binds_no_contract_witness :
  let w' := run (connectWallet onMainnet true) pageLoad in
  contract (this w') = None /\
  userAddress (this w') = Some sampleUser /\
  newEvents pageLoad w' =
    [EvEthereumRequest "eth_requestAccounts" []; EvSignerGetAddress;
     EvProviderGetNetwork;
     EvDom "connectionStatus" (SetInnerHTML "Please switch to Monad Testnet");
     EvDom "connectionStatus" (SetClassName "status error");
     EvDom "connectionStatus" (ClassListRemove "hidden")].
Proof.
  cbv zeta.
  destruct (C1_wrong_network_binds_no_contract onMainnet true pageLoad
              (sampleWallet 1) 1%Z eq_refl eq_refl ltac:(lia))
    as (Hc & _ & _ & _ & Hrun).
  destruct (Hrun sampleUser ltac:(intros _; eexists; reflexivity) eq_refl)
    as (Happ & Hev).
  split; [exact Hc |]. split; [rewrite Happ; reflexivity | exact Hev].
Defined.

(** ** Start-up *)

Lemma returns_ret {A} (a : A) : returns (ret a).
Proof. intros w. by exists a. Qed.

Lemma returns_bind {A B} (m : M A) (k : A -> M B) :
  returns m -> (forall a, returns (k a)) -> returns (bind m k).
Proof.
  intros Hm Hk w. unfold bind. destruct (Hm w) as [a Ha].
  destruct (m w) as [[a'|e] w1]; simpl in Ha; [| discriminate].
  apply Hk.
Qed.

Lemma returns_try_catch {A} (body : M A) (handler : Error -> M A) :
  (forall e, returns (handler e)) -> returns (try_catch body handler).
Proof.
  intros Hh w. unfold try_catch.
  destruct (body w) as [[a|e] w1]; [by exists a | apply Hh].
Qed.

Lemma returns_emit e : returns (emit e).
Proof. intros w. by exists tt. Qed.

Lemma returns_dom_write id wr : returns (dom_write id wr).
Proof. intros w. by exists tt. Qed.

Lemma returns_setTimeout id ms : returns (setTimeout id ms).
Proof. intros w. by exists tt. Qed.

Lemma returns_addEventListener id h : returns (addEventListener id h).
Proof. intros w. by exists tt. Qed.

Lemma returns_showStatus id msg ty : returns (showStatus id msg ty).
Proof.
  unfold showStatus.
  repeat (apply returns_bind; [apply returns_dom_write | intros _]).
  destruct (String.eqb ty "success"); [apply returns_setTimeout | apply returns_ret].
Qed.

Lemma returns_loadContractInfo env : returns (loadContractInfo env).
Proof. apply returns_try_catch. intros e. apply returns_emit. Qed.

Lemma returns_init env : returns (init env).
Proof.
  unfold init.
  apply returns_bind; [apply returns_loadContractInfo | intros _].
  apply returns_bind; [| intros _].
  { unfold setupEventListeners.
    repeat (apply returns_bind; [apply returns_addEventListener | intros _]).
    apply returns_addEventListener. }
  apply returns_bind; [| intros _].
  { unfold checkWalletConnection_start. destruct (ethereum env).
    - apply returns_emit.
    - apply returns_showStatus. }
  apply returns_bind; [apply returns_emit | intros _].
  apply returns_bind; [| intros _].
  { unfold checkWalletConnection_resume. destruct (ethereum env).
    - apply returns_try_catch. intros e. apply returns_emit.
    - apply returns_ret. }
  apply returns_try_catch. intros e. apply returns_emit.
Qed.

(** The two tasks of start-up are the methods themselves, cut at their first
    [await]: run one after the other, the two parts do what the method does
    when it is awaited. *)
Lemma checkWalletConnection_cut env w :
  (checkWalletConnection_start env ;;; checkWalletConnection_resume env)%js w =
    checkWalletConnection env w.
Proof.
  unfold checkWalletConnection_start, checkWalletConnection_resume,
    checkWalletConnection.
  destruct (ethereum env) as [wl|].
  - unfold bind, try_catch, await, lift, emit.
    destruct (eth_accounts wl) as [e|accounts]; reflexivity.
  - unfold bind. destruct (returns_showStatus "connectionStatus"
      "Please install MetaMask or another Web3 wallet" "error" w) as [[] H].
    destruct (showStatus _ _ _ w) as [o w1]. simpl in H. by subst.
Qed.

Lemma updateContractInfo_cut env w :
  (updateContractInfo_start ;;; updateContractInfo_resume env)%js w =
    updateContractInfo env w.
Proof.
  unfold updateContractInfo_start, updateContractInfo_resume, updateContractInfo.
  unfold try_catch, await, lift, emit, bind at 1 2 3.
  destruct (fetch env "/api/contract-info") as [e|r]; reflexivity.
Qed.

Lemma returns_unit (m : M unit) w : returns m -> fst (m w) = Ret tt.
Proof. intros H. destruct (H w) as [[] Ha]. exact Ha. Qed.

(** C5, as stated, fails: when the contract-info request is answered with a
    success carrying an address and the descriptor request is rejected, the
    contract address is left absent as well. *)
Lemma C5_counterexample :
  fetch onTestnetNoAbi "/api/contract-info" = inr (mkResponse true (inr sampleInfo)) /\
  address sampleInfo = Some sampleToken /\
  fetch onTestnetNoAbi "/api/contract-abi" = inl (mkError "Failed to fetch") /\
  contractAddress (this (run (loadContractInfo onTestnetNoAbi) pageLoad)) = None.
Proof. repeat split. Qed.

(** C5, amended: Initialize issues the contract-info and descriptor requests
    together and neither load is ever fatal to startup.  When both requests
    are answered, each session field is set from its own response when that
    response is a success, and a non-success response leaves its field as it
    was without being logged; a success whose body cannot be read is logged,
    and for the contract-info body this also leaves the interface descriptor
    unset.  When either request is rejected, the rejection is logged and
    both fields are left as they were. *)
Theorem C5_loads_are_best_effort_and_coupled env w :
  let w' := run (loadContractInfo env) w in
  let info := "/api/contract-info" in
  let descriptor := "/api/contract-abi" in
  let label := "Failed to load contract info:" in
  fst (loadContractInfo env w) = Ret tt /\
  fst (init env w) = Ret tt /\
  match fetch env info, fetch env descriptor with
  | inr r1, inr r2 =>
      contractAddress (this w') =
        (if ok r1
         then match json r1 with
              | inr d => address d
              | inl _ => contractAddress (this w)
              end
         else contractAddress (this w)) /\
      contractABI (this w') =
        (if ok r1 && unreadable r1 then contractABI (this w)
         else if ok r2
              then match json r2 with
                   | inr d => abi d
                   | inl _ => contractABI (this w)
                   end
              else contractABI (this w)) /\
      newEvents w w' =
        ([EvFetch info; EvFetch descriptor] ++
         (if ok r1
          then match json r1 with
               | inr d => [EvDom "contractLink" (SetHref (explorerUrl d))]
               | inl e => [EvConsoleError label e]
               end
          else []) ++
         (if ok r1 && unreadable r1 then []
          else if ok r2
               then match json r2 with
                    | inr _ => []
                    | inl e => [EvConsoleError label e]
                    end
               else []))%list
  | inl e, _ | inr _, inl e =>
      this w' = this w /\
      newEvents w w' = [EvFetch info; EvFetch descriptor; EvConsoleError label e]
  end.
Proof.
  cbv zeta.
  split; [apply returns_unit, returns_loadContractInfo |].
  split; [apply returns_unit, returns_init |].
  unfold loadContractInfo, fetchBoth, run, try_catch, bind, unreadable.
  destruct (fetch env "/api/contract-info") as [e1|[ok1 [b1|d1]]],
           (fetch env "/api/contract-abi") as [e2|[ok2 [b2|d2]]];
    simpl; try destruct ok1; try destruct ok2; simpl.
  all: repeat split; try reflexivity.
  all: events; reflexivity.
Qed.

(** ** Registering the network *)

(** Whenever a wallet is present, an invocation issues exactly one request
    to it, the registration of [monadTestnet], reports the outcome by an
    alert, and leaves the controller object (with its transaction log), the
    document and the timers untouched, whatever the session state. *)
Lemma addNetwork_one_request env wl w :
  ethereum env = Some wl ->
  let w' := run (addNetwork env) w in
  networkCalls w w' = [EvEthereumRequest "wallet_addEthereumChain" [monadTestnet]] /\
  newEvents w w' =
    (EvEthereumRequest "wallet_addEthereumChain" [monadTestnet] ::
     match wallet_addEthereumChain wl monadTestnet with
     | inr _ => [EvAlert "Monad Testnet added to your wallet!"]
     | inl e => [EvConsoleError "Failed to add network:" e;
                 EvAlert ("Failed to add network: " ++ message e)]
     end) /\
  this w' = this w /\ dom w' = dom w /\ timers w' = timers w.
Proof.
  intros Hw. cbv zeta.
  unfold addNetwork, run, try_catch, bind. rewrite Hw.
  destruct (wallet_addEthereumChain wl monadTestnet) as [e|[]]; simpl.
  all: repeat (split; [first [reflexivity | events; reflexivity] |]).
  all: reflexivity.
Qed.

(** With no wallet installed, reading [window.ethereum.request] throws inside
    the [try]: no request is issued and the failure is reported. *)
Lemma addNetwork_without_wallet env w :
  ethereum env = None ->
  newEvents w (run (addNetwork env) w) =
    [EvConsoleError "Failed to add network:" (typeError env "request");
     EvAlert ("Failed to add network: " ++ typeErrorMessage env "request")].
Proof.
  intros Hw. unfold addNetwork, run, try_catch, bind. rewrite Hw. simpl.
  events. reflexivity.
Qed.

(** C7: an invocation with a wallet present issues exactly one registration
    request, with the fixed RPC and explorer endpoints and without touching
    the transaction log; but the chain id it carries, 0xA1F6, denotes 41462,
    not the 41454 that the source comment states and that [connectWallet]
    requires: a wallet on the registered network is turned away by Connect. *)
Theorem C7_registered_chain_id_is_not_41454 :
  let w' := run (addNetwork onTestnet) pageLoad in
  networkCalls pageLoad w' =
    [EvEthereumRequest "wallet_addEthereumChain" [monadTestnet]] /\
  txHistory (this w') = [] /\
  rpcUrls monadTestnet = ["https://testnet1.monad.xyz"] /\
  blockExplorerUrls monadTestnet = ["https://explorer-testnet.monad.xyz"] /\
  chainId monadTestnet = "0xA1F6" /\
  hexValue (chainId monadTestnet) = Some 41462%Z /\
  hexValue "0xA1EE" = Some 41454%Z /\
  (let registered := sampleEnv (Some (sampleWallet 41462)) sampleFetch (inr sampleTx) in
   let w2 := run (connectWallet registered true) pageLoad in
   contract (this w2) = None /\
   innerHTML (getElementById "connectionStatus" (dom w2)) =
     "Please switch to Monad Testnet").
Proof.
  cbv zeta.
  destruct (addNetwork_one_request onTestnet (sampleWallet 41454) pageLoad eq_refl)
    as (Hcalls & _ & Happ & _).
  split; [exact Hcalls |]. split; [rewrite Happ; reflexivity |].
  repeat (split; [vm_compute; reflexivity |]).
  split; vm_compute; reflexivity.
Qed.

(** ** The transaction history *)

Lemma historyWindow_take h : historyWindow h = take 10 h.
Proof. reflexivity. Qed.

Lemma updateTransactionHistory_slot env w :
  let w' := run (updateTransactionHistory env) w in
  this w' = this w /\
  innerHTML (getElementById "txHistory" (dom w')) =
    (if Nat.eqb (length (txHistory (this w))) 0
     then "<p>No transactions yet...</p>"
     else historyHTML env (txHistory (this w))).
Proof.
  unfold updateTransactionHistory, run, bind, get_this; simpl.
  destruct (Nat.eqb (length (txHistory (this w))) 0); simpl;
    rewrite getElementById_writeTo; by split.
Qed.

Lemma addTransaction_log env t h d w :
  let w' := run (addTransaction env t h d) w in
  this w' = unshift (mkTxRecord t h d (now env)) (this w) /\
  innerHTML (getElementById "txHistory" (dom w')) =
    historyHTML env (mkTxRecord t h d (now env) :: txHistory (this w)).
Proof.
  unfold addTransaction, updateTransactionHistory, run, bind, get_this, modify_this; simpl.
  rewrite getElementById_writeTo; by split.
Qed.

Lemma addTransactions_log env calls : forall w,
  let w' := run (addTransactions env calls) w in
  txHistory (this w') = (rev (map (recordOf env) calls) ++ txHistory (this w))%list /\
  match calls with
  | [] => w' = w
  | _ :: _ =>
      innerHTML (getElementById "txHistory" (dom w')) =
        historyHTML env (txHistory (this w'))
  end.
Proof.
  induction calls as [|call rest IH]; intros w; [by split |].
  cbv zeta.
  assert (Hstep : run (addTransactions env (call :: rest)) w =
                  run (addTransactions env rest)
                    (run (addTransaction env (fst (fst call)) (snd (fst call)) (snd call)) w)).
  { unfold run at 1. simpl. unfold bind at 1.
    destruct (addTransaction env _ _ _ w) as [[[]|e] w1] eqn:E.
    - unfold run at 2. rewrite E. reflexivity.
    - unfold addTransaction, updateTransactionHistory, bind, modify_this, get_this in E.
      simpl in E. discriminate. }
  rewrite Hstep.
  destruct (addTransaction_log env (fst (fst call)) (snd (fst call)) (snd call) w)
    as (Happ & Hslot).
  set (w1 := run (addTransaction env _ _ _) w) in *.
  destruct (IH w1) as (Hlog & Hshown).
  split.
  - rewrite Hlog, Happ. simpl. rewrite <- app_assoc. reflexivity.
  - destruct rest as [|c rest'].
    + rewrite Hshown, Hslot, Happ. reflexivity.
    + exact Hshown.
Qed.

(** *** Reading the markup back *)

(** Unfolds one step of string concatenation. *)
Ltac append_step :=
  repeat match goal with
  | |- context [String.append (String ?c ?p) ?r] =>
      change (String.append (String c p) r) with (String c (String.append p r))
  | |- context [String.append EmptyString ?r] =>
      change (String.append EmptyString r) with r
  end.

Lemma append_assoc_string s1 s2 s3 : (s1 ++ s2) ++ s3 = s1 ++ (s2 ++ s3).
Proof. induction s1 as [|c s1 IH]; append_step; [reflexivity | by rewrite IH]. Qed.

Lemma append_empty_r s : s ++ EmptyString = s.
Proof. induction s as [|c s IH]; append_step; [reflexivity | by rewrite IH]. Qed.

(** *** Scanning a text in pieces *)

Section Scanning.

Variables o c : ascii.

Lemma lacks_cons a x s :
  lacks a (String x s) = true -> Ascii.eqb x a = false /\ lacks a s = true.
Proof.
  cbn. intros H. apply andb_prop in H as [H1 H2].
  split; [by apply negb_true_iff | exact H2].
Qed.

Lemma enclosed_outside acc p rest :
  lacks o p = true ->
  enclosed o c false acc (p ++ rest) = enclosed o c false EmptyString rest.
Proof.
  revert acc. induction p as [|x p IH]; intros acc Hp; append_step.
  - by destruct rest.
  - apply lacks_cons in Hp as [Hx Hp]. cbn. rewrite Hx. by apply IH.
Qed.

Lemma enclosed_open acc rest :
  enclosed o c false acc (String o rest) = enclosed o c true EmptyString rest.
Proof. cbn. by rewrite Ascii.eqb_refl. Qed.

Lemma enclosed_inside acc v rest :
  lacks c v = true ->
  enclosed o c true acc (v ++ rest) = enclosed o c true (acc ++ v) rest.
Proof.
  revert acc. induction v as [|x v IH]; intros acc Hv; append_step.
  - by rewrite append_empty_r.
  - apply lacks_cons in Hv as [Hx Hv]. cbn. rewrite Hx, IH by exact Hv.
    by rewrite append_assoc_string.
Qed.

Lemma enclosed_close acc rest :
  enclosed o c true acc (String c rest) = acc :: enclosed o c false EmptyString rest.
Proof. cbn. by rewrite Ascii.eqb_refl. Qed.

Lemma unenclosed_outside p rest :
  lacks o p = true ->
  unenclosed o c false (p ++ rest) = p ++ unenclosed o c false rest.
Proof.
  induction p as [|x p IH]; intros Hp; append_step.
  - reflexivity.
  - apply lacks_cons in Hp as [Hx Hp]. cbn. rewrite Hx. by rewrite IH.
Qed.

Lemma unenclosed_open rest :
  unenclosed o c false (String o rest) = unenclosed o c true rest.
Proof. cbn. by rewrite Ascii.eqb_refl. Qed.

Lemma unenclosed_inside v rest :
  lacks c v = true ->
  unenclosed o c true (v ++ rest) = unenclosed o c true rest.
Proof.
  induction v as [|x v IH]; intros Hv; append_step.
  - reflexivity.
  - apply lacks_cons in Hv as [Hx Hv]. cbn. rewrite Hx. by apply IH.
Qed.

Lemma unenclosed_close rest :
  unenclosed o c true (String c rest) = unenclosed o c false rest.
Proof. cbn. by rewrite Ascii.eqb_refl. Qed.

End Scanning.

(** *** One entry of the history *)

Lemma dq_cons rest : dq ++ rest = String quote rest.
Proof. reflexivity. Qed.

Lemma plainRecord_fields env r :
  plainRecord env r = true ->
  markupFree (type r) = true /\ markupFree (toLocaleString env (timestamp r)) = true /\
  markupFree (details r) = true /\ markupFree (txhash r) = true.
Proof.
  unfold plainRecord. intros H.
  apply andb_prop in H as [H H4]. apply andb_prop in H as [H H3].
  apply andb_prop in H as [H1 H2]. auto.
Qed.

Lemma markupFree_lacks s :
  markupFree s = true ->
  lacks quote s = true /\ lacks "<" s = true /\ lacks ">" s = true.
Proof.
  unfold markupFree. intros H. apply andb_prop in H as [H _].
  apply andb_prop in H as [H H3]. apply andb_prop in H as [H1 H2]. auto.
Qed.

Ltac scan_quotes :=
  repeat first
    [ rewrite dq_cons, enclosed_open
    | rewrite dq_cons, enclosed_close
    | rewrite enclosed_outside by first [reflexivity | assumption]
    | rewrite enclosed_inside by first [reflexivity | assumption] ].

Lemma attributeValues_renderTx env r rest :
  plainRecord env r = true ->
  attributeValues (renderTx env r ++ rest) =
    (entryAttributes r ++ attributeValues rest)%list.
Proof.
  intros H. apply plainRecord_fields in H as (H1 & H2 & H3 & H4).
  apply markupFree_lacks in H1 as (Q1 & _ & _).
  apply markupFree_lacks in H2 as (Q2 & _ & _).
  apply markupFree_lacks in H3 as (Q3 & _ & _).
  apply markupFree_lacks in H4 as (Q4 & _ & _).
  unfold attributeValues, renderTx.
  rewrite !append_assoc_string.
  scan_quotes.
  reflexivity.
Qed.

(** The template cut at its angle brackets. *)
Lemma renderTx_tags env r :
  renderTx env r =
    lineBreak 12 ++ "<" ++
      ("div style=" ++ dq ++ "padding: 10px; border-bottom: 1px solid #eee; margin-bottom: 10px;" ++ dq) ++ ">" ++
    lineBreak 16 ++ "<" ++
      ("div style=" ++ dq ++ "display: flex; justify-content: space-between; align-items: center;" ++ dq) ++ ">" ++
    lineBreak 20 ++ "<" ++ "strong" ++ ">" ++ type r ++ "<" ++ "/strong" ++ ">" ++
    lineBreak 20 ++ "<" ++
      ("span style=" ++ dq ++ "font-size: 12px; color: #666;" ++ dq) ++ ">" ++
      toLocaleString env (timestamp r) ++ "<" ++ "/span" ++ ">" ++
    lineBreak 16 ++ "<" ++ "/div" ++ ">" ++
    lineBreak 16 ++ "<" ++
      ("div style=" ++ dq ++ "font-size: 14px; margin: 5px 0;" ++ dq) ++ ">" ++
      details r ++ "<" ++ "/div" ++ ">" ++
    lineBreak 16 ++ "<" ++ "div" ++ ">" ++
    lineBreak 20 ++ "<" ++
      ("a href=" ++ dq ++ "https://explorer-testnet.monad.xyz/tx/") ++ txhash r ++
      (dq ++ " target=" ++ dq ++ "_blank" ++ dq ++ " class=" ++ dq ++ "link" ++ dq) ++ ">" ++
    (lineBreak 24 ++ "View Transaction" ++ lineBreak 20) ++ "<" ++ "/a" ++ ">" ++
    lineBreak 16 ++ "<" ++ "/div" ++ ">" ++
    lineBreak 12 ++ "<" ++ "/div" ++ ">" ++
    lineBreak 8.
Proof. reflexivity. Qed.

Lemma lt_cons rest : "<" ++ rest = String "<"%char rest.
Proof. reflexivity. Qed.

Lemma gt_cons rest : ">" ++ rest = String ">"%char rest.
Proof. reflexivity. Qed.

Ltac scan_tags :=
  repeat first
    [ rewrite lt_cons, unenclosed_open
    | rewrite gt_cons, unenclosed_close
    | rewrite unenclosed_outside by first [reflexivity | assumption]
    | rewrite unenclosed_inside by first [reflexivity | assumption] ].

Lemma visibleText_renderTx env r rest :
  plainRecord env r = true ->
  visibleText (renderTx env r ++ rest) = entryText env r ++ visibleText rest.
Proof.
  intros H. apply plainRecord_fields in H as (H1 & H2 & H3 & H4).
  apply markupFree_lacks in H1 as (_ & L1 & _).
  apply markupFree_lacks in H2 as (_ & L2 & _).
  apply markupFree_lacks in H3 as (_ & L3 & _).
  apply markupFree_lacks in H4 as (_ & _ & G4).
  unfold visibleText, entryText. rewrite renderTx_tags.
  rewrite !append_assoc_string.
  scan_tags.
  reflexivity.
Qed.

(** *** The whole history *)

Lemma join_cons x l : join EmptyString (x :: l) = x ++ join EmptyString l.
Proof.
  unfold join. destruct l as [|y l]; cbn [String.concat].
  - by rewrite append_empty_r.
  - reflexivity.
Qed.

Lemma attributeValues_history env l :
  forallb (plainRecord env) l = true ->
  attributeValues (join EmptyString (map (renderTx env) l)) =
    List.flat_map entryAttributes l.
Proof.
  induction l as [|r l IH]; intros H; [reflexivity |].
  cbn [forallb] in H. apply andb_prop in H as [Hr Hl].
  cbn [map List.flat_map]. rewrite join_cons, attributeValues_renderTx by exact Hr.
  by rewrite IH.
Qed.

Lemma linkTargets_history env l :
  forallb (plainRecord env) l = true ->
  linkTargets (join EmptyString (map (renderTx env) l)) = map explorerLink l.
Proof.
  intros H. unfold linkTargets. rewrite attributeValues_history by exact H.
  clear H. induction l as [|r l IH]; [reflexivity |].
  cbn [List.flat_map map]. rewrite List.filter_app, IH. reflexivity.
Qed.

Lemma visibleText_history env l :
  forallb (plainRecord env) l = true ->
  visibleText (join EmptyString (map (renderTx env) l)) =
    join EmptyString (map (entryText env) l).
Proof.
  induction l as [|r l IH]; intros H; [reflexivity |].
  cbn [forallb] in H. apply andb_prop in H as [Hr Hl].
  cbn [map]. rewrite !join_cons, visibleText_renderTx by exact Hr.
  by rewrite IH.
Qed.

(** C6: whatever the log holds, the history slot is given the markup of the
    records of [txHistory.slice(0, 10)], the leading entries of the log in
    log order, or the placeholder when the log is empty.  Read back from
    that markup, with record fields that hold no quote, angle bracket or
    ampersand (the code escapes nothing): the link targets are the explorer
    addresses of the hashes of the first 10 records, in log order and one
    for each, so that min(10, length) entries are shown, never more than
    10; and the text outside the tags is, entry after entry, the type, time
    and details of these records with the link label.  Since every record enters the
    log at its head, after any sequence of additions the log is the added
    records newest first followed by the older ones, and the slot shows the
    first 10 of them in that order. *)
Theorem C6_history_shows_ten_most_recent env :
  (forall w,
     let h := txHistory (this w) in
     let w' := run (updateTransactionHistory env) w in
     let shown := innerHTML (getElementById "txHistory" (dom w')) in
     length (map (renderTx env) (historyWindow h)) <= 10 /\
     historyWindow h = take 10 h /\
     historyWindow h `prefix_of` h /\
     shown =
       (if Nat.eqb (length h) 0
        then "<p>No transactions yet...</p>"
        else join EmptyString (map (renderTx env) (historyWindow h))) /\
     (forallb (plainRecord env) (take 10 h) = true ->
      linkTargets shown =
        map (fun r => "https://explorer-testnet.monad.xyz/tx/" ++ txhash r) (take 10 h) /\
      length (linkTargets shown) = Nat.min 10 (length h) /\
      visibleText shown =
        (if Nat.eqb (length h) 0
         then "No transactions yet..."
         else join EmptyString (map (entryText env) (take 10 h))))) /\
  (forall calls w,
     let w' := run (addTransactions env calls) w in
     let log := (rev (map (recordOf env) calls) ++ txHistory (this w))%list in
     txHistory (this w') = log /\
     match calls with
     | [] => w' = w
     | _ :: _ =>
         let shown := innerHTML (getElementById "txHistory" (dom w')) in
         shown = join EmptyString (map (renderTx env) (take 10 log)) /\
         (forallb (plainRecord env) (take 10 log) = true ->
          linkTargets shown =
            map (fun r => "https://explorer-testnet.monad.xyz/tx/" ++ txhash r)
              (take 10 log) /\
          length (linkTargets shown) = Nat.min 10 (length log) /\
          visibleText shown = join EmptyString (map (entryText env) (take 10 log)))
     end).
Proof.
  split.
  - intros w h w' shown.
    assert (Hshown : shown =
              (if Nat.eqb (length h) 0
               then "<p>No transactions yet...</p>"
               else join EmptyString (map (renderTx env) (historyWindow h))))
      by apply updateTransactionHistory_slot.
    split; [| split; [| split; [| split]]].
    + rewrite length_map, historyWindow_take, length_take. lia.
    + apply historyWindow_take.
    + rewrite historyWindow_take. apply prefix_take.
    + exact Hshown.
    + intros Hplain. rewrite Hshown, historyWindow_take.
      destruct h as [|r h']; [by repeat split |].
      cbn [length Nat.eqb].
      rewrite linkTargets_history, visibleText_history by exact Hplain.
      split; [reflexivity |]. split; [| reflexivity].
      rewrite length_map, length_take. reflexivity.
  - intros calls w w' log.
    destruct (addTransactions_log env calls w) as (Hlog & Hshown).
    split; [exact Hlog |]. fold w' in Hlog, Hshown.
    destruct calls as [|call calls]; [exact Hshown |].
    cbv zeta. rewrite Hshown, Hlog. fold log.
    split; [reflexivity |]. intros Hplain.
    unfold historyHTML. rewrite historyWindow_take.
    rewrite linkTargets_history, visibleText_history by exact Hplain.
    split; [reflexivity |]. split; [| reflexivity].
    rewrite length_map, length_take. reflexivity.
Qed.

(** C6 on a log of eleven submissions: the ten newest are shown, newest
    first, and the oldest is not. *)
Lemma C6_history_shows_ten_most_recent_witness :
  let w' := run (addTransactions onTestnet sampleCalls) pageLoad in
  let shown := innerHTML (getElementById "txHistory" (dom w')) in
  forallb (plainRecord onTestnet)
    (take 10 (rev (map (recordOf onTestnet) sampleCalls) ++ txHistory (this pageLoad))%list) = true /\
  linkTargets shown =
    ["https://explorer-testnet.monad.xyz/tx/0x0b";
     "https://explorer-testnet.monad.xyz/tx/0x0a";
     "https://explorer-testnet.monad.xyz/tx/0x09";
     "https://explorer-testnet.monad.xyz/tx/0x08";
     "https://explorer-testnet.monad.xyz/tx/0x07";
     "https://explorer-testnet.monad.xyz/tx/0x06";
     "https://explorer-testnet.monad.xyz/tx/0x05";
     "https://explorer-testnet.monad.xyz/tx/0x04";
     "https://explorer-testnet.monad.xyz/tx/0x03";
     "https://explorer-testnet.monad.xyz/tx/0x02"] /\
  length (linkTargets shown) = 10.
Proof.
  cbv zeta.
  assert (Hplain : forallb (plainRecord onTestnet)
            (take 10 (rev (map (recordOf onTestnet) sampleCalls) ++
                      txHistory (this pageLoad))%list) = true)
    by (vm_compute; reflexivity).
  split; [exact Hplain |].
  destruct (C6_history_shows_ten_most_recent onTestnet) as [_ H].
  destruct (H sampleCalls pageLoad) as [_ [_ Hread]].
  destruct (Hread Hplain) as (Hlinks & Hcount & _).
  split; [exact Hlinks | exact Hcount].
Defined.

(** ** Mint and Transfer *)

Arguments historyHTML : simpl never.
Arguments formatAddress : simpl never.
Arguments String.append : simpl never.

(** The events of a balance refresh are reads and writes only. *)
Lemma updateTokenInfo_run env w :
  exists d evs,
    updateTokenInfo env w =
      (Ret tt, mkWorld (this w) d (timers w) (listeners w) (trace w ++ evs)) /\
    forallb (fun e => negb (isSubmission e) && negb (isTxWait e)) evs = true.
Proof.
  unfold updateTokenInfo, bind, get_this, try_catch, await, console_error, emit,
    ret, throw, dom_write.
  destruct (contract (this w)) as [c|]; simpl.
  2:{ exists (dom w), []. rewrite app_nil_r. by destruct w. }
  destruct (truthy (userAddress (this w))); simpl.
  2:{ exists (dom w), []. rewrite app_nil_r. by destruct w. }
  destruct (balanceOf (deployed env) _) as [e|bal]; simpl.
  { eexists _, [_; _]. rewrite <- !app_assoc. simpl. by split. }
  destruct (whitelist (deployed env) _) as [e|b]; simpl.
  { eexists _, [_; _; _; _]. rewrite <- !app_assoc; simpl. by split. }
  eexists _, [_; _; _; _; _]. rewrite <- !app_assoc; simpl. by split.
Qed.

Ltac refresh_step E :=
  match type of E with
  | context [updateTokenInfo ?env ?W] =>
      let d := fresh "d" in
      let evs := fresh "evs" in
      let Hrun := fresh "Hrun" in
      let Hevs := fresh "Hevs" in
      destruct (updateTokenInfo_run env W) as (d & evs & Hrun & Hevs);
      rewrite Hrun in E; simpl in E
  end.

Lemma mintTokens_attempt env w c :
  contract (this w) = Some c ->
  let a := value (getElementById "mintAmount" (dom w)) in
  String.eqb a EmptyString || js_le (ToNumber env a) (Num (inject_Z 0)) = false ->
  js_gt (ToNumber env a) (Num (inject_Z 1000)) = false ->
  mintAttempt env a w (run (mintTokens env) w).
Proof.
  intros Hc a H1 H2. unfold run.
  destruct (mintTokens env w) as [o w'] eqn:E.
  unfold mintTokens, bind, get_this, dom_value in E. rewrite Hc in E.
  fold a in E. rewrite H1, H2 in E.
  unfold mintAttempt, submissionAttempt.
  unfold try_catch, bind, lift in E. simpl in E.
  destruct (parseEther env a) as [e|v]; simpl in E.
  { injection E as <- <-. split; [reflexivity | events; reflexivity]. }
  destruct (whitelistMint (deployed env) v) as [e|tx]; simpl in E.
  { injection E as <- <-. split; [reflexivity | events; reflexivity]. }
  destruct (wait tx) as [e|[]]; simpl in E.
  { injection E as <- <-. split; [reflexivity |].
    eexists. split; [events; reflexivity |]. by split. }
  refresh_step E.
  injection E as <- <-. split; [reflexivity |].
  eexists. split; [events; reflexivity |]. split; [| by eexists].
  simpl. exact Hevs.
Qed.

Lemma transferTokens_attempt env w c :
  contract (this w) = Some c ->
  let to := value (getElementById "transferTo" (dom w)) in
  let a := value (getElementById "transferAmount" (dom w)) in
  String.eqb to EmptyString || negb (isAddress env to) = false ->
  String.eqb a EmptyString || js_le (ToNumber env a) (Num (inject_Z 0)) = false ->
  transferAttempt env to a w (run (transferTokens env) w).
Proof.
  intros Hc to a H1 H2. unfold run.
  destruct (transferTokens env w) as [o w'] eqn:E.
  unfold transferTokens, bind, get_this, dom_value in E. rewrite Hc in E.
  fold to a in E. rewrite H1, H2 in E.
  unfold transferAttempt, submissionAttempt.
  unfold try_catch, bind, lift in E. simpl in E.
  destruct (parseEther env a) as [e|v]; simpl in E.
  { injection E as <- <-. split; [reflexivity | events; reflexivity]. }
  destruct (transfer (deployed env) to v) as [e|tx]; simpl in E.
  { injection E as <- <-. split; [reflexivity | events; reflexivity]. }
  destruct (wait tx) as [e|[]]; simpl in E.
  { injection E as <- <-. split; [reflexivity |].
    eexists. split; [events; reflexivity |]. by split. }
  refresh_step E.
  injection E as <- <-. split; [reflexivity |].
  eexists. split; [events; reflexivity |]. split; [| by eexists].
  simpl. rewrite forallb_app, Hevs. reflexivity.
Qed.

(** The three ways the operations stop before the attempt. *)
Lemma mintTokens_invalid env w c :
  contract (this w) = Some c ->
  let a := value (getElementById "mintAmount" (dom w)) in
  String.eqb a EmptyString || js_le (ToNumber env a) (Num (inject_Z 0)) = true ->
  mintTokens env w = showStatus "mintStatus" "Please enter a valid amount" "error" w.
Proof.
  intros Hc a H. unfold mintTokens, bind, get_this, dom_value. rewrite Hc.
  fold a. by rewrite H.
Qed.

Lemma mintTokens_above env w c :
  contract (this w) = Some c ->
  let a := value (getElementById "mintAmount" (dom w)) in
  String.eqb a EmptyString || js_le (ToNumber env a) (Num (inject_Z 0)) = false ->
  js_gt (ToNumber env a) (Num (inject_Z 1000)) = true ->
  mintTokens env w = showStatus "mintStatus" "Maximum mint amount is 1000 tokens" "error" w.
Proof.
  intros Hc a H1 H2. unfold mintTokens, bind, get_this, dom_value. rewrite Hc.
  fold a. by rewrite H1, H2.
Qed.

Lemma transferTokens_bad_address env w c :
  contract (this w) = Some c ->
  let to := value (getElementById "transferTo" (dom w)) in
  String.eqb to EmptyString || negb (isAddress env to) = true ->
  transferTokens env w = showStatus "transferStatus" "Please enter a valid address" "error" w.
Proof.
  intros Hc to H. unfold transferTokens, bind, get_this, dom_value. rewrite Hc.
  fold to. by rewrite H.
Qed.

Lemma transferTokens_invalid env w c :
  contract (this w) = Some c ->
  let to := value (getElementById "transferTo" (dom w)) in
  let a := value (getElementById "transferAmount" (dom w)) in
  String.eqb to EmptyString || negb (isAddress env to) = false ->
  String.eqb a EmptyString || js_le (ToNumber env a) (Num (inject_Z 0)) = true ->
  transferTokens env w = showStatus "transferStatus" "Please enter a valid amount" "error" w.
Proof.
  intros Hc to a H1 H2. unfold transferTokens, bind, get_this, dom_value. rewrite Hc.
  fold to a. by rewrite H1, H2.
Qed.

Lemma showStatus_events id msg ty w :
  newEvents w (run (showStatus id msg ty) w) =
    (statusEvents id msg ty ++
     if String.eqb ty "success" then [EvSetTimeout id 5000] else [])%list /\
  this (run (showStatus id msg ty) w) = this w.
Proof.
  unfold showStatus, run, bind, dom_write, setTimeout, ret, statusEvents.
  destruct (String.eqb ty "success"); simpl; (split; [events; reflexivity | reflexivity]).
Qed.

Lemma validationError_quiet slot msg w w' :
  validationError slot msg w w' ->
  newEvents w w' = statusEvents slot msg "error" /\
  networkCalls w w' = [] /\
  this w' = this w.
Proof.
  unfold validationError. intros ->.
  destruct (showStatus_events slot msg "error" w) as (Hev & Hthis).
  simpl in Hev. rewrite ?app_nil_r in Hev.
  split; [exact Hev |]. split; [| exact Hthis].
  unfold networkCalls. rewrite Hev. reflexivity.
Qed.

(** Comparisons of the language against the readings. *)
Lemma js_le_zero n :
  js_le n (Num (inject_Z 0)) = true <-> n <> NaN /\ ~ positive n.
Proof.
  destruct n as [|q| |]; simpl; unfold js_le; simpl.
  - split; [discriminate | intros [H _]; by destruct H].
  - rewrite negb_involutive. rewrite Qle_bool_iff. split.
    + intros H. split; [discriminate |]. by apply Qle_not_lt.
    + intros [_ H]. by apply Qnot_lt_le.
  - split; [discriminate | intros [_ H]; by destruct H].
  - split; [intros _; split; [discriminate | tauto] | reflexivity].
Qed.



Lemma run_eq {A B} (m1 : M A) (m2 : M B) w : snd (m1 w) = snd (m2 w) -> run m1 w = run m2 w.
Proof. intros H. exact H. Qed.

Lemma submissions_app env l1 l2 :
  submissions env (l1 ++ l2) = (submissions env l1 ++ submissions env l2)%list.
Proof. unfold submissions. apply flat_map_app. Qed.

Lemma submissions_none env evs :
  forallb (fun e => negb (isSubmission e) && negb (isTxWait e)) evs = true ->
  submissions env evs = [].
Proof.
  induction evs as [|e evs IH]; [reflexivity |]. simpl.
  intros H. apply andb_prop in H as [He Hrest]. rewrite (IH Hrest).
  destruct e; simpl in He; try discriminate; reflexivity.
Qed.

(** An attempt logs exactly what the contract returned. *)
Lemma attempt_logged env slot pending label failed success call submit record kind a w w' :
  (forall v, submissions env [call v] =
             match submit v with inr tx => [tx] | inl _ => [] end) ->
  (forall v, isTxWait (call v) = false) ->
  (forall tx, type (record tx) = kind /\ txhash (record tx) = hash tx /\
              timestamp (record tx) = now env) ->
  submissionAttempt env slot pending label failed success call submit record a w w' ->
  loggedOnSubmission env kind w w'.
Proof.
  intros Hcall Hnw Hrec. unfold submissionAttempt, loggedOnSubmission.
  destruct (parseEther env a) as [e|v].
  { intros [Hthis Hev]. exists []. rewrite Hthis, Hev.
    repeat split; try done. simpl. lia. }
  specialize (Hcall v).
  destruct (submit v) as [e|tx].
  { intros [Hthis Hev]. exists []. rewrite Hthis, Hev.
    rewrite submissions_app. change (call v :: ?l) with ([call v] ++ l)%list.
    rewrite submissions_app, Hcall.
    repeat split; try done. simpl. lia. }
  intros (Hthis & post & Hev & Hpost & _).
  destruct (Hrec tx) as (Hk & Hh & Ht).
  exists [record tx]. rewrite Hthis, Hev. split; [reflexivity |].
  split.
  { rewrite submissions_app. change (call v :: ?l) with ([call v] ++ l)%list.
    rewrite submissions_app, Hcall, submissions_app.
    change (EvDom ?i ?x :: EvTxWait ?h :: post) with ([EvDom i x; EvTxWait h] ++ post)%list.
    rewrite submissions_app, (submissions_none env post Hpost).
    simpl. by rewrite Hh. }
  split; [simpl; lia |]. split; [by repeat constructor |].
  intros r [= <-]. rewrite Hh.
  eexists (statusEvents slot pending "info" ++ call v ::
           statusEvents slot ("Transaction sent: " ++ hash tx) "info")%list, post.
  split; [by rewrite <- app_assoc |].
  simpl. by rewrite Hnw.
Qed.

Lemma quiet_logged env kind w w' :
  this w' = this w -> submissions env (newEvents w w') = [] ->
  loggedOnSubmission env kind w w'.
Proof.
  intros Hthis Hsub. exists []. rewrite Hthis, Hsub.
  repeat split; try done. simpl. lia.
Qed.

(** C3: in every Mint run and every Transfer run the log grows by exactly
    one record per submission handle the contract returned during the run,
    at most one, put at the head of the log and rendered before the
    confirmation is awaited; a run whose submission failed or was never
    reached leaves the log as it was, and the outcome of the confirmation
    changes nothing in the log. *)
Theorem C3_record_iff_submission_returned env w :
  loggedOnSubmission env "Mint" w (run (mintTokens env) w) /\
  loggedOnSubmission env "Transfer" w (run (transferTokens env) w).
Proof.
  split.
  - destruct (contract (this w)) as [c|] eqn:Hc.
    2:{ rewrite (run_eq _ (ret tt) _ (f_equal snd (mintTokens_unbound env w Hc))).
        apply quiet_logged; [reflexivity | by rewrite newEvents_same]. }
    set (a := value (getElementById "mintAmount" (dom w))).
    destruct (String.eqb a EmptyString || js_le (ToNumber env a) (Num (inject_Z 0))) eqn:H1.
    { rewrite (run_eq _ _ _ (f_equal snd (mintTokens_invalid env w c Hc H1))).
      destruct (validationError_quiet "mintStatus" "Please enter a valid amount" w _ eq_refl)
        as (Hev & _ & Hthis).
      apply quiet_logged; [exact Hthis | by rewrite Hev]. }
    destruct (js_gt (ToNumber env a) (Num (inject_Z 1000))) eqn:H2.
    { rewrite (run_eq _ _ _ (f_equal snd (mintTokens_above env w c Hc H1 H2))).
      destruct (validationError_quiet "mintStatus" "Maximum mint amount is 1000 tokens" w _ eq_refl)
        as (Hev & _ & Hthis).
      apply quiet_logged; [exact Hthis | by rewrite Hev]. }
    eapply attempt_logged; [| | | exact (mintTokens_attempt env w c Hc H1 H2)].
    + intros v. simpl. by rewrite app_nil_r.
    + reflexivity.
    + by intros tx.
  - destruct (contract (this w)) as [c|] eqn:Hc.
    2:{ rewrite (run_eq _ (ret tt) _ (f_equal snd (transferTokens_unbound env w Hc))).
        apply quiet_logged; [reflexivity | by rewrite newEvents_same]. }
    set (to := value (getElementById "transferTo" (dom w))).
    set (a := value (getElementById "transferAmount" (dom w))).
    destruct (String.eqb to EmptyString || negb (isAddress env to)) eqn:H0.
    { rewrite (run_eq _ _ _ (f_equal snd (transferTokens_bad_address env w c Hc H0))).
      destruct (validationError_quiet "transferStatus" "Please enter a valid address" w _ eq_refl)
        as (Hev & _ & Hthis).
      apply quiet_logged; [exact Hthis | by rewrite Hev]. }
    destruct (String.eqb a EmptyString || js_le (ToNumber env a) (Num (inject_Z 0))) eqn:H1.
    { rewrite (run_eq _ _ _ (f_equal snd (transferTokens_invalid env w c Hc H0 H1))).
      destruct (validationError_quiet "transferStatus" "Please enter a valid amount" w _ eq_refl)
        as (Hev & _ & Hthis).
      apply quiet_logged; [exact Hthis | by rewrite Hev]. }
    eapply attempt_logged; [| | | exact (transferTokens_attempt env w c Hc H0 H1)].
    + intros v. simpl. by rewrite app_nil_r.
    + reflexivity.
    + by intros tx.
Qed.


Lemma exceeds_positive k n : (0 <= k)%Z -> exceeds k n -> positive n.
Proof.
  destruct n as [|q| |]; simpl; try tauto. intros Hk H.
  eapply Qle_lt_trans; [| exact H].
  change 0%Q with (inject_Z 0). by rewrite <- Zle_Qle.
Qed.

Lemma attempt_starts env slot pending label failed success call submit record a w w' :
  submissionAttempt env slot pending label failed success call submit record a w w' ->
  exists rest, newEvents w w' = (statusEvents slot pending "info" ++ rest)%list.
Proof.
  unfold submissionAttempt.
  destruct (parseEther env a) as [e|v]; [intros [_ H]; eauto |].
  destruct (submit v) as [e|tx]; [intros [_ H]; eauto |].
  intros (_ & post & H & _). eauto.
Qed.

(** An attempt is not a validation error: its second write marks the slot
    as info. *)
Lemma attempt_not_validationError env slot pending label failed success call submit
    record a w w' msg :
  submissionAttempt env slot pending label failed success call submit record a w w' ->
  ~ validationError slot msg w w'.
Proof.
  intros Ha Hv. destruct (attempt_starts _ _ _ _ _ _ _ _ _ _ _ _ Ha) as [rest Hev].
  destruct (validationError_quiet _ _ _ _ Hv) as (Hev' & _).
  rewrite Hev' in Hev. vm_compute in Hev. discriminate.
Qed.

Lemma empty_eqb a : a = EmptyString <-> String.eqb a EmptyString = true.
Proof. symmetry. apply String.eqb_eq. Qed.

Lemma nonempty_eqb a : a <> EmptyString <-> String.eqb a EmptyString = false.
Proof. symmetry. apply String.eqb_neq. Qed.

(** The amount check of both operations, read on [ToNumber]. *)
Lemma amount_rejected env a :
  String.eqb a EmptyString || js_le (ToNumber env a) (Num (inject_Z 0)) = true <->
  a = EmptyString \/ (ToNumber env a <> NaN /\ ~ positive (ToNumber env a)).
Proof. by rewrite orb_true_iff, <- empty_eqb, js_le_zero. Qed.

Lemma amount_accepted env a :
  a <> EmptyString -> positive (ToNumber env a) ->
  String.eqb a EmptyString || js_le (ToNumber env a) (Num (inject_Z 0)) = false.
Proof.
  intros Ha Hp. apply not_true_iff_false. rewrite amount_rejected.
  intros [H | [_ H]]; tauto.
Qed.


(** C4, amended: while a contract capability is bound, Transfer fails with a
    ValidationError and no network call for every destination that is empty
    or that [isAddress] rejects; and for every destination it accepts and
    every amount that is a positive number, however large, the run goes
    through the submission attempt: pending status, base-unit conversion
    and, when the conversion succeeds, one [transfer] call through the
    contract capability. *)
Theorem C4_transfer_address_validation env w c :
  contract (this w) = Some c ->
  let to := value (getElementById "transferTo" (dom w)) in
  let a := value (getElementById "transferAmount" (dom w)) in
  let n := ToNumber env a in
  let w' := run (transferTokens env) w in
  (to = EmptyString \/ isAddress env to = false ->
   validationError "transferStatus" "Please enter a valid address" w w' /\
   networkCalls w w' = []) /\
  (to <> EmptyString -> isAddress env to = true ->
   a <> EmptyString -> positive n ->
   transferAttempt env to a w w') /\
  (to <> EmptyString -> isAddress env to = true ->
   a <> EmptyString -> exceeds 1000 n ->
   transferAttempt env to a w w').
Proof.
  intros Hc to a n w'.
  assert (Hattempt : to <> EmptyString -> isAddress env to = true ->
                     a <> EmptyString -> positive n -> transferAttempt env to a w w').
  { intros Ht Hi Ha Hp. apply (transferTokens_attempt env w c Hc).
    - fold to. apply nonempty_eqb in Ht. by rewrite Ht, Hi.
    - by apply amount_accepted. }
  split; [| split].
  - intros H.
    assert (Hb : String.eqb to EmptyString || negb (isAddress env to) = true).
    { apply orb_true_iff. destruct H as [H | H];
        [left; by apply empty_eqb | right; by rewrite H]. }
    assert (Hv : validationError "transferStatus" "Please enter a valid address" w w').
    { apply run_eq. by rewrite (transferTokens_bad_address env w c Hc Hb). }
    split; [exact Hv |]. by destruct (validationError_quiet _ _ _ _ Hv) as (_ & ? & _).
  - exact Hattempt.
  - intros Ht Hi Ha Hx. apply Hattempt; try done. by apply (exceeds_positive 1000).
Qed.

(** C10: with the amount validation reached (a contract bound and, for
    Transfer, a destination that passed), every non-empty amount whose
    [ToNumber] is NaN passes the validation, since neither comparison holds,
    and the run goes through the submission attempt instead of a
    ValidationError; when the base-unit conversion then rejects it, the
    failure is caught and reported as a failed transaction, with no network
    call and no record. *)
Theorem C10_non_numeric_amount_reaches_attempt env w c :
  contract (this w) = Some c ->
  (let a := value (getElementById "mintAmount" (dom w)) in
   let w' := run (mintTokens env) w in
   a <> EmptyString -> ToNumber env a = NaN ->
   mintAttempt env a w w' /\
   (forall msg, ~ validationError "mintStatus" msg w w') /\
   forall e, parseEther env a = inl e ->
     newEvents w w' =
       (statusEvents "mintStatus" ("Minting tokens..." ++ loading) "info" ++
        EvConsoleError "Mint error:" e ::
        statusEvents "mintStatus" ("Mint failed: " ++ message e) "error")%list /\
     networkCalls w w' = [] /\ this w' = this w) /\
  (let to := value (getElementById "transferTo" (dom w)) in
   let a := value (getElementById "transferAmount" (dom w)) in
   let w' := run (transferTokens env) w in
   to <> EmptyString -> isAddress env to = true ->
   a <> EmptyString -> ToNumber env a = NaN ->
   transferAttempt env to a w w' /\
   (forall msg, ~ validationError "transferStatus" msg w w') /\
   forall e, parseEther env a = inl e ->
     newEvents w w' =
       (statusEvents "transferStatus" ("Transferring tokens..." ++ loading) "info" ++
        EvConsoleError "Transfer error:" e ::
        statusEvents "transferStatus" ("Transfer failed: " ++ message e) "error")%list /\
     networkCalls w w' = [] /\ this w' = this w).
Proof.
  intros Hc. split.
  - intros a w' Ha Hn.
    assert (Hat : mintAttempt env a w w').
    { apply (mintTokens_attempt env w c Hc); fold a; rewrite Hn.
      - apply nonempty_eqb in Ha. by rewrite Ha.
      - reflexivity. }
    split; [exact Hat |]. split.
    + intros msg. by eapply attempt_not_validationError.
    + intros e He. unfold mintAttempt, submissionAttempt in Hat. rewrite He in Hat.
      destruct Hat as [Hthis Hev]. split; [exact Hev |]. split; [| exact Hthis].
      unfold networkCalls. rewrite Hev. reflexivity.
  - intros to a w' Ht Hi Ha Hn.
    assert (Hat : transferAttempt env to a w w').
    { apply (transferTokens_attempt env w c Hc); fold to a.
      - apply nonempty_eqb in Ht. by rewrite Ht, Hi.
      - rewrite Hn. apply nonempty_eqb in Ha. by rewrite Ha. }
    split; [exact Hat |]. split.
    + intros msg. by eapply attempt_not_validationError.
    + intros e He. unfold transferAttempt, submissionAttempt in Hat. rewrite He in Hat.
      destruct Hat as [Hthis Hev]. split; [exact Hev |]. split; [| exact Hthis].
      unfold networkCalls. rewrite Hev. reflexivity.
Qed.




(** C4, as stated, fails twice over.  With the wallet connected, the
    transfer button enabled and no contract bound, Transfer to a malformed
    destination does nothing at all: no ValidationError is shown.  And with
    a contract bound and a well-formed destination, the amount 1e2 is the
    number 100, above zero, yet the conversion rejects it and nothing is
    submitted. *)
Lemma C4_counterexample :
  (let w := userTypes "transferAmount" "5"
              (userTypes "transferTo" "not-an-address" connectedUnbound) in
   let w' := run (transferTokens onTestnetNoAbi) w in
   existsb (fun e => match e with
                     | EvDom id (SetDisabled false) => String.eqb id "transferBtn"
                     | _ => false
                     end) (trace w) = true /\
   contract (this w) = None /\
   value (getElementById "transferTo" (dom w)) = "not-an-address" /\
   isAddress onTestnetNoAbi "not-an-address" = false /\
   w' = w /\
   newEvents w w' = []) /\
  (let w := userTypes "transferAmount" "1e2"
              (userTypes "transferTo" sampleUser connected) in
   let w' := run (transferTokens onTestnet) w in
   contract (this w) = Some sampleContract /\
   value (getElementById "transferTo" (dom w)) = sampleUser /\
   isAddress onTestnet sampleUser = true /\
   value (getElementById "transferAmount" (dom w)) = "1e2" /\
   ToNumber onTestnet "1e2" = Num (inject_Z 100) /\
   parseEther onTestnet "1e2" = inl (mkError "invalid decimal value") /\
   networkCalls w w' = [] /\
   innerHTML (getElementById "transferStatus" (dom w')) =
     "Transfer failed: invalid decimal value").
Proof.
  split; cbv zeta.
  - repeat split; vm_compute; reflexivity.
  - repeat split; vm_compute; reflexivity.
Qed.

(** C4, amended, for a well-formed destination and the amount 1001 in a
    connected session. *)
Lemma C4_transfer_address_validation_witness :
  let w := userTypes "transferAmount" "1001"
             (userTypes "transferTo" sampleUser connected) in
  contract (this w) = Some sampleContract /\
  transferAttempt onTestnet sampleUser "1001" w (run (transferTokens onTestnet) w).
Proof.
  cbv zeta.
  set (w := userTypes "transferAmount" "1001" (userTypes "transferTo" sampleUser connected)).
  assert (Hc : contract (this w) = Some sampleContract) by (vm_compute; reflexivity).
  split; [exact Hc |].
  destruct (C4_transfer_address_validation onTestnet w sampleContract Hc) as (_ & H & _).
  apply H.
  - vm_compute. discriminate.
  - vm_compute. reflexivity.
  - vm_compute. discriminate.
  - vm_compute. reflexivity.
Defined.

(** C10 for the amount abc in a connected session. *)
Lemma C10_non_numeric_amount_reaches_attempt_witness :
  let w := userTypes "transferAmount" "abc"
             (userTypes "transferTo" sampleUser
                (userTypes "mintAmount" "abc" connected)) in
  contract (this w) = Some sampleContract /\
  networkCalls w (run (mintTokens onTestnet) w) = [] /\
  networkCalls w (run (transferTokens onTestnet) w) = [].
Proof.
  cbv zeta.
  set (w := userTypes "transferAmount" "abc"
              (userTypes "transferTo" sampleUser
                 (userTypes "mintAmount" "abc" connected))).
  assert (Hc : contract (this w) = Some sampleContract) by (vm_compute; reflexivity).
  split; [exact Hc |].
  destruct (C10_non_numeric_amount_reaches_attempt onTestnet w sampleContract Hc)
    as (Hmint & Htransfer).
  split.
  - destruct Hmint as (_ & _ & H).
    + vm_compute. discriminate.
    + vm_compute. reflexivity.
    + destruct (H (mkError "invalid decimal value")) as (_ & Hn & _);
        [vm_compute; reflexivity | exact Hn].
  - destruct Htransfer as (_ & _ & H).
    + vm_compute. discriminate.
    + vm_compute. reflexivity.
    + vm_compute. discriminate.
    + vm_compute. reflexivity.
    + destruct (H (mkError "invalid decimal value")) as (_ & Hn & _);
        [vm_compute; reflexivity | exact Hn].
Defined.

(** ** Worked runs *)

Example formatAddress_sampleUser : formatAddress sampleUser = "0x0000...00a1".
Proof. reflexivity. Qed.

(** After [init] on the test network the session is connected, the contract
    is bound and the account box shows the shortened address. *)
Example init_connects :
  contract (this connected) = Some sampleContract /\
  userAddress (this connected) = Some sampleUser /\
  textContent (getElementById "accountAddress" (dom connected)) = "0x0000...00a1" /\
  innerHTML (getElementById "connectionStatus" (dom connected)) =
    "Wallet connected successfully!" /\
  timers connected = [mkTimer "connectionStatus" 5000].
Proof. repeat split; vm_compute; reflexivity. Qed.

(** Mint of 5 in a connected session: one submission, one record, and the
    balance refresh after the confirmation. *)
Example mint_five_confirmed :
  let w := userTypes "mintAmount" "5" connected in
  let w' := run (mintTokens onTestnet) w in
  txHistory (this w') = [mintRecord onTestnet "5" sampleTx] /\
  networkCalls w w' =
    [EvContractWhitelistMint 5000000000000000000; EvTxWait "0xfeed";
     EvContractBalanceOf sampleUser; EvContractWhitelist sampleUser] /\
  innerHTML (getElementById "mintStatus" (dom w')) =
    "Successfully minted 5 CHAL tokens!".
Proof. repeat split; vm_compute; reflexivity. Qed.

(** Mint of 1001 in a connected session: the error is shown at once, with
    no call and no record. *)
Example mint_1001_rejected :
  let w := userTypes "mintAmount" "1001" connected in
  let w' := run (mintTokens onTestnet) w in
  innerHTML (getElementById "mintStatus" (dom w')) =
    "Maximum mint amount is 1000 tokens" /\
  classList (getElementById "mintStatus" (dom w')) = ["status"; "error"] /\
  networkCalls w w' = [] /\
  txHistory (this w') = [].
Proof. repeat split; vm_compute; reflexivity. Qed.

(** A rejected submission leaves the log empty; a failed confirmation keeps
    the one pending record. *)
Example mint_failures :
  let rejected := sampleEnv (Some (sampleWallet 41454)) sampleFetch
                    (inl (mkError "execution reverted")) in
  let unconfirmed := sampleEnv (Some (sampleWallet 41454)) sampleFetch
                       (inr (mkTx "0xfeed" (inl (mkError "transaction failed")))) in
  let w := userTypes "mintAmount" "5" connected in
  txHistory (this (run (mintTokens rejected) w)) = [] /\
  map txhash (txHistory (this (run (mintTokens unconfirmed) w))) = ["0xfeed"] /\
  innerHTML (getElementById "mintStatus" (dom (run (mintTokens unconfirmed) w))) =
    "Mint failed: transaction failed".
Proof. repeat split; vm_compute; reflexivity. Qed.


(** ** What the operations leave alone *)

Lemma keeps_refl {T} (f : World -> T) w : keeps f w w.
Proof. reflexivity. Qed.

Lemma keeps_trans {T} (f : World -> T) w1 w2 w3 :
  keeps f w1 w2 -> keeps f w2 w3 -> keeps f w1 w3.
Proof. unfold keeps. intros H1 H2. by rewrite H2. Qed.

(** Walks a method body for a reading [f] that every primitive effect met
    on the way leaves alone by computation. *)
Ltac keeps_walk f :=
  cbv iota;
  frame_walk (keeps_refl f) (keeps_trans f) ltac:(solve [intros ?; reflexivity]).

Lemma historyGrows_refl w : historyGrows w w.
Proof. unfold historyGrows. reflexivity. Qed.

Lemma historyGrows_trans w1 w2 w3 :
  historyGrows w1 w2 -> historyGrows w2 w3 -> historyGrows w1 w3.
Proof. unfold historyGrows. intros H1 H2. by etrans. Qed.

Ltac history_walk :=
  cbv iota;
  frame_walk historyGrows_refl historyGrows_trans
    ltac:(first [ solve [intros ?; unfold historyGrows, run; simpl; reflexivity]
                | solve [intros ?; unfold historyGrows, run; simpl;
                         by apply suffix_cons_r] ]).

Lemma historyGrows_handle env h : preserves historyGrows (handle env h).
Proof.
  destruct h; simpl.
  - unfold connectWallet. history_walk.
  - unfold mintTokens. history_walk.
  - unfold transferTokens. history_walk.
  - unfold addNetwork. history_walk.
Qed.

Lemma historyGrows_init env : preserves historyGrows (init env).
Proof.
  unfold init, loadContractInfo, checkWalletConnection_start,
    checkWalletConnection_resume, updateContractInfo_start, updateContractInfo_resume,
    formatOrNA.
  history_walk.
Qed.

(** X1: the transaction log is append-only.  Whatever the collaborators
    answer, after start-up and after any click handler the log held before
    is still there, unchanged and in the same order, below whatever was
    added at the head. *)
Theorem X1_log_is_append_only env :
  preserves historyGrows (init env) /\
  forall h, preserves historyGrows (handle env h).
Proof. split; [apply historyGrows_init | apply historyGrows_handle]. Qed.

Lemma sessionFields_mintTokens env : preserves (keeps sessionFields) (mintTokens env).
Proof. unfold mintTokens. keeps_walk sessionFields. Qed.

Lemma sessionFields_transferTokens env :
  preserves (keeps sessionFields) (transferTokens env).
Proof. unfold transferTokens. keeps_walk sessionFields. Qed.

Lemma loadedFields_handle env h : preserves (keeps loadedFields) (handle env h).
Proof.
  destruct h; simpl.
  - unfold connectWallet, bindContract. keeps_walk loadedFields.
  - unfold mintTokens. keeps_walk loadedFields.
  - unfold transferTokens. keeps_walk loadedFields.
  - unfold addNetwork. keeps_walk loadedFields.
Qed.

(** X2: Mint and Transfer change nothing in the session but the log: the
    provider, signer, bound contract, loaded address and descriptor and
    cached user address are the same after every run; and no click handler,
    Connect included, ever changes the contract address or the interface
    descriptor that start-up loaded. *)
Theorem X2_session_fields_are_stable env :
  preserves (keeps sessionFields) (mintTokens env) /\
  preserves (keeps sessionFields) (transferTokens env) /\
  forall h, preserves (keeps loadedFields) (handle env h).
Proof.
  split; [apply sessionFields_mintTokens |].
  split; [apply sessionFields_transferTokens | apply loadedFields_handle].
Qed.

(** *** Inputs *)

Lemma keepsInputs_refl w : keepsInputs w w.
Proof. intros id. reflexivity. Qed.

Lemma keepsInputs_trans w1 w2 w3 :
  keepsInputs w1 w2 -> keepsInputs w2 w3 -> keepsInputs w1 w3.
Proof. intros H1 H2 id. by rewrite H2. Qed.

Lemma keepsInputs_dom_write id wr :
  isSetValue wr = false -> preserves keepsInputs (dom_write id wr).
Proof.
  intros Hwr w id'. unfold run; simpl.
  destruct (decide (id = id')) as [<- | Hne].
  - rewrite getElementById_writeTo. by destruct wr.
  - by rewrite getElementById_writeTo_ne.
Qed.

Ltac inputs_walk :=
  cbv iota;
  frame_walk keepsInputs_refl keepsInputs_trans
    ltac:(first [ solve [apply keepsInputs_dom_write; reflexivity]
                | solve [intros ? ?; reflexivity] ]).

Lemma keepsInputs_updateTokenInfo env : preserves keepsInputs (updateTokenInfo env).
Proof. unfold updateTokenInfo. inputs_walk. Qed.

Lemma keepsInputs_mintTokens env : preserves keepsInputs (mintTokens env).
Proof. unfold mintTokens. inputs_walk. Qed.

Lemma keepsInputs_connectWallet env b : preserves keepsInputs (connectWallet env b).
Proof. unfold connectWallet. inputs_walk. Qed.

Lemma keepsInputs_addNetwork env : preserves keepsInputs (addNetwork env).
Proof. unfold addNetwork. inputs_walk. Qed.

Lemma keepsInputs_init env : preserves keepsInputs (init env).
Proof.
  unfold init, loadContractInfo, checkWalletConnection_start,
    checkWalletConnection_resume, updateContractInfo_start, updateContractInfo_resume,
    formatOrNA.
  inputs_walk.
Qed.

(** X3: what the user typed is never overwritten by start-up, Connect, Mint
    or AddNetwork: the value of every input is the same after the run.  In
    particular Mint never clears its amount field, whatever the outcome. *)
Theorem X3_inputs_are_left_as_typed env :
  preserves keepsInputs (init env) /\
  (forall b, preserves keepsInputs (connectWallet env b)) /\
  preserves keepsInputs (mintTokens env) /\
  preserves keepsInputs (addNetwork env).
Proof.
  split; [apply keepsInputs_init |].
  split; [apply keepsInputs_connectWallet |].
  split; [apply keepsInputs_mintTokens | apply keepsInputs_addNetwork].
Qed.

(** *** Slots *)

Lemma keepsOutside_refl ids w : keepsOutside ids w w.
Proof. intros id _. reflexivity. Qed.

Lemma keepsOutside_trans ids w1 w2 w3 :
  keepsOutside ids w1 w2 -> keepsOutside ids w2 w3 -> keepsOutside ids w1 w3.
Proof. intros H1 H2 id Hid. by rewrite H2, H1. Qed.

Lemma keepsOutside_dom_write ids id wr :
  id ∈ ids -> preserves (keepsOutside ids) (dom_write id wr).
Proof.
  intros Hin w id' Hout. unfold run; simpl.
  apply getElementById_writeTo_ne. intros ->. by apply Hout.
Qed.

Ltac member :=
  repeat first [apply list_elem_of_here | apply list_elem_of_further].

Ltac slots_walk ids :=
  cbv iota;
  frame_walk (keepsOutside_refl ids) (keepsOutside_trans ids)
    ltac:(first [ solve [apply keepsOutside_dom_write; member]
                | solve [intros ? ? ?; reflexivity] ]).

Lemma keepsOutside_updateTokenInfo env :
  preserves (keepsOutside tokenSlots) (updateTokenInfo env).
Proof. unfold updateTokenInfo. slots_walk tokenSlots. Qed.

Lemma keepsOutside_connectWallet env b :
  preserves (keepsOutside connectSlots) (connectWallet env b).
Proof. unfold connectWallet. slots_walk connectSlots. Qed.

Lemma keepsOutside_mintTokens env : preserves (keepsOutside mintSlots) (mintTokens env).
Proof. unfold mintTokens. slots_walk mintSlots. Qed.

Lemma keepsOutside_transferTokens env :
  preserves (keepsOutside transferSlots) (transferTokens env).
Proof. unfold transferTokens. slots_walk transferSlots. Qed.

Lemma keepsOutside_updateContractInfo env :
  preserves (keepsOutside summarySlots) (updateContractInfo env).
Proof. unfold updateContractInfo, formatOrNA. slots_walk summarySlots. Qed.

Lemma keepsOutside_addNetwork env : preserves (keepsOutside []) (addNetwork env).
Proof. unfold addNetwork. slots_walk (@nil string). Qed.

(** X4: each operation writes only to its own slots.  Connect touches the
    connection status, the account box, the three buttons and the two token
    slots; Mint its status, the history and the two token slots; Transfer
    its status, the history, the two token slots and its two inputs; the
    summary refresh the four summary slots; AddNetwork nothing.  Every other
    element of the document is the same after the run. *)
Theorem X4_operations_write_only_their_slots env :
  (forall b, preserves (keepsOutside connectSlots) (connectWallet env b)) /\
  preserves (keepsOutside mintSlots) (mintTokens env) /\
  preserves (keepsOutside transferSlots) (transferTokens env) /\
  preserves (keepsOutside summarySlots) (updateContractInfo env) /\
  preserves (keepsOutside tokenSlots) (updateTokenInfo env) /\
  preserves (keepsOutside []) (addNetwork env).
Proof.
  split; [apply keepsOutside_connectWallet |].
  split; [apply keepsOutside_mintTokens |].
  split; [apply keepsOutside_transferTokens |].
  split; [apply keepsOutside_updateContractInfo |].
  split; [apply keepsOutside_updateTokenInfo | apply keepsOutside_addNetwork].
Qed.

(** *** Events *)

Section AddsOnly.

Variable p : Event -> bool.

Lemma addsOnly_refl w : addsOnly p w w.
Proof. exists []. by rewrite app_nil_r. Qed.

Lemma addsOnly_trans w1 w2 w3 :
  addsOnly p w1 w2 -> addsOnly p w2 w3 -> addsOnly p w1 w3.
Proof.
  intros (d1 & H1 & P1) (d2 & H2 & P2). exists (d1 ++ d2)%list.
  rewrite H2, H1, <- app_assoc, forallb_app, P1, P2. by split.
Qed.

Lemma addsOnly_emit e : p e = true -> preserves (addsOnly p) (emit e).
Proof. intros He w. exists [e]. simpl. by rewrite He. Qed.

Lemma addsOnly_dom_write id wr :
  p (EvDom id wr) = true -> preserves (addsOnly p) (dom_write id wr).
Proof. intros He w. exists [EvDom id wr]. simpl. by rewrite He. Qed.

Lemma addsOnly_setTimeout id ms :
  p (EvSetTimeout id ms) = true -> preserves (addsOnly p) (setTimeout id ms).
Proof. intros He w. exists [EvSetTimeout id ms]. simpl. by rewrite He. Qed.

Lemma addsOnly_addEventListener id h :
  p (EvListen id) = true -> preserves (addsOnly p) (addEventListener id h).
Proof. intros He w. exists [EvListen id]. simpl. by rewrite He. Qed.

Lemma addsOnly_modify_this f : preserves (addsOnly p) (modify_this f).
Proof. intros w. exists []. simpl. by rewrite app_nil_r. Qed.

Lemma addsOnly_newEvents w w' :
  addsOnly p w w' -> forallb p (newEvents w w') = true.
Proof. intros (d & H & P). by rewrite (newEvents_app w w' d H). Qed.

End AddsOnly.

Ltac events_walk p :=
  cbv iota;
  frame_walk (addsOnly_refl p) (addsOnly_trans p)
    ltac:(first [ solve [apply addsOnly_emit; reflexivity]
                | solve [apply addsOnly_dom_write; reflexivity]
                | solve [apply addsOnly_setTimeout; reflexivity]
                | solve [apply addsOnly_addEventListener; reflexivity]
                | solve [apply addsOnly_modify_this] ]).

Lemma noPrompt_connectWallet env :
  preserves (addsOnly notPrompt) (connectWallet env false).
Proof. unfold connectWallet. events_walk notPrompt. Qed.

Lemma noPrompt_init env : preserves (addsOnly notPrompt) (init env).
Proof.
  unfold init, loadContractInfo, fetchBoth, checkWalletConnection_start,
    checkWalletConnection_resume, updateContractInfo_start, updateContractInfo_resume,
    formatOrNA.
  events_walk notPrompt.
Qed.

Lemma noPrompt_checkWalletConnection env :
  preserves (addsOnly notPrompt) (checkWalletConnection env).
Proof. unfold checkWalletConnection. events_walk notPrompt. Qed.

(** X5: the silent reconnection never prompts the user.  Start-up, the wallet
    check it makes and a Connect without approval request add no
    [eth_requestAccounts] request to the events, whatever the collaborators
    answer; only the connect button's handler asks for authorization. *)
Theorem X5_silent_reconnection_never_prompts env w :
  forallb notPrompt (newEvents w (run (init env) w)) = true /\
  forallb notPrompt (newEvents w (run (checkWalletConnection env) w)) = true /\
  forallb notPrompt (newEvents w (run (connectWallet env false) w)) = true.
Proof.
  split; [apply addsOnly_newEvents, noPrompt_init |].
  split; [apply addsOnly_newEvents, noPrompt_checkWalletConnection |].
  apply addsOnly_newEvents, noPrompt_connectWallet.
Qed.

(** *** Exceptions *)

Lemma returns_get_this : returns get_this.
Proof. intros w. by eexists. Qed.

Lemma returns_dom_value id : returns (dom_value id).
Proof. intros w. by eexists. Qed.

Lemma returns_console_error label e : returns (console_error label e).
Proof. apply returns_emit. Qed.

Lemma returns_alert msg : returns (alert msg).
Proof. apply returns_emit. Qed.

(** Walks a method body down to its [try] blocks: a [try] whose handler
    returns makes the whole block return, whatever its body does. *)
Ltac returns_walk :=
  repeat first
    [ apply returns_try_catch; intros ?
    | apply returns_showStatus
    | apply returns_ret
    | apply returns_console_error
    | apply returns_alert
    | apply returns_get_this
    | apply returns_dom_value
    | apply returns_bind; [| intros ?]
    | match goal with
      | |- returns (match ?x with _ => _ end) => destruct x
      end ].

Lemma returns_connectWallet env b : returns (connectWallet env b).
Proof. unfold connectWallet. returns_walk. Qed.










(** ** Connect *)

(** The balance refresh, with what it leaves alone in the document. *)
Lemma updateTokenInfo_frame env w :
  exists d evs,
    updateTokenInfo env w =
      (Ret tt, mkWorld (this w) d (timers w) (listeners w) (trace w ++ evs)) /\
    forallb (fun e => negb (isSubmission e) && negb (isTxWait e)) evs = true /\
    (forall id, id ∉ tokenSlots -> getElementById id d = getElementById id (dom w)) /\
    (forall id, value (getElementById id d) = value (getElementById id (dom w))).
Proof.
  destruct (updateTokenInfo_run env w) as (d & evs & Hrun & Hevs).
  exists d, evs. split; [exact Hrun |]. split; [exact Hevs |].
  pose proof (keepsOutside_updateTokenInfo env w) as Hout.
  pose proof (keepsInputs_updateTokenInfo env w) as Hin.
  unfold run in Hout, Hin. rewrite Hrun in Hout, Hin. by split.
Qed.

Ltac refresh_frame E :=
  match type of E with
  | context [updateTokenInfo ?env ?W] =>
      let d := fresh "d" in
      let evs := fresh "evs" in
      let Hrun := fresh "Hrun" in
      let Hevs := fresh "Hevs" in
      let Hout := fresh "Hout" in
      let Hin := fresh "Hin" in
      destruct (updateTokenInfo_frame env W) as (d & evs & Hrun & Hevs & Hout & Hin);
      rewrite Hrun in E; simpl in E
  end.

(** Reads an element through the writes made after it. *)
Ltac dom_lookup :=
  repeat first
    [ rewrite getElementById_writeTo
    | rewrite getElementById_writeTo_ne by discriminate ].

Lemma not_tokenSlot id : id <> "userBalance" -> id <> "whitelistStatus" -> id ∉ tokenSlots.
Proof.
  intros H1 H2 Hin. unfold tokenSlots in Hin.
  apply elem_of_cons in Hin as [-> | Hin]; [done |].
  apply list_elem_of_singleton in Hin. done.
Qed.

(** X7: with no wallet installed, Connect reports the missing capability in
    the connection status slot and touches neither the network nor the
    session. *)
Theorem X7_connect_without_wallet env b w :
  ethereum env = None ->
  let w' := run (connectWallet env b) w in
  this w' = this w /\
  networkCalls w w' = [] /\
  newEvents w w' =
    (EvConsoleError "Connection error:" (mkError "Please install MetaMask") ::
     statusEvents "connectionStatus" "Connection failed: Please install MetaMask" "error").
Proof.
  intros Hw. unfold connectWallet, run, try_catch, bind. rewrite Hw. simpl.
  repeat split; events; reflexivity.
Qed.

(** X8: when the user declines the authorization request, Connect stops
    there: that request is its only call, the message of the rejection is
    passed through to the connection status slot, and no session field is
    set, the provider handle included. *)
Theorem X8_connect_declined env w wl e :
  ethereum env = Some wl -> eth_requestAccounts wl = inl e ->
  let w' := run (connectWallet env true) w in
  this w' = this w /\
  networkCalls w w' = [EvEthereumRequest "eth_requestAccounts" []] /\
  newEvents w w' =
    (EvEthereumRequest "eth_requestAccounts" [] ::
     EvConsoleError "Connection error:" e ::
     statusEvents "connectionStatus" ("Connection failed: " ++ message e) "error").
Proof.
  intros Hw He. unfold connectWallet, run, try_catch, bind. rewrite Hw. simpl.
  rewrite He. simpl. repeat split; events; reflexivity.
Qed.

(** The steps of Connect up to the network check, on the expected network. *)
Lemma connectWallet_success env b w wl user balance :
  ethereum env = Some wl ->
  (b = true -> exists accounts, eth_requestAccounts wl = inr accounts) ->
  getAddress wl = inr user -> user <> EmptyString ->
  getNetwork wl = inr 41454%Z ->
  (forall addr descriptor,
     contractAddress (this w) = Some addr -> contractABI (this w) = Some descriptor ->
     ethers_Contract env addr descriptor = None) ->
  getBalance wl user = inr balance ->
  let w' := run (connectWallet env b) w in
  provider (this w') = Some (Web3Provider wl) /\
  signer (this w') = Some (JsonRpcSigner wl) /\
  userAddress (this w') = Some user /\
  contract (this w') = boundFrom (this w) wl /\
  textContent (getElementById "accountAddress" (dom w')) = formatAddress user /\
  textContent (getElementById "accountBalance" (dom w')) = formatEther env balance /\
  textContent (getElementById "connectBtn" (dom w')) = "Connected" /\
  disabled (getElementById "connectBtn" (dom w')) = true /\
  disabled (getElementById "mintBtn" (dom w')) = false /\
  disabled (getElementById "transferBtn" (dom w')) = false /\
  hidden (getElementById "accountInfo" (dom w')) = false /\
  innerHTML (getElementById "connectionStatus" (dom w')) =
    "Wallet connected successfully!" /\
  timers w' = (timers w ++ [mkTimer "connectionStatus" 5000])%list.
Proof.
  intros Hw Hreq Hu Hne Hn Hctor Hbal. cbv zeta. unfold run.
  destruct (connectWallet env b w) as [o w'] eqn:E.
  unfold connectWallet, try_catch, bind in E. rewrite Hw in E.
  assert (Hempty : String.eqb user EmptyString = false) by (by apply String.eqb_neq).
  destruct b; [destruct (Hreq eq_refl) as [accounts Ha]; rewrite Ha in E |];
    simpl in E; rewrite Hu in E; simpl in E; rewrite Hn in E; simpl in E.
  all: unfold bindContract, updateUI, bind, get_this, boundFrom in *; simpl in E.
  all: destruct (contractAddress (this w)) as [addr|];
       destruct (contractABI (this w)) as [descriptor|]; simpl in E |- *.
  all: try (destruct (String.eqb addr EmptyString); simpl in E |- *;
            rewrite ?(Hctor _ _ eq_refl eq_refl) in E; simpl in E).
  all: rewrite Hempty in E; simpl in E; rewrite Hbal in E; simpl in E.
  all: refresh_frame E; injection E as <- <-; simpl.
  all: repeat (split; [first
         [ reflexivity
         | dom_lookup; rewrite ?Hout by (apply not_tokenSlot; discriminate);
           cbn [dom]; dom_lookup; first [reflexivity | apply has_token_removed] ] |]).
  all: reflexivity.
Qed.

(** X9: a Connect that goes through on network 41454 sets the provider, the
    signer and the user address, binds the contract from the loaded address
    and descriptor when both are present and leaves it as it was otherwise,
    shows the shortened address and the balance, marks the connect button
    as connected and disabled, and enables the mint and transfer buttons
    whether or not a contract was bound; the success status queues its
    timer. *)
Theorem X9_connect_on_testnet env b w wl user balance :
  ethereum env = Some wl ->
  (b = true -> exists accounts, eth_requestAccounts wl = inr accounts) ->
  getAddress wl = inr user -> user <> EmptyString ->
  getNetwork wl = inr 41454%Z ->
  (forall addr descriptor,
     contractAddress (this w) = Some addr -> contractABI (this w) = Some descriptor ->
     ethers_Contract env addr descriptor = None) ->
  getBalance wl user = inr balance ->
  let w' := run (connectWallet env b) w in
  provider (this w') = Some (Web3Provider wl) /\
  signer (this w') = Some (JsonRpcSigner wl) /\
  userAddress (this w') = Some user /\
  contract (this w') = boundFrom (this w) wl /\
  textContent (getElementById "accountAddress" (dom w')) = formatAddress user /\
  textContent (getElementById "accountBalance" (dom w')) = formatEther env balance /\
  textContent (getElementById "connectBtn" (dom w')) = "Connected" /\
  disabled (getElementById "connectBtn" (dom w')) = true /\
  disabled (getElementById "mintBtn" (dom w')) = false /\
  disabled (getElementById "transferBtn" (dom w')) = false /\
  hidden (getElementById "accountInfo" (dom w')) = false /\
  innerHTML (getElementById "connectionStatus" (dom w')) =
    "Wallet connected successfully!" /\
  timers w' = (timers w ++ [mkTimer "connectionStatus" 5000])%list.
Proof. apply connectWallet_success. Qed.

(** X10: when the native balance cannot be read, [updateUI] throws after the
    session fields are set and the contract is bound: Connect reports a
    failed connection, yet the session stays populated and bound, the
    address is shown, and the three buttons are left as they were. *)
Theorem X10_connect_balance_failure env b w wl user e :
  ethereum env = Some wl ->
  (b = true -> exists accounts, eth_requestAccounts wl = inr accounts) ->
  getAddress wl = inr user -> user <> EmptyString ->
  getNetwork wl = inr 41454%Z ->
  (forall addr descriptor,
     contractAddress (this w) = Some addr -> contractABI (this w) = Some descriptor ->
     ethers_Contract env addr descriptor = None) ->
  getBalance wl user = inl e ->
  (forall w0, provider (this w0) = Some (Web3Provider wl) ->
              userAddress (this w0) = Some user ->
              fst (updateUI env w0) = Throw e) /\
  let w' := run (connectWallet env b) w in
  provider (this w') = Some (Web3Provider wl) /\
  signer (this w') = Some (JsonRpcSigner wl) /\
  userAddress (this w') = Some user /\
  contract (this w') = boundFrom (this w) wl /\
  textContent (getElementById "accountAddress" (dom w')) = formatAddress user /\
  getElementById "connectBtn" (dom w') = getElementById "connectBtn" (dom w) /\
  getElementById "mintBtn" (dom w') = getElementById "mintBtn" (dom w) /\
  getElementById "transferBtn" (dom w') = getElementById "transferBtn" (dom w) /\
  innerHTML (getElementById "connectionStatus" (dom w')) =
    "Connection failed: " ++ message e /\
  timers w' = timers w.
Proof.
  intros Hw Hreq Hu Hne Hn Hctor Hbal.
  assert (Hempty : String.eqb user EmptyString = false) by (by apply String.eqb_neq).
  split.
  { intros w0 Hp Hua. unfold updateUI, bind, get_this. rewrite Hua, Hp. simpl.
    rewrite Hempty. simpl. by rewrite Hbal. }
  cbv zeta. unfold run.
  destruct (connectWallet env b w) as [o w'] eqn:E.
  unfold connectWallet, try_catch, bind in E. rewrite Hw in E.
  destruct b; [destruct (Hreq eq_refl) as [accounts Ha]; rewrite Ha in E |];
    simpl in E; rewrite Hu in E; simpl in E; rewrite Hn in E; simpl in E.
  all: unfold bindContract, updateUI, bind, get_this, boundFrom in *; simpl in E.
  all: destruct (contractAddress (this w)) as [addr|];
       destruct (contractABI (this w)) as [descriptor|]; simpl in E |- *.
  all: try (destruct (String.eqb addr EmptyString); simpl in E |- *;
            rewrite ?(Hctor _ _ eq_refl eq_refl) in E; simpl in E).
  all: rewrite Hempty in E; simpl in E; rewrite Hbal in E; simpl in E.
  all: injection E as <- <-; simpl.
  all: repeat (split; [first [reflexivity | dom_lookup; reflexivity] |]).
  all: reflexivity.
Qed.


(** ** The refreshes *)

Lemma connectWallet_returns_tt env b w :
  exists w1, connectWallet env b w = (Ret tt, w1).
Proof.
  destruct (returns_connectWallet env b w) as [[] H].
  destruct (connectWallet env b w) as [o w1]. simpl in H. subst. by exists w1.
Qed.

(** X11: the token refresh stops at the first lookup that fails.  In a
    connected session a rejected balance lookup is logged and nothing else
    happens: the whitelist is not queried and the document is untouched; a
    rejected whitelist lookup is logged after the balance has been shown,
    and leaves the whitelist slot as it was.  The session is never
    changed. *)
Theorem X11_token_refresh_stops_at_first_failure env w c user :
  contract (this w) = Some c ->
  userAddress (this w) = Some user -> user <> EmptyString ->
  let w' := run (updateTokenInfo env) w in
  let label := "Failed to update token info:" in
  this w' = this w /\
  match balanceOf (deployed env) user with
  | inl e =>
      newEvents w w' = [EvContractBalanceOf user; EvConsoleError label e] /\
      dom w' = dom w
  | inr balance =>
      textContent (getElementById "userBalance" (dom w')) =
        formatEther env balance ++ " CHAL" /\
      match whitelist (deployed env) user with
      | inl e =>
          networkCalls w w' = [EvContractBalanceOf user; EvContractWhitelist user] /\
          In (EvConsoleError label e) (newEvents w w') /\
          getElementById "whitelistStatus" (dom w') =
            getElementById "whitelistStatus" (dom w)
      | inr listed =>
          networkCalls w w' = [EvContractBalanceOf user; EvContractWhitelist user] /\
          textContent (getElementById "whitelistStatus" (dom w')) =
            (if listed then "✅ Whitelisted" else "❌ Not Whitelisted") /\
          styleColor (getElementById "whitelistStatus" (dom w')) =
            (if listed then "green" else "red")
      end
  end.
Proof.
  intros Hc Hu Hne. cbv zeta.
  assert (Hempty : String.eqb user EmptyString = false) by (by apply String.eqb_neq).
  unfold updateTokenInfo, run, bind, get_this, try_catch. rewrite Hc, Hu. simpl.
  rewrite Hempty. simpl.
  destruct (balanceOf (deployed env) user) as [e|balance]; simpl.
  { split; [reflexivity |]. split; [events; reflexivity | reflexivity]. }
  destruct (whitelist (deployed env) user) as [e|listed]; simpl.
  - split; [reflexivity |]. split; [by dom_lookup |].
    split; [events; reflexivity |]. split; [events; auto 10 |]. by dom_lookup.
  - split; [reflexivity |]. split; [by dom_lookup |].
    split; [events; reflexivity |]. split; by dom_lookup.
Qed.

(** [x || 'N/A']: the string itself unless it is missing or empty. *)
Lemma or_NA_cases o :
  or_NA o =
    match o with
    | Some (String c s) => String c s
    | Some EmptyString | None => "N/A"
    end.
Proof. by destruct o as [[|c s]|]. Qed.

(** X12: the summary refresh makes one request and never changes the
    session.  A rejected request or an unreadable body is logged with the
    document untouched, and a non-success response does nothing at all.
    Otherwise the name and the symbol are shown as they are, and N/A in
    the place of one that is missing or empty, and then the two amounts in
    turn: an amount that cannot be
    read as a number is logged and leaves its slot and the slots after it as
    they were, the earlier ones having been written. *)
Theorem X12_summary_refresh_cases env w :
  let w' := run (updateContractInfo env) w in
  let label := "Failed to update contract info:" in
  let text id := textContent (getElementById id (dom w')) in
  let same id := getElementById id (dom w') = getElementById id (dom w) in
  this w' = this w /\
  networkCalls w w' = [EvFetch "/api/contract-info"] /\
  match fetch env "/api/contract-info" with
  | inl e => dom w' = dom w /\ In (EvConsoleError label e) (newEvents w w')
  | inr r =>
      if ok r
      then match json r with
           | inl e => dom w' = dom w /\ In (EvConsoleError label e) (newEvents w w')
           | inr data =>
               text "tokenName" =
                 match name data with
                 | Some (String c s) => String c s
                 | Some EmptyString | None => "N/A"
                 end /\
               text "tokenSymbol" =
                 match symbol data with
                 | Some (String c s) => String c s
                 | Some EmptyString | None => "N/A"
                 end /\
               match summaryAmount env (totalSupply data) with
               | inl e =>
                   same "totalSupply" /\ same "maxSupply" /\
                   In (EvConsoleError label e) (newEvents w w')
               | inr total =>
                   text "totalSupply" = total /\
                   match summaryAmount env (maxSupply data) with
                   | inl e =>
                       same "maxSupply" /\
                       In (EvConsoleError label e) (newEvents w w')
                   | inr cap => text "maxSupply" = cap
                   end
               end
           end
      else w' = run (emit (EvFetch "/api/contract-info")) w
  end.
Proof.
  cbv zeta.
  unfold updateContractInfo, formatOrNA, summaryAmount, run, bind, try_catch.
  destruct (fetch env "/api/contract-info") as [e|[ok1 [e|data]]]; simpl.
  3: rewrite <- !or_NA_cases.
  { repeat split; events; auto. }
  { destruct ok1; simpl; repeat split; events; auto. }
  destruct ok1; simpl; [| repeat split; events; auto].
  destruct (truthy (totalSupply data)); simpl.
  - destruct (bigNumberFrom env _) as [e|total]; simpl.
    { repeat split; try (events; auto 10; fail); by dom_lookup. }
    destruct (truthy (maxSupply data)); simpl.
    + destruct (bigNumberFrom env _) as [e|cap]; simpl.
      * repeat split; try (events; auto 10; fail); by dom_lookup.
      * repeat split; try (events; auto 10; fail); by dom_lookup.
    + repeat split; try (events; auto 10; fail); by dom_lookup.
  - destruct (truthy (maxSupply data)); simpl.
    + destruct (bigNumberFrom env _) as [e|cap]; simpl.
      * repeat split; try (events; auto 10; fail); by dom_lookup.
      * repeat split; try (events; auto 10; fail); by dom_lookup.
    + repeat split; try (events; auto 10; fail); by dom_lookup.
Qed.

(** X13: the wallet check at start-up.  With no wallet it only shows the
    install message, with no call; with a wallet it asks once for the
    authorized accounts: a rejection is logged, an empty answer ends the
    check with the session and the document untouched, and a non-empty one
    continues as a Connect without approval request. *)
Theorem X13_wallet_check_cases env w :
  let w' := run (checkWalletConnection env) w in
  let asked := EvEthereumRequest "eth_accounts" [] in
  match ethereum env with
  | None =>
      w' = run (showStatus "connectionStatus"
                  "Please install MetaMask or another Web3 wallet" "error") w /\
      networkCalls w w' = []
  | Some wl =>
      match eth_accounts wl with
      | inl e =>
          this w' = this w /\ dom w' = dom w /\
          newEvents w w' =
            [asked; EvConsoleError "Error checking wallet connection:" e]
      | inr [] =>
          this w' = this w /\ dom w' = dom w /\ newEvents w w' = [asked]
      | inr (_ :: _) =>
          w' = run (connectWallet env false) (run (emit asked) w)
      end
  end.
Proof.
  cbv zeta. unfold checkWalletConnection.
  destruct (ethereum env) as [wl|].
  - unfold run, try_catch, bind, await.
    destruct (eth_accounts wl) as [e|[|account accounts]]; simpl.
    + repeat split; events; reflexivity.
    + repeat split; events; reflexivity.
    + destruct (connectWallet_returns_tt env false
                  (run (emit (EvEthereumRequest "eth_accounts" [])) w)) as [w1 H1].
      unfold run in *. simpl in *. by rewrite H1.
  - split; [reflexivity |].
    by destruct (validationError_quiet "connectionStatus"
                   "Please install MetaMask or another Web3 wallet" w _ eq_refl)
      as (_ & ? & _).
Qed.


(** ** The transfer form *)

Lemma value_writeTo id id' wr (d : gmap string Element) :
  isSetValue wr = false ->
  value (getElementById id (writeTo id' wr d)) = value (getElementById id d).
Proof.
  intros Hwr. destruct (decide (id' = id)) as [<- | Hne].
  - rewrite getElementById_writeTo. by destruct wr.
  - by rewrite getElementById_writeTo_ne.
Qed.

(** The events of a run whose final world is explicit, read off its trace
    alone. *)
Ltac events_of_trace :=
  erewrite newEvents_app by (cbn [snd trace]; rewrite <- ?app_assoc; cbn [List.app]; reflexivity).

Ltac inputs_kept Hin :=
  intros ?; cbn [snd dom]; rewrite ?value_writeTo by reflexivity;
  rewrite ?Hin; cbn [dom]; rewrite ?value_writeTo by reflexivity; reflexivity.

Ltac count_submissions H :=
  cbv [submissions flat_map List.app]; rewrite ?H; cbv [List.app]; cbv iota beta.

(** X14: Transfer empties its two inputs exactly when the confirmation came
    back: in every run, if the contract returned a submission handle whose
    confirmation succeeded, both inputs are empty afterwards, and in every
    other run the value of every input is what it was. *)
Theorem X14_transfer_clears_form_on_confirmation env w :
  let w' := run (transferTokens env) w in
  match submissions env (newEvents w w') with
  | tx :: _ =>
      match wait tx with
      | inr _ =>
          value (getElementById "transferTo" (dom w')) = EmptyString /\
          value (getElementById "transferAmount" (dom w')) = EmptyString
      | inl _ => keepsInputs w w'
      end
  | [] => keepsInputs w w'
  end.
Proof.
  cbv zeta. unfold run.
  destruct (transferTokens env w) as [o w'] eqn:E.
  unfold transferTokens, bind, get_this, dom_value in E.
  destruct (contract (this w)) as [c|].
  2:{ injection E as <- <-. rewrite newEvents_same by reflexivity.
      intros id. reflexivity. }
  set (to := value (getElementById "transferTo" (dom w))) in *.
  set (a := value (getElementById "transferAmount" (dom w))) in *.
  destruct (String.eqb to EmptyString || negb (isAddress env to)).
  { simpl in E. injection E as <- <-. events_of_trace. inputs_kept I. }
  destruct (String.eqb a EmptyString || js_le (ToNumber env a) (Num (inject_Z 0))).
  { simpl in E. injection E as <- <-. events_of_trace. inputs_kept I. }
  unfold try_catch, bind, lift in E. simpl in E.
  destruct (parseEther env a) as [e|v]; simpl in E.
  { injection E as <- <-. events_of_trace. inputs_kept I. }
  destruct (transfer (deployed env) to v) as [e|tx] eqn:Hsub; simpl in E.
  { injection E as <- <-. events_of_trace. count_submissions Hsub. inputs_kept I. }
  destruct (wait tx) as [e|[]] eqn:Hwait; simpl in E.
  { injection E as <- <-. events_of_trace. count_submissions Hsub. rewrite Hwait.
    inputs_kept I. }
  refresh_frame E. injection E as <- <-. events_of_trace. count_submissions Hsub.
  rewrite Hwait. cbn [snd dom]. split; by dom_lookup.
Qed.

(** ** The refresh after a confirmation *)

Lemma updateTokenInfo_calls env w c user :
  contract (this w) = Some c ->
  userAddress (this w) = Some user -> user <> EmptyString ->
  exists d evs,
    updateTokenInfo env w =
      (Ret tt, mkWorld (this w) d (timers w) (listeners w) (trace w ++ evs)) /\
    List.filter is_network_call evs = refreshCalls env user.
Proof.
  intros Hc Hu Hne.
  assert (Hempty : String.eqb user EmptyString = false) by (by apply String.eqb_neq).
  unfold updateTokenInfo, bind, get_this, try_catch, await, console_error, emit,
    ret, throw, dom_write, refreshCalls. rewrite Hc, Hu. simpl.
  rewrite Hempty. simpl.
  destruct (balanceOf (deployed env) user) as [e|balance]; simpl.
  { eexists _, [_; _]. rewrite <- !app_assoc. simpl. by split. }
  destruct (whitelist (deployed env) user) as [e|b]; simpl.
  { eexists _, [_; _; _; _]. rewrite <- !app_assoc; simpl. by split. }
  eexists _, [_; _; _; _; _]. rewrite <- !app_assoc; simpl. by split.
Qed.

Ltac refresh_calls E Hc Hu Hne :=
  match type of E with
  | context [updateTokenInfo ?env ?W] =>
      let d := fresh "d" in
      let evs := fresh "evs" in
      let Hrun := fresh "Hrun" in
      let Hcalls := fresh "Hcalls" in
      destruct (updateTokenInfo_calls env W _ _ Hc Hu Hne) as (d & evs & Hrun & Hcalls);
      rewrite Hrun in E; simpl in E
  end.

Ltac calls_of_trace :=
  unfold networkCalls; events_of_trace.

Lemma mintTokens_refreshes_after_confirmation env w c user v tx :
  contract (this w) = Some c ->
  userAddress (this w) = Some user -> user <> EmptyString ->
  let a := value (getElementById "mintAmount" (dom w)) in
  String.eqb a EmptyString || js_le (ToNumber env a) (Num (inject_Z 0)) = false ->
  js_gt (ToNumber env a) (Num (inject_Z 1000)) = false ->
  parseEther env a = inr v ->
  whitelistMint (deployed env) v = inr tx ->
  networkCalls w (run (mintTokens env) w) =
    (EvContractWhitelistMint v :: EvTxWait (hash tx) ::
     match wait tx with
     | inl _ => []
     | inr _ => refreshCalls env user
     end).
Proof.
  intros Hc Hu Hne a H1 H2 Hp Hs. unfold run.
  destruct (mintTokens env w) as [o w'] eqn:E.
  unfold mintTokens, bind, get_this, dom_value in E. rewrite Hc in E.
  fold a in E. rewrite H1, H2 in E.
  unfold try_catch, bind, lift in E. simpl in E. rewrite Hp in E. simpl in E.
  rewrite Hs in E. simpl in E.
  destruct (wait tx) as [e|[]]; simpl in E.
  { injection E as <- <-. calls_of_trace. reflexivity. }
  refresh_calls E Hc Hu Hne.
  injection E as <- <-. calls_of_trace.
  change (?x :: ?l)%list with ([x] ++ l)%list.
  simpl. by rewrite Hcalls.
Qed.

Lemma transferTokens_refreshes_after_confirmation env w c user v tx :
  contract (this w) = Some c ->
  userAddress (this w) = Some user -> user <> EmptyString ->
  let to := value (getElementById "transferTo" (dom w)) in
  let a := value (getElementById "transferAmount" (dom w)) in
  String.eqb to EmptyString || negb (isAddress env to) = false ->
  String.eqb a EmptyString || js_le (ToNumber env a) (Num (inject_Z 0)) = false ->
  parseEther env a = inr v ->
  transfer (deployed env) to v = inr tx ->
  networkCalls w (run (transferTokens env) w) =
    (EvContractTransfer to v :: EvTxWait (hash tx) ::
     match wait tx with
     | inl _ => []
     | inr _ => refreshCalls env user
     end).
Proof.
  intros Hc Hu Hne to a H1 H2 Hp Hs. unfold run.
  destruct (transferTokens env w) as [o w'] eqn:E.
  unfold transferTokens, bind, get_this, dom_value in E. rewrite Hc in E.
  fold to a in E. rewrite H1, H2 in E.
  unfold try_catch, bind, lift in E. simpl in E. rewrite Hp in E. simpl in E.
  rewrite Hs in E. simpl in E.
  destruct (wait tx) as [e|[]]; simpl in E.
  { injection E as <- <-. calls_of_trace. reflexivity. }
  refresh_calls E Hc Hu Hne.
  injection E as <- <-. calls_of_trace.
  simpl. rewrite ?List.filter_app. simpl. rewrite Hcalls. by rewrite ?app_nil_r.
Qed.

(** X15: the balances are refreshed exactly after a confirmation.  In a
    connected session, a Mint or Transfer whose submission was accepted
    makes the submission call, awaits the confirmation and then, only when
    the confirmation succeeded, queries the token balance and (unless that
    lookup failed) the whitelist membership; a failed confirmation is
    followed by no call at all. *)
Theorem X15_refresh_follows_confirmation env w c user :
  contract (this w) = Some c ->
  userAddress (this w) = Some user -> user <> EmptyString ->
  (forall v tx,
     let a := value (getElementById "mintAmount" (dom w)) in
     String.eqb a EmptyString || js_le (ToNumber env a) (Num (inject_Z 0)) = false ->
     js_gt (ToNumber env a) (Num (inject_Z 1000)) = false ->
     parseEther env a = inr v ->
     whitelistMint (deployed env) v = inr tx ->
     networkCalls w (run (mintTokens env) w) =
       (EvContractWhitelistMint v :: EvTxWait (hash tx) ::
        match wait tx with
        | inl _ => []
        | inr _ => refreshCalls env user
        end)) /\
  (forall v tx,
     let to := value (getElementById "transferTo" (dom w)) in
     let a := value (getElementById "transferAmount" (dom w)) in
     String.eqb to EmptyString || negb (isAddress env to) = false ->
     String.eqb a EmptyString || js_le (ToNumber env a) (Num (inject_Z 0)) = false ->
     parseEther env a = inr v ->
     transfer (deployed env) to v = inr tx ->
     networkCalls w (run (transferTokens env) w) =
       (EvContractTransfer to v :: EvTxWait (hash tx) ::
        match wait tx with
        | inl _ => []
        | inr _ => refreshCalls env user
        end)).
Proof.
  intros Hc Hu Hne. split.
  - intros v tx. by apply (mintTokens_refreshes_after_confirmation env w c user).
  - intros v tx. by apply (transferTokens_refreshes_after_confirmation env w c user).
Qed.

(** ** Start-up requests *)

Lemma fetches_none w w' :
  addsOnly notFetch w w' -> List.filter isFetch (newEvents w w') = [].
Proof.
  intros (d & H & P). rewrite (newEvents_app w w' d H). clear H.
  induction d as [|e d IH]; [reflexivity |]. simpl in *.
  apply andb_prop in P as [Pe Pd]. unfold notFetch in Pe.
  apply negb_true_iff in Pe. rewrite Pe. by apply IH.
Qed.

Lemma newEvents_trans w1 w2 w3 :
  (exists d, trace w2 = (trace w1 ++ d)%list) ->
  (exists d, trace w3 = (trace w2 ++ d)%list) ->
  newEvents w1 w3 = (newEvents w1 w2 ++ newEvents w2 w3)%list.
Proof.
  intros [d1 H1] [d2 H2].
  rewrite (newEvents_app w1 w2 d1 H1), (newEvents_app w2 w3 d2 H2).
  apply newEvents_app. by rewrite H2, H1, app_assoc.
Qed.

Lemma addsOnly_extends p w w' :
  addsOnly p w w' -> exists d, trace w' = (trace w ++ d)%list.
Proof. intros (d & H & _). by exists d. Qed.

Lemma run_seq (m : M unit) (k : M unit) w :
  returns m -> run (m ;;; k)%js w = run k (run m w).
Proof.
  intros Hm. unfold run, bind. destruct (Hm w) as [[] H].
  destruct (m w) as [o w1]. simpl in *. by subst.
Qed.

(** The events of two steps in sequence are those of the first followed by
    those of the second. *)
Lemma newEvents_seq (m k : M unit) w :
  returns m ->
  preserves (addsOnly anyEvent) m -> preserves (addsOnly anyEvent) k ->
  newEvents w (run (m ;;; k)%js w) =
    (newEvents w (run m w) ++ newEvents (run m w) (run k (run m w)))%list.
Proof.
  intros Hr Hm Hk. rewrite run_seq by exact Hr.
  apply newEvents_trans; eapply addsOnly_extends; [apply Hm | apply Hk].
Qed.

Lemma notFetch_setupEventListeners : preserves (addsOnly notFetch) setupEventListeners.
Proof. unfold setupEventListeners. events_walk notFetch. Qed.

Lemma notFetch_checkWalletConnection env :
  preserves (addsOnly notFetch) (checkWalletConnection env).
Proof. unfold checkWalletConnection. events_walk notFetch. Qed.

Lemma notFetch_checkWalletConnection_start env :
  preserves (addsOnly notFetch) (checkWalletConnection_start env).
Proof. unfold checkWalletConnection_start. events_walk notFetch. Qed.

Lemma notFetch_checkWalletConnection_resume env :
  preserves (addsOnly notFetch) (checkWalletConnection_resume env).
Proof. unfold checkWalletConnection_resume. events_walk notFetch. Qed.

Lemma notFetch_updateContractInfo_resume env :
  preserves (addsOnly notFetch) (updateContractInfo_resume env).
Proof. unfold updateContractInfo_resume, formatOrNA. events_walk notFetch. Qed.

Lemma fetches_loadContractInfo env w :
  List.filter isFetch (newEvents w (run (loadContractInfo env) w)) =
    [EvFetch "/api/contract-info"; EvFetch "/api/contract-abi"].
Proof.
  unfold loadContractInfo, fetchBoth, run, try_catch, bind.
  destruct (fetch env "/api/contract-info") as [e1|[ok1 [b1|d1]]],
           (fetch env "/api/contract-abi") as [e2|[ok2 [b2|d2]]];
    simpl; try destruct ok1; try destruct ok2; simpl.
  all: events; reflexivity.
Qed.

Lemma fetches_updateContractInfo env w :
  List.filter isFetch (newEvents w (run (updateContractInfo env) w)) =
    [EvFetch "/api/contract-info"].
Proof.
  unfold updateContractInfo, formatOrNA, run, bind, try_catch.
  destruct (fetch env "/api/contract-info") as [e|[ok1 [e|data]]]; simpl.
  1-2: try destruct ok1; simpl; events; reflexivity.
  destruct ok1; simpl; [| events; reflexivity].
  destruct (truthy (totalSupply data)), (truthy (maxSupply data)); simpl.
  all: repeat match goal with
       | |- context [bigNumberFrom ?e ?s] => destruct (bigNumberFrom e s); simpl
       end.
  all: events; reflexivity.
Qed.

Lemma newEvents_emit e w : newEvents w (run (emit e) w) = [e].
Proof. apply newEvents_app. reflexivity. Qed.

Ltac any_walk := events_walk anyEvent.

(** The events of start-up, step by step. *)
Lemma init_events env w :
  let w1 := run (loadContractInfo env) w in
  let w2 := run setupEventListeners w1 in
  let w3 := run (checkWalletConnection_start env) w2 in
  let w4 := run updateContractInfo_start w3 in
  let w5 := run (checkWalletConnection_resume env) w4 in
  let w6 := run (updateContractInfo_resume env) w5 in
  newEvents w (run (init env) w) =
    ((newEvents w w1 ++ newEvents w1 w2) ++ newEvents w2 w3 ++ newEvents w3 w4 ++
     newEvents w4 w5 ++ newEvents w5 w6)%list.
Proof.
  cbv zeta. unfold init.
  assert (R1 : returns (loadContractInfo env)) by apply returns_loadContractInfo.
  assert (R2 : returns setupEventListeners)
    by (unfold setupEventListeners; returns_walk; intros ?; by eexists).
  assert (R3 : returns (checkWalletConnection_start env))
    by (unfold checkWalletConnection_start; returns_walk; apply returns_emit).
  assert (R4 : returns updateContractInfo_start) by apply returns_emit.
  assert (R5 : returns (checkWalletConnection_resume env))
    by (unfold checkWalletConnection_resume; returns_walk).
  assert (A1 : preserves (addsOnly anyEvent) (loadContractInfo env))
    by (unfold loadContractInfo, fetchBoth; any_walk).
  assert (A2 : preserves (addsOnly anyEvent) setupEventListeners)
    by (unfold setupEventListeners; any_walk).
  assert (A3 : preserves (addsOnly anyEvent) (checkWalletConnection_start env))
    by (unfold checkWalletConnection_start; any_walk).
  assert (A4 : preserves (addsOnly anyEvent) updateContractInfo_start)
    by (unfold updateContractInfo_start; any_walk).
  assert (A5 : preserves (addsOnly anyEvent) (checkWalletConnection_resume env))
    by (unfold checkWalletConnection_resume; any_walk).
  assert (A6 : preserves (addsOnly anyEvent) (updateContractInfo_resume env))
    by (unfold updateContractInfo_resume, formatOrNA; any_walk).
  assert (T : forall (m k : M unit), preserves (addsOnly anyEvent) m ->
                preserves (addsOnly anyEvent) k ->
                preserves (addsOnly anyEvent) (m ;;; k)%js).
  { intros m k Hm Hk. apply (preserves_bind _ (addsOnly_trans anyEvent)); auto. }
  rewrite newEvents_seq by auto 10.
  rewrite newEvents_seq by auto 10.
  rewrite newEvents_seq by auto 10.
  rewrite newEvents_seq by auto 10.
  rewrite newEvents_seq by auto 10.
  by rewrite <- !app_assoc.
Qed.

(** X16: start-up asks the backing service three times.  [loadContractInfo]
    requests the contract info and then the descriptor, the summary refresh
    requests the contract info once more, and neither the listener setup
    nor the wallet check, the Connect it may run included, requests
    anything from the service, whatever is answered: the requests of
    start-up are these three, in this order.  The third request goes out
    right after the wallet check's first step, the request for the
    authorized accounts or, with no wallet, the install message, and so
    before any call that Connect makes. *)
Theorem X16_startup_requests env w :
  let info := EvFetch "/api/contract-info" in
  let descriptor := EvFetch "/api/contract-abi" in
  let requests m := List.filter isFetch (newEvents w (run m w)) in
  requests (loadContractInfo env) = [info; descriptor] /\
  requests setupEventListeners = [] /\
  requests (checkWalletConnection env) = [] /\
  requests (updateContractInfo env) = [info] /\
  requests (init env) = [info; descriptor; info] /\
  exists before after,
    newEvents w (run (init env) w) =
      (before ++
       match ethereum env with
       | Some _ => [EvEthereumRequest "eth_accounts" []]
       | None =>
           statusEvents "connectionStatus"
             "Please install MetaMask or another Web3 wallet" "error"
       end ++ [info] ++ after)%list /\
    List.filter isFetch before = [info; descriptor] /\
    List.filter isFetch after = [].
Proof.
  cbv zeta.
  split; [apply fetches_loadContractInfo |].
  split; [apply fetches_none, notFetch_setupEventListeners |].
  split; [apply fetches_none, notFetch_checkWalletConnection |].
  split; [apply fetches_updateContractInfo |].
  pose proof (init_events env w) as E. cbv zeta in E.
  set (w1 := run (loadContractInfo env) w) in *.
  set (w2 := run setupEventListeners w1) in *.
  set (w3 := run (checkWalletConnection_start env) w2) in *.
  set (w4 := run updateContractInfo_start w3) in *.
  set (w5 := run (checkWalletConnection_resume env) w4) in *.
  set (w6 := run (updateContractInfo_resume env) w5) in *.
  assert (F12 : List.filter isFetch (newEvents w w1 ++ newEvents w1 w2)%list =
                [EvFetch "/api/contract-info"; EvFetch "/api/contract-abi"]).
  { rewrite List.filter_app. unfold w1 at 1. rewrite fetches_loadContractInfo.
    by rewrite (fetches_none w1 w2 (notFetch_setupEventListeners w1)). }
  assert (F56 : List.filter isFetch (newEvents w4 w5 ++ newEvents w5 w6)%list = []).
  { rewrite List.filter_app.
    rewrite (fetches_none w4 w5 (notFetch_checkWalletConnection_resume env w4)).
    by rewrite (fetches_none w5 w6 (notFetch_updateContractInfo_resume env w5)). }
  assert (E4 : newEvents w3 w4 = [EvFetch "/api/contract-info"])
    by apply newEvents_emit.
  split.
  - rewrite E.
    rewrite (List.filter_app _ (newEvents w w1 ++ newEvents w1 w2)%list), F12.
    rewrite (List.filter_app _ (newEvents w2 w3)).
    rewrite (fetches_none w2 w3 (notFetch_checkWalletConnection_start env w2)).
    rewrite (List.filter_app _ (newEvents w3 w4)), F56, E4. reflexivity.
  - exists (newEvents w w1 ++ newEvents w1 w2)%list,
           (newEvents w4 w5 ++ newEvents w5 w6)%list.
    split; [| split; [exact F12 | exact F56]].
    rewrite E, E4. do 2 f_equal.
    unfold w3, checkWalletConnection_start.
    destruct (ethereum env) as [wl|]; [apply newEvents_emit |].
    destruct (showStatus_events "connectionStatus"
                "Please install MetaMask or another Web3 wallet" "error" w2) as [H _].
    rewrite H. apply app_nil_r.
Qed.


(** ** Shortened addresses *)

Lemma substring_prefix pre rest :
  String.substring 0 (String.length pre) (pre ++ rest) = pre.
Proof.
  induction pre as [|c pre IH]; append_step; cbn.
  - by destruct rest.
  - by rewrite IH.
Qed.

Lemma substring_skip pre s m :
  String.substring (String.length pre) m (pre ++ s) = String.substring 0 m s.
Proof. induction pre as [|c pre IH]; append_step; cbn; [reflexivity | exact IH]. Qed.

Lemma substring_all s m :
  String.length s <= m -> String.substring 0 m s = s.
Proof.
  revert m. induction s as [|c s IH]; intros m Hm; cbn in *.
  - by destruct m.
  - destruct m as [|m]; [lia |]. cbn. rewrite IH; [reflexivity | lia].
Qed.

Lemma length_append_string s1 s2 :
  String.length (s1 ++ s2) = String.length s1 + String.length s2.
Proof. induction s1 as [|c s1 IH]; append_step; cbn; [reflexivity | by rewrite IH]. Qed.

(** X17: on ASCII text, where a character is one byte and one UTF-16 code
    unit, an address of at least ten characters is shown as its first six
    and its last four around an ellipsis; a string of at most four
    characters is shown whole on both sides. *)
Theorem X17_formatAddress_shape :
  (forall pre mid suf,
     isAscii (pre ++ mid ++ suf) = true ->
     String.length pre = 6 -> String.length suf = 4 ->
     formatAddress (pre ++ mid ++ suf) = pre ++ "..." ++ suf) /\
  (forall a,
     isAscii a = true ->
     String.length a <= 4 -> formatAddress a = a ++ "..." ++ a).
Proof.
  split.
  - intros pre mid suf _ Hp Hs. unfold formatAddress.
    assert (H1 : String.substring 0 6 (pre ++ mid ++ suf) = pre)
      by (rewrite <- Hp; apply substring_prefix).
    assert (H2 : String.substring (String.length (pre ++ mid ++ suf) - 4)
                   (String.length (pre ++ mid ++ suf)) (pre ++ mid ++ suf) = suf).
    { rewrite <- (append_assoc_string pre mid suf).
      replace (String.length ((pre ++ mid) ++ suf) - 4)
        with (String.length (pre ++ mid))
        by (rewrite !length_append_string; lia).
      rewrite substring_skip. apply substring_all.
      rewrite !length_append_string. lia. }
    by rewrite H1, H2.
  - intros a _ Ha. unfold formatAddress.
    replace (String.length a - 4) with 0 by lia.
    rewrite !substring_all; [reflexivity | lia | lia].
Qed.


(** ** Reporting *)

(** X18: AddNetwork reports through alerts only.  With a wallet present it
    makes its one request and alerts the success, or logs the rejection and
    alerts its message; with no wallet it makes no request and alerts the
    failure of reading the wallet.  In every case the session, the document
    and the timers are left as they were: no status slot is written. *)
Theorem X18_add_network_reports_by_alert env w :
  let w' := run (addNetwork env) w in
  let request := EvEthereumRequest "wallet_addEthereumChain" [monadTestnet] in
  this w' = this w /\ dom w' = dom w /\ timers w' = timers w /\
  match ethereum env with
  | Some wl =>
      networkCalls w w' = [request] /\
      newEvents w w' =
        (request ::
         match wallet_addEthereumChain wl monadTestnet with
         | inr _ => [EvAlert "Monad Testnet added to your wallet!"]
         | inl e => [EvConsoleError "Failed to add network:" e;
                     EvAlert ("Failed to add network: " ++ message e)]
         end)
  | None =>
      networkCalls w w' = [] /\
      newEvents w w' =
        [EvConsoleError "Failed to add network:" (typeError env "request");
         EvAlert ("Failed to add network: " ++ typeErrorMessage env "request")]
  end.
Proof.
  cbv zeta. destruct (ethereum env) as [wl|] eqn:Hw.
  - destruct (addNetwork_one_request env wl w Hw) as (Hc & Hev & Ht & Hd & Htm).
    by repeat split.
  - pose proof (addNetwork_without_wallet env w Hw) as Hev.
    unfold networkCalls. rewrite Hev.
    unfold addNetwork, run, try_catch, bind. rewrite Hw. simpl.
    by repeat split.
Qed.

(** ** Connecting again *)

Lemma keepsHistory_connectWallet env b :
  preserves (keeps (fun w => txHistory (this w))) (connectWallet env b).
Proof.
  unfold connectWallet, bindContract. keeps_walk (fun w => txHistory (this w)).
Qed.

Lemma loadedFields_connectWallet env b :
  preserves (keeps loadedFields) (connectWallet env b).
Proof. unfold connectWallet, bindContract. keeps_walk loadedFields. Qed.

Lemma boundFrom_again a a' wl :
  contractAddress a' = contractAddress a -> contractABI a' = contractABI a ->
  contract a' = boundFrom a wl ->
  boundFrom a' wl = boundFrom a wl.
Proof.
  unfold boundFrom. intros -> -> Hc.
  destruct (contractAddress a) as [addr|]; [| exact Hc].
  destruct (contractABI a) as [descriptor|]; [| exact Hc].
  destruct (truthy (Some addr)); [reflexivity | exact Hc].
Qed.

Lemma MonadDemo_eq a a' :
  provider a' = provider a -> signer a' = signer a -> contract a' = contract a ->
  contractAddress a' = contractAddress a -> contractABI a' = contractABI a ->
  userAddress a' = userAddress a -> txHistory a' = txHistory a ->
  a' = a.
Proof. destruct a, a'; simpl. by intros -> -> -> -> -> -> ->. Qed.

(** X19: connecting again changes nothing in the session.  After a Connect
    that went through on network 41454, a second one (the button again, or
    the silent reconnection) leaves every session field and the log exactly
    as the first left them; it only shows the success status once more,
    which queues a second timer. *)
Theorem X19_connect_again_keeps_the_session env b b' w wl user balance :
  ethereum env = Some wl ->
  (b = true \/ b' = true -> exists accounts, eth_requestAccounts wl = inr accounts) ->
  getAddress wl = inr user -> user <> EmptyString ->
  getNetwork wl = inr 41454%Z ->
  (forall addr descriptor,
     contractAddress (this w) = Some addr -> contractABI (this w) = Some descriptor ->
     ethers_Contract env addr descriptor = None) ->
  getBalance wl user = inr balance ->
  let w1 := run (connectWallet env b) w in
  let w2 := run (connectWallet env b') w1 in
  this w2 = this w1 /\
  timers w2 = (timers w ++ [mkTimer "connectionStatus" 5000;
                            mkTimer "connectionStatus" 5000])%list.
Proof.
  intros Hw Hreq Hu Hne Hn Hctor Hbal w1 w2.
  pose proof (loadedFields_connectWallet env b w) as Hl1.
  pose proof (loadedFields_connectWallet env b' w1) as Hl2.
  pose proof (keepsHistory_connectWallet env b' w1) as Hh2.
  unfold keeps, loadedFields in Hl1, Hl2, Hh2. fold w1 in Hl1. fold w2 in Hl2, Hh2.
  injection Hl1 as Ha1 Hb1. injection Hl2 as Ha2 Hb2.
  destruct (connectWallet_success env b w wl user balance Hw
              ltac:(intros ->; apply Hreq; by left) Hu Hne Hn Hctor Hbal)
    as (Hp1 & Hs1 & Hu1 & Hc1 & _ & _ & _ & _ & _ & _ & _ & _ & Ht1).
  fold w1 in Hp1, Hs1, Hu1, Hc1, Ht1.
  destruct (connectWallet_success env b' w1 wl user balance Hw
              ltac:(intros ->; apply Hreq; by right) Hu Hne Hn
              ltac:(intros addr descriptor; rewrite Ha1, Hb1; apply Hctor) Hbal)
    as (Hp2 & Hs2 & Hu2 & Hc2 & _ & _ & _ & _ & _ & _ & _ & _ & Ht2).
  fold w2 in Hp2, Hs2, Hu2, Hc2, Ht2.
  split.
  - apply MonadDemo_eq; try congruence.
    rewrite Hc2, Hc1. by apply boundFrom_again.
  - rewrite Ht2, Ht1, <- app_assoc. reflexivity.
Qed.

(** ** The status after a run *)



(** ** The fields of the logged records *)

Lemma lacks_append c s1 s2 :
  lacks c s1 = true -> lacks c s2 = true -> lacks c (s1 ++ s2) = true.
Proof.
  intros H1 H2. induction s1 as [|x s1 IH]; append_step; [exact H2 |].
  apply lacks_cons in H1 as [Hx H1]. cbn. rewrite Hx. by apply IH.
Qed.

Lemma lacks_substring c s : forall n m,
  lacks c s = true -> lacks c (String.substring n m s) = true.
Proof.
  induction s as [|x s IH]; intros n m H.
  - by destruct n, m.
  - apply lacks_cons in H as [Hx H].
    destruct n as [|n]; [destruct m as [|m] |]; cbn; [reflexivity | | by apply IH].
    rewrite Hx. by apply IH.
Qed.

Lemma markupFree_iff s :
  markupFree s = true <->
  lacks quote s = true /\ lacks "<" s = true /\ lacks ">" s = true /\ lacks "&" s = true.
Proof. unfold markupFree. rewrite !andb_true_iff. tauto. Qed.

Lemma markupFree_append s1 s2 :
  markupFree s1 = true -> markupFree s2 = true -> markupFree (s1 ++ s2) = true.
Proof.
  rewrite !markupFree_iff. intros (A1 & A2 & A3 & A4) (B1 & B2 & B3 & B4).
  repeat split; by apply lacks_append.
Qed.

Lemma markupFree_formatAddress s :
  markupFree s = true -> markupFree (formatAddress s) = true.
Proof.
  intros H. unfold formatAddress.
  assert (Hsub : forall n m, markupFree (String.substring n m s) = true).
  { intros n m. apply markupFree_iff in H as (A1 & A2 & A3 & A4).
    apply markupFree_iff. repeat split; by apply lacks_substring. }
  repeat apply markupFree_append; auto.
Qed.

Lemma plainLog_unshift env r w w' :
  plainRecord env r = true -> plainLog env w ->
  this w' = unshift r (this w) -> plainLog env w'.
Proof.
  unfold plainLog. intros Hr Hw ->. cbn. by rewrite Hr, Hw.
Qed.

Lemma plainLog_same env w w' : this w' = this w -> plainLog env w -> plainLog env w'.
Proof. unfold plainLog. by intros ->. Qed.

Lemma plainLog_attempt env slot pending label failed success call submit record a w w' :
  (forall v tx, parseEther env a = inr v -> submit v = inr tx ->
     plainRecord env (record tx) = true) ->
  submissionAttempt env slot pending label failed success call submit record a w w' ->
  plainLog env w -> plainLog env w'.
Proof.
  unfold submissionAttempt. intros Hrec Hat Hw.
  destruct (parseEther env a) as [e|v]; [by eapply plainLog_same; [apply Hat |] |].
  destruct (submit v) as [e|tx] eqn:Hs; [by eapply plainLog_same; [apply Hat |] |].
  destruct Hat as [Hthis _].
  eapply plainLog_unshift; [| exact Hw | exact Hthis]. by eapply Hrec.
Qed.

Lemma plainLog_showStatus env slot msg ty w :
  plainLog env w -> plainLog env (run (showStatus slot msg ty) w).
Proof. apply plainLog_same. apply (showStatus_events slot msg ty w). Qed.

Lemma keepsHistory_addNetwork env :
  preserves (keeps (fun w => txHistory (this w))) (addNetwork env).
Proof. unfold addNetwork. keeps_walk (fun w => txHistory (this w)). Qed.

Lemma keepsHistory_init env :
  preserves (keeps (fun w => txHistory (this w))) (init env).
Proof.
  unfold init, loadContractInfo, checkWalletConnection_start, checkWalletConnection_resume,
    updateContractInfo_start, updateContractInfo_resume, formatOrNA, connectWallet,
    bindContract.
  keeps_walk (fun w => txHistory (this w)).
Qed.

Lemma plainLog_mintTokens env w :
  plainHelpers env -> plainLog env w -> plainLog env (run (mintTokens env) w).
Proof.
  intros (Hamount & Hto & Hmint & Htransfer & Htime) Hw.
  destruct (contract (this w)) as [c|] eqn:Hc;
    [| by rewrite (run_eq _ (ret tt) w (f_equal snd (mintTokens_unbound env w Hc)))].
  set (a := value (getElementById "mintAmount" (dom w))).
  destruct (String.eqb a EmptyString || js_le (ToNumber env a) (Num (inject_Z 0))) eqn:H1.
  { unfold run. rewrite (mintTokens_invalid env w c Hc H1). by apply plainLog_showStatus. }
  destruct (js_gt (ToNumber env a) (Num (inject_Z 1000))) eqn:H2.
  { unfold run. rewrite (mintTokens_above env w c Hc H1 H2). by apply plainLog_showStatus. }
  eapply plainLog_attempt; [| exact (mintTokens_attempt env w c Hc H1 H2) | exact Hw].
  intros v tx Hv Htx. unfold plainRecord, mintRecord. cbn [type timestamp details txhash].
  rewrite !andb_true_iff. repeat split.
  - apply Htime.
  - apply markupFree_append; [exact (Hamount a v Hv) | reflexivity].
  - exact (Hmint v tx Htx).
Qed.

Lemma plainLog_transferTokens env w :
  plainHelpers env -> plainLog env w -> plainLog env (run (transferTokens env) w).
Proof.
  intros (Hamount & Hto & Hmint & Htransfer & Htime) Hw.
  destruct (contract (this w)) as [c|] eqn:Hc;
    [| by rewrite (run_eq _ (ret tt) w (f_equal snd (transferTokens_unbound env w Hc)))].
  set (to := value (getElementById "transferTo" (dom w))).
  set (a := value (getElementById "transferAmount" (dom w))).
  destruct (String.eqb to EmptyString || negb (isAddress env to)) eqn:H1.
  { unfold run. rewrite (transferTokens_bad_address env w c Hc H1).
    by apply plainLog_showStatus. }
  destruct (String.eqb a EmptyString || js_le (ToNumber env a) (Num (inject_Z 0))) eqn:H2.
  { unfold run. rewrite (transferTokens_invalid env w c Hc H1 H2).
    by apply plainLog_showStatus. }
  eapply plainLog_attempt; [| exact (transferTokens_attempt env w c Hc H1 H2) | exact Hw].
  intros v tx Hv Htx. unfold plainRecord, transferRecord. cbn [type timestamp details txhash].
  apply orb_false_iff in H1 as [_ H1]. apply negb_false_iff in H1.
  rewrite !andb_true_iff. repeat split.
  - apply Htime.
  - apply markupFree_append; [exact (Hamount a v Hv) |].
    apply (markupFree_append " CHAL to "); [reflexivity |].
    by apply markupFree_formatAddress, Hto.
  - exact (Htransfer to v tx Htx).
Qed.

(** X21: the records the controller logs are plain text.  When the base-unit
    conversion and [isAddress] accept only text without quote, angle bracket
    or ampersand, and the hashes the contract returns and the runtime's
    date text hold none either, a log of plain records is still one after
    start-up and after every click handler: the records that Mint and
    Transfer add are made of the literal type, such a hash, such an amount
    and a shortened destination that was accepted.  The log of a freshly
    loaded page is empty, so every log built from there is plain. *)
Theorem X21_logged_records_are_plain env w :
  plainHelpers env ->
  plainLog env pageLoad /\
  (plainLog env w ->
   plainLog env (run (init env) w) /\
   forall h, plainLog env (run (handle env h) w)).
Proof.
  intros Hp. split; [reflexivity |]. intros Hw. split.
  - pose proof (keepsHistory_init env w) as K. unfold keeps in K.
    unfold plainLog in *. by rewrite K.
  - intros [].
    + pose proof (keepsHistory_connectWallet env true w) as K. unfold keeps in K.
      unfold plainLog in *. simpl. by rewrite K.
    + by apply plainLog_mintTokens.
    + by apply plainLog_transferTokens.
    + pose proof (keepsHistory_addNetwork env w) as K. unfold keeps in K.
      unfold plainLog in *. simpl. by rewrite K.
Qed.

(** ** The properties above on the sample sessions *)

(** X7 on the freshly loaded page with no wallet installed. *)
Lemma X7_connect_without_wallet_witness :
  this (run (connectWallet noWallet true) pageLoad) = this pageLoad /\
  networkCalls pageLoad (run (connectWallet noWallet true) pageLoad) = [].
Proof.
  destruct (X7_connect_without_wallet noWallet true pageLoad eq_refl) as (H1 & H2 & _).
  by split.
Defined.

(** X8 on the freshly loaded page with a user who declines. *)
Lemma X8_connect_declined_witness :
  this (run (connectWallet userDeclines true) pageLoad) = this pageLoad /\
  networkCalls pageLoad (run (connectWallet userDeclines true) pageLoad) =
    [EvEthereumRequest "eth_requestAccounts" []].
Proof.
  destruct (X8_connect_declined userDeclines pageLoad decliningWallet
              (mkError "User rejected the request.") eq_refl eq_refl)
    as (H1 & H2 & _).
  by split.
Defined.

(** X9 for the connect button on the test network, once the contract
    address and descriptor are loaded. *)
Lemma X9_connect_on_testnet_witness :
  let w' := run (connectWallet onTestnet true) loaded in
  contract (this w') = Some sampleContract /\
  disabled (getElementById "mintBtn" (dom w')) = false /\
  timers w' = [mkTimer "connectionStatus" 5000].
Proof.
  cbv zeta.
  destruct (X9_connect_on_testnet onTestnet true loaded (sampleWallet 41454)
              sampleUser 0%Z)
    as (_ & _ & _ & Hc & _ & _ & _ & _ & Hm & _ & _ & _ & Ht).
  - reflexivity.
  - intros _. by eexists.
  - reflexivity.
  - discriminate.
  - reflexivity.
  - intros addr descriptor _ _. reflexivity.
  - reflexivity.
  - split; [rewrite Hc; vm_compute; reflexivity |]. split; [exact Hm | exact Ht].
Defined.

(** X10 for the connect button when the node does not answer the balance
    query. *)
Lemma X10_connect_balance_failure_witness :
  let w' := run (connectWallet balanceUnavailable true) loaded in
  contract (this w') = Some (mkContract sampleToken (cabi sampleContract)
                               (Some (JsonRpcSigner walletWithoutBalance))) /\
  innerHTML (getElementById "connectionStatus" (dom w')) =
    "Connection failed: missing response" /\
  getElementById "mintBtn" (dom w') = getElementById "mintBtn" (dom loaded).
Proof.
  cbv zeta.
  destruct (X10_connect_balance_failure balanceUnavailable true loaded
              walletWithoutBalance sampleUser (mkError "missing response"))
    as (_ & _ & _ & _ & Hc & _ & _ & Hm & _ & Hs & _).
  - reflexivity.
  - intros _. by eexists.
  - reflexivity.
  - discriminate.
  - reflexivity.
  - intros addr descriptor _ _. reflexivity.
  - reflexivity.
  - split; [rewrite Hc; vm_compute; reflexivity |]. split; [exact Hs | exact Hm].
Defined.

(** X11 for a refresh in the connected sample session. *)
Lemma X11_token_refresh_stops_at_first_failure_witness :
  this (run (updateTokenInfo onTestnet) connected) = this connected /\
  textContent (getElementById "userBalance"
                 (dom (run (updateTokenInfo onTestnet) connected))) = "0.0 CHAL".
Proof.
  assert (Hc : contract (this connected) = Some sampleContract) by (vm_compute; reflexivity).
  assert (Hu : userAddress (this connected) = Some sampleUser) by (vm_compute; reflexivity).
  destruct (X11_token_refresh_stops_at_first_failure onTestnet connected
              sampleContract sampleUser Hc Hu ltac:(discriminate))
    as (Hthis & Hbal & _).
  by split.
Defined.

(** X15 for a Mint of 5 and a Transfer of 5 in the connected sample
    session. *)
Lemma X15_refresh_follows_confirmation_witness :
  let w := userTypes "transferAmount" "5"
             (userTypes "transferTo" sampleToken
                (userTypes "mintAmount" "5" connected)) in
  networkCalls w (run (mintTokens onTestnet) w) =
    [EvContractWhitelistMint 5000000000000000000; EvTxWait "0xfeed";
     EvContractBalanceOf sampleUser; EvContractWhitelist sampleUser] /\
  networkCalls w (run (transferTokens onTestnet) w) =
    [EvContractTransfer sampleToken 5000000000000000000; EvTxWait "0xfeed";
     EvContractBalanceOf sampleUser; EvContractWhitelist sampleUser].
Proof.
  cbv zeta.
  set (w := userTypes "transferAmount" "5"
              (userTypes "transferTo" sampleToken
                 (userTypes "mintAmount" "5" connected))).
  assert (Hc : contract (this w) = Some sampleContract) by (vm_compute; reflexivity).
  assert (Hu : userAddress (this w) = Some sampleUser) by (vm_compute; reflexivity).
  destruct (X15_refresh_follows_confirmation onTestnet w sampleContract sampleUser
              Hc Hu ltac:(discriminate)) as (Hmint & Htransfer).
  split.
  - apply (Hmint 5000000000000000000%Z sampleTx); vm_compute; reflexivity.
  - apply (Htransfer 5000000000000000000%Z sampleTx); vm_compute; reflexivity.
Defined.

(** X17 on the sample user address. *)
Lemma X17_formatAddress_shape_witness :
  formatAddress sampleUser = "0x0000...00a1" /\ formatAddress "0xa" = "0xa...0xa".
Proof.
  destruct X17_formatAddress_shape as (Hlong & Hshort).
  split.
  - exact (Hlong "0x0000" "00000000000000000000000000000000" "00a1"
             eq_refl eq_refl eq_refl).
  - apply (Hshort "0xa"); [reflexivity | cbn; lia].
Defined.

(** X19 for the connect button followed by a silent reconnection. *)
Lemma X19_connect_again_keeps_the_session_witness :
  let w1 := run (connectWallet onTestnet true) loaded in
  let w2 := run (connectWallet onTestnet false) w1 in
  this w2 = this w1 /\ length (timers w2) = 2.
Proof.
  cbv zeta.
  destruct (X19_connect_again_keeps_the_session onTestnet true false loaded
              (sampleWallet 41454) sampleUser 0%Z) as (Hthis & Ht).
  - reflexivity.
  - intros _. by eexists.
  - reflexivity.
  - discriminate.
  - reflexivity.
  - intros addr descriptor _ _. reflexivity.
  - reflexivity.
  - split; [exact Hthis | by rewrite Ht].
Defined.


Lemma plainHelpers_onTestnet : plainHelpers onTestnet.
Proof.
  repeat split.
  - intros a v. cbn. unfold sampleParseEther.
    repeat match goal with
    | |- context [String.eqb a ?s] => destruct (String.eqb_spec a s) as [-> |]
    end; (reflexivity || discriminate).
  - intros to. cbn. intros H. apply orb_true_iff in H as [H | H];
      apply String.eqb_eq in H as ->; reflexivity.
  - intros v tx. cbn. intros [= <-]. reflexivity.
  - intros to v tx. cbn. intros [= <-]. reflexivity.
Qed.

(** X21 for a Mint of 5 in the connected sample session. *)
Lemma X21_logged_records_are_plain_witness :
  let w := userTypes "mintAmount" "5" connected in
  plainHelpers onTestnet /\
  plainLog onTestnet w /\
  length (txHistory (this (run (handle onTestnet HMint) w))) = 1 /\
  plainLog onTestnet (run (handle onTestnet HMint) w).
Proof.
  cbv zeta.
  set (w := userTypes "mintAmount" "5" connected).
  assert (Hw : plainLog onTestnet w) by (vm_compute; reflexivity).
  split; [exact plainHelpers_onTestnet |]. split; [exact Hw |].
  split; [vm_compute; reflexivity |].
  destruct (X21_logged_records_are_plain onTestnet w plainHelpers_onTestnet)
    as [_ H].
  destruct (H Hw) as [_ Hh].
  exact (Hh HMint).
Defined.
